(** * Multi-model fan-out / judge orchestration of the ETL migration agent

    A shallow embedding of the services under [src/services]:
    [base_agent_service.py], [csv_comparison_agent_service.py],
    [reorder_service.py], [openai_service.py] and the helpers of
    [utils/file_utils.py] they call.

    The remote collaborators (the Azure agents client, the Azure OpenAI
    client, the local file system) are modelled as a deterministic
    environment whose answer to a request may depend on every request
    made before it.  Python code becomes a computation in a state and
    exception monad; the state carries the trace of requests, the
    records written by [logger.error] / [logger.warning] /
    [logger.exception], and, inside a single-model task, the mutable
    task context. *)

From Stdlib Require Import String Ascii List Bool Arith ZArith Lia ZifyBool.
From Stdlib Require Import DecimalString DecimalNat.
Import ListNotations.
Open Scope list_scope.
Open Scope string_scope.

Set Implicit Arguments.

(** ** Python values *)

Module Py.

(** An exception object: its class and [str(e)]. *)
Record exn : Type := Exn { exn_class : string; str_exn : string }.

(** [s.startswith(p)] *)
Definition startswith (s p : string) : bool := String.prefix p s.

(** [needle in hay] on strings. *)
Fixpoint contains (hay needle : string) : bool :=
  String.prefix needle hay ||
  match hay with
  | EmptyString => false
  | String _ rest => contains rest needle
  end.

(** [s.replace(old, new)] for one-character [old] and [new]. *)
Fixpoint replace (s : string) (old new : ascii) : string :=
  match s with
  | EmptyString => EmptyString
  | String c rest =>
      String (if Ascii.eqb c old then new else c) (replace rest old new)
  end.

(** [s.replace(old, new)] for a non-empty [old]: occurrences are
    replaced left to right without overlap.  [skip] counts the
    characters of a matched occurrence still to be dropped. *)
Fixpoint replace_str_from (s old new : string) (skip : nat) : string :=
  match s with
  | EmptyString => EmptyString
  | String c rest =>
      match skip with
      | S k => replace_str_from rest old new k
      | O =>
          if String.prefix old s
          then new ++ replace_str_from rest old new (String.length old - 1)
          else String c (replace_str_from rest old new 0)
      end
  end.

Definition replace_str (s old new : string) : string :=
  replace_str_from s old new 0.

(** [s.split(sep)[-1]] for a one-character [sep]: what follows the
    last separator.  [cur] is the segment read so far. *)
Fixpoint last_segment_from (s : string) (sep : ascii) (cur : string) : string :=
  match s with
  | EmptyString => cur
  | String c rest =>
      if Ascii.eqb c sep then last_segment_from rest sep EmptyString
      else last_segment_from rest sep (cur ++ String c EmptyString)
  end.

Definition last_segment (s : string) (sep : ascii) : string :=
  last_segment_from s sep EmptyString.

Definition is_upper (c : ascii) : bool :=
  ((65 <=? nat_of_ascii c) && (nat_of_ascii c <=? 90))%nat.
Definition is_lower (c : ascii) : bool :=
  ((97 <=? nat_of_ascii c) && (nat_of_ascii c <=? 122))%nat.
Definition upper (c : ascii) : ascii :=
  if is_lower c then ascii_of_nat (nat_of_ascii c - 32) else c.
Definition lower (c : ascii) : ascii :=
  if is_upper c then ascii_of_nat (nat_of_ascii c + 32) else c.

(** [s.lower()] and [s.title()], on the ASCII letters; every other
    character counts as uncased. *)
Fixpoint lower_str (s : string) : string :=
  match s with
  | EmptyString => EmptyString
  | String c rest => String (lower c) (lower_str rest)
  end.

Fixpoint title_from (s : string) (previous_is_cased : bool) : string :=
  match s with
  | EmptyString => EmptyString
  | String c rest =>
      if is_upper c || is_lower c
      then String (if previous_is_cased then lower c else upper c)
                  (title_from rest true)
      else String c (title_from rest false)
  end.

Definition title (s : string) : string := title_from s false.

(** [s.endswith(suffix)] *)
Definition endswith (s suffix : string) : bool :=
  (String.length suffix <=? String.length s)%nat &&
  (substring (String.length s - String.length suffix) (String.length suffix) s
   =? suffix).

(** [s.rstrip(c)] for one character. *)
Fixpoint rstrip (s : string) (c : ascii) : string :=
  match s with
  | EmptyString => EmptyString
  | String c' rest =>
      let rest' := rstrip rest c in
      if Ascii.eqb c' c && (rest' =? "") then EmptyString else String c' rest'
  end.

(** [posixpath.dirname]: the path up to its last slash, without
    trailing slashes unless it consists of slashes only.  [head] is the
    path up to the last slash read, [cur] what follows it. *)
Fixpoint dirname_from (p head cur : string) : string :=
  match p with
  | EmptyString => head
  | String c rest =>
      if Ascii.eqb c "/"
      then dirname_from rest (head ++ cur ++ "/") EmptyString
      else dirname_from rest head (cur ++ String c EmptyString)
  end.

Definition dirname (p : string) : string :=
  let head := dirname_from p EmptyString EmptyString in
  if rstrip head "/" =? "" then head else rstrip head "/".

(** [posixpath.basename] *)
Definition basename (p : string) : string := last_segment p "/".

(** [posixpath.join] of two components. *)
Definition path_join (a b : string) : string :=
  if String.prefix "/" b then b
  else if (a =? "") || endswith a "/" then a ++ b
  else a ++ "/" ++ b.

(** [xs.index(x)] on a list of strings; [None] is [ValueError]. *)
Fixpoint index (xs : list string) (x : string) : option nat :=
  match xs with
  | [] => None
  | y :: rest =>
      if y =? x then Some 0%nat
      else match index rest x with
           | Some i => Some (S i)
           | None => None
           end
  end.

(** [str(n)] of a non-negative [int], as an f-string renders it. *)
Definition str_int (n : nat) : string :=
  NilEmpty.string_of_uint (Nat.to_uint n).

(** [str(z)] of an [int]. *)
Definition str_Z (z : Z) : string :=
  NilEmpty.string_of_int (Z.to_int z).

(** The double quote, which a string literal cannot hold. *)
Definition dq : string := String (ascii_of_nat 34) EmptyString.
(** [sep.join(parts)] *)
Definition join (sep : string) (parts : list string) : string :=
  String.concat sep parts.

(** Truth value of a [str]. *)
Definition truthy (s : string) : bool := negb (s =? "").

(** A [dict] with [str] keys.  Python dictionaries iterate in
    insertion order, and assigning to a key that is present keeps the
    key's position: the dictionary is the list of its items. *)
Definition dict (V : Type) : Type := list (string * V).

Fixpoint setitem {V} (d : dict V) (k : string) (v : V) : dict V :=
  match d with
  | [] => [(k, v)]
  | (k', v') :: rest =>
      if k' =? k then (k, v) :: rest else (k', v') :: setitem rest k v
  end.

Fixpoint get {V} (d : dict V) (k : string) : option V :=
  match d with
  | [] => None
  | (k', v') :: rest => if k' =? k then Some v' else get rest k
  end.

Definition keys {V} (d : dict V) : list string := map fst d.
Definition values {V} (d : dict V) : list V := map snd d.
Definition len {V} (d : dict V) : nat := length d.

(** [k in d] *)
Definition mem {V} (d : dict V) (k : string) : bool :=
  match get d k with
  | Some _ => true
  | None => false
  end.

(** [zip(xs, ys)] stops at the shorter argument. *)
Definition zip {A B} (xs : list A) (ys : list B) : list (A * B) :=
  List.combine xs ys.

End Py.

Import Py.

(** ** The environment *)

(** The run object returned by [runs.create_and_process]: its status
    and the rendering of [run.last_error]. *)
Record ThreadRun : Type := { status : string; last_error : string }.

(** The object returned by [messages.get_last_message_text_by_role]:
    [message.text] may be missing, [message.text.value] is the text. *)
Record MessageTextContent : Type := { text : option string }.

(** A file-path annotation of a message: [annotation.text] and
    [annotation.file_path.file_id]. *)
Record FilePathAnnotation : Type :=
  { annotation_text : string; file_id : string }.

Inductive MessageRole : Type := USER | AGENT.

(** A thread message as [messages.list] yields it.
    [file_path_annotations = None] stands for a message object without
    that attribute. *)
Record ThreadMessage : Type :=
  { role : MessageRole;
    file_path_annotations : option (list FilePathAnnotation) }.

(** The response of a chat completion: the content of the message of
    each of [response.choices]. *)
Record ChatCompletion : Type := { choices : list (option string) }.

(** Every call that leaves the process. *)
Inductive request : Type :=
  (* local file system *)
  | os_path_exists (path : string)
  | shutil_copy2 (source temp : string)
  | os_remove (path : string)
  | open_read (path : string)
  | read_first_lines (path : string) (num_lines : nat)
  | os_listdir (path : string)
  | os_rename (old_path new_path : string)
  (* agents client *)
  | files_upload_and_poll (file_path : string) (filename : option string)
  | files_save (fid file_name : string) (target_dir : option string)
  | files_delete (fid : string)
  | create_agent (model name instructions : string) (file_ids : list string)
  | delete_agent (agent_id : string)
  | threads_create
  | threads_delete (thread_id : string)
  | messages_create (thread_id : option string) (content : string)
  | runs_create_and_process (thread_id agent_id : option string)
  | messages_get_last_message_text_by_role (thread_id : option string)
  | messages_list (thread_id : option string)
  (* Azure OpenAI client *)
  | chat_completions_create
      (model system_prompt user_prompt : string) (max_completion_tokens : nat).

(** The environment answers a request knowing the requests made so
    far.  Its answers are grouped by the type of value the call yields. *)
Record Env : Type :=
  { (* calls made for their effect: [None] is a normal return *)
    on_effect : list request -> request -> option exn;
    (* [os.path.exists] *)
    on_test : list request -> request -> bool;
    (* calls yielding an identifier or a file's text *)
    on_text : list request -> request -> exn + string;
    (* calls yielding the first lines of a file, or a directory listing *)
    on_lines : list request -> request -> exn + list string;
    on_run : list request -> request -> exn + ThreadRun;
    on_last_message : list request -> request -> exn + option MessageTextContent;
    on_messages : list request -> request -> exn + list ThreadMessage;
    on_completion : list request -> request -> exn + ChatCompletion }.

(** ** Computations *)

Inductive level : Type := ERROR | WARNING.

Record world : Type :=
  { trace : list request;
    log : list (level * string) }.

Inductive outcome (A : Type) : Type :=
  | Return (a : A)
  | Raise (e : exn).

Arguments Raise {A} e.

Definition M (S A : Type) : Type := S -> outcome A * S.

Definition ret {S A} (a : A) : M S A := fun s => (Return a, s).

Definition raise {S A} (e : exn) : M S A := fun s => (Raise e, s).

Definition bind {S A B} (c : M S A) (k : A -> M S B) : M S B :=
  fun s =>
    match c s with
    | (Return a, s') => k a s'
    | (Raise e, s') => (Raise e, s')
    end.

(** [try: c  except Exception as e: h e] *)
Definition try_except {S A} (c : M S A) (h : exn -> M S A) : M S A :=
  fun s =>
    match c s with
    | (Return a, s') => (Return a, s')
    | (Raise e, s') => h e s'
    end.

(** [try: c  finally: f] *)
Definition try_finally {S A} (c : M S A) (f : M S unit) : M S A :=
  fun s =>
    let (r, s') := c s in
    match f s' with
    | (Return _, s'') => (r, s'')
    | (Raise e, s'') => (Raise e, s'')
    end.

Notation "x <- c1 ;; c2" := (bind c1 (fun x => c2))
  (at level 61, c1 at next level, right associativity).
Notation "c1 ;; c2" := (bind c1 (fun _ => c2))
  (at level 61, right associativity).

(** [for x in xs: body x] *)
Fixpoint for_each {S A} (xs : list A) (body : A -> M S unit) : M S unit :=
  match xs with
  | [] => ret tt
  | x :: rest => body x ;; for_each rest body
  end.

(** [for x in xs: acc = body acc x], for a loop that builds a value. *)
Fixpoint for_fold {S A B} (xs : list A) (acc : B) (body : B -> A -> M S B)
  : M S B :=
  match xs with
  | [] => ret acc
  | x :: rest => acc' <- body acc x ;; for_fold rest acc' body
  end.

Definition record (req : request) (w : world) : world :=
  {| trace := trace w ++ [req]; log := log w |}.

Definition logger (lvl : level) (msg : string) : M world unit :=
  fun w => (Return tt, {| trace := trace w; log := log w ++ [(lvl, msg)] |}).

Definition of_answer {A} (a : exn + A) : outcome A :=
  match a with
  | inl e => Raise e
  | inr v => Return v
  end.

Section Calls.
Variable env : Env.

Definition call_effect (req : request) : M world unit :=
  fun w =>
    (match on_effect env (trace w) req with
     | Some e => Raise e
     | None => Return tt
     end, record req w).

Definition call_test (req : request) : M world bool :=
  fun w => (Return (on_test env (trace w) req), record req w).

Definition call_text (req : request) : M world string :=
  fun w => (of_answer (on_text env (trace w) req), record req w).

Definition call_lines (req : request) : M world (list string) :=
  fun w => (of_answer (on_lines env (trace w) req), record req w).

Definition call_run (req : request) : M world ThreadRun :=
  fun w => (of_answer (on_run env (trace w) req), record req w).

Definition call_last_message (req : request)
  : M world (option MessageTextContent) :=
  fun w => (of_answer (on_last_message env (trace w) req), record req w).

Definition call_messages (req : request) : M world (list ThreadMessage) :=
  fun w => (of_answer (on_messages env (trace w) req), record req w).

Definition call_completion (req : request) : M world ChatCompletion :=
  fun w => (of_answer (on_completion env (trace w) req), record req w).
End Calls.

(** The task context is a mutable object owned by one task: inside a
    task the state is the context together with the world. *)
Section Context.
Variable C : Type.

Definition lift {A} (c : M world A) : M (C * world) A :=
  fun s =>
    let (r, w') := c (snd s) in (r, (fst s, w')).

Definition get_context : M (C * world) C :=
  fun s => (Return (fst s), s).

Definition modify_context (f : C -> C) : M (C * world) unit :=
  fun s => (Return tt, (f (fst s), snd s)).

(** Run a task body on a context created for it; the context dies
    with the task. *)
Definition with_context {A} (c0 : C) (body : M (C * world) A) : M world A :=
  fun w =>
    let (r, s') := body (c0, w) in (r, snd s').
End Context.

Arguments get_context {C}.
Arguments modify_context {C} f.

(** ** utils/file_utils.py *)

Module file_utils.
Section file_utils.
Variable env : Env.

Definition FileNotFoundError (msg : string) : exn :=
  Exn "FileNotFoundError" msg.

(** [copy_files_to_temp]: the result list is built while copying, so
    the loop carries it. *)
Fixpoint copy_files_to_temp_loop
    (files : list (string * string)) (temp_files : list string)
  : M world (list string) :=
  match files with
  | [] => ret temp_files
  | (source, temp) :: rest =>
      found <- call_test env (os_path_exists source) ;;
      if negb found
      then raise (FileNotFoundError ("Source file not found: " ++ source))
      else
        call_effect env (shutil_copy2 source temp) ;;
        copy_files_to_temp_loop rest (temp_files ++ [temp])
  end.

Definition copy_files_to_temp (files : list (string * string))
  : M world (list string) :=
  copy_files_to_temp_loop files [].

Definition cleanup_temp_files (file_paths : list string) : M world unit :=
  for_each file_paths (fun file_path =>
    try_except
      (found <- call_test env (os_path_exists file_path) ;;
       if found then call_effect env (os_remove file_path) else ret tt)
      (fun e =>
         logger ERROR ("Error deleting temporary file " ++ file_path
                       ++ ": " ++ str_exn e))).

(** [read_file_lines]: the environment yields what the [readline]
    loop reads, at most [num_lines] lines; every failure yields the
    empty list. *)
Definition read_file_lines (strip : string -> string)
  (file_path : string) (num_lines : nat) : M world (list string) :=
  try_except
    (lines <- call_lines env (read_first_lines file_path num_lines) ;;
     ret (map strip lines))
    (fun e =>
       logger ERROR ("Error reading file " ++ file_path ++ ": " ++ str_exn e) ;;
       ret []).

(** [read_file_safely]: [None] when the file is missing or cannot be
    read. *)
Definition read_file_safely (file_path : string) : M world (option string) :=
  found <- call_test env (os_path_exists file_path) ;;
  if negb found then ret None
  else
    try_except
      (content <- call_text env (open_read file_path) ;;
       ret (Some content))
      (fun e =>
         logger WARNING ("Error reading file " ++ file_path ++ ": "
                         ++ str_exn e) ;;
         ret None).

Definition read_prompt_md (directory_path : string)
  : M world (option string) :=
  read_file_safely (path_join directory_path "PROMPT.md").

(** [validate_file_paths( *file_paths )] *)
Definition validate_file_paths (file_paths : list string) : M world unit :=
  for_each file_paths (fun file_path =>
    found <- call_test env (os_path_exists file_path) ;;
    if negb found
    then raise (FileNotFoundError ("File not found: " ++ file_path))
    else ret tt).
End file_utils.
End file_utils.

(** ** services/base_agent_service.py *)

Module BaseAgentService.

(** [BaseAgentTaskContext] *)
Record BaseAgentTaskContext : Type :=
  { model_name : string;
    file_ids : list string;
    agent_id : option string;
    thread_id : option string;
    tmp_files : list string }.

Definition new_context (model : string) : BaseAgentTaskContext :=
  {| model_name := model; file_ids := []; agent_id := None;
     thread_id := None; tmp_files := [] |}.

Section BaseAgentService.
Variable agents_client : Env.

Definition _cleanup_thread (thread_id : string) (model_name : string)
  : M world unit :=
  try_except
    (call_effect agents_client (threads_delete thread_id))
    (fun e =>
       logger ERROR ("Error deleting thread " ++ thread_id ++ ": " ++ str_exn e)).

Definition _cleanup_files (file_ids : list string) (model_name : string)
  : M world unit :=
  for_each file_ids (fun fid =>
    try_except
      (call_effect agents_client (files_delete fid))
      (fun e =>
         logger ERROR ("Error deleting file " ++ fid ++ ": " ++ str_exn e))).

Definition _cleanup_agent (agent_id : string) (model_name : string)
  : M world unit :=
  try_except
    (call_effect agents_client (delete_agent agent_id))
    (fun e =>
       logger ERROR ("Error deleting agent " ++ agent_id ++ ": " ++ str_exn e)).
End BaseAgentService.

(** [_cleanup_agent_resources]: [client] is [self.agents_client];
    [None] stands for a service without a client, on which the
    method returns at once. *)
Definition _cleanup_agent_resources
    (client : option Env)
    (thread_id agent_id : option string)
    (file_ids : option (list string)) (model_name : string)
  : M world unit :=
  match client with
  | None => ret tt
  | Some agents_client =>
      (match thread_id with
       | Some t =>
           if truthy t then _cleanup_thread agents_client t model_name
           else ret tt
       | None => ret tt
       end) ;;
      (match file_ids with
       | Some (f :: fs) => _cleanup_files agents_client (f :: fs) model_name
       | _ => ret tt
       end) ;;
      (match agent_id with
       | Some a =>
           if truthy a then _cleanup_agent agents_client a model_name
           else ret tt
       | None => ret tt
       end)
  end.

End BaseAgentService.

(** ** services/prompts.py *)

Module prompts.
Definition AGENT_DEFAULT_INSTRUCTIONS : string :=
  "You are a helpful agent. Process the provided files according to the users task. When you complete a task successfully, include the phrase TASK COMPLETED in your response.".

Definition AGENT_CONTINUATION_PROMPT : string :=
  "Continue your work until you successfully complete the task. Make sure to include 'TASK COMPLETED' in your response when you're done.".

Definition REORDER_TASK_PROMPT : string :=
  "You are tasked with reordering rows in both source and legacy ETL output CSV files to achieve alignment.

IMPORTANT RULES:
1. DO NOT MODIFY ANY DATA VALUES - only reorder rows
2. First identify columns that have matching values between files (even if column names differ)
3. For each identified matching column pair, note which columns correspond between files
4. Then reorder both files based on these matching columns
5. Save both reordered files with '_reordered' suffix
6. Include evidence of matching in your response

Steps:
1. Load both CSV files
2. Find columns with matching values between files:
   - Compare actual values, not just column names
   - Look for unique identifiers or combinations of fields
   - Note which columns correspond between files
3. Based on matching columns, reorder both files:
   - Sort both files using the same logic
   - Preserve all original columns
4. Ensure that any leading zeros in numeric columns are still preserved.
5. Save two files:
   - source_data_reordered.csv
   - legacy_etl_output_reordered.csv
6. Include 'TASK COMPLETED' and matching column analysis in your response

Remember: 
- Only change row ORDER, never modify row values
- Both files need to be reordered to align
- Report which columns were used for matching".

(** [REORDER_SELECTION_PROMPT_TEMPLATE.format] as a function of its
    two fields. *)
Definition REORDER_SELECTION_PROMPT_TEMPLATE
    (comparison_data model_examples : string) : string :=
  "Compare the reordered outputs with the source file order.

For each model, you see both the reordered source file and reordered legacy ETL output.
Select the model where BOTH files show the best alignment and matching order AND have the same rows in the same order.

Consider:
1. The sequence of records should match between source and legacy ETL output
2. Look for matching key fields or identifiers between the pairs
3. Both files should maintain parallel ordering
4. Check if corresponding rows have matching values in key fields

"
  ++ comparison_data ++
  "

Respond with ONLY the model name of the best reordering (e.g., "
  ++ model_examples ++ ").".

Definition CSV_DIFFERENCE_ANALYSIS_INSTRUCTIONS : string :=
  "You are an AI assistant tasked with analyzing two CSV files, named 'ported_python_output.csv' and 'correct_legacy_etl_output.csv', to find a row referring to the same data and document the difference
We are currently in progress of porting an ETL process from legacy ETL to Python. 

Follow these steps:
1.  Load both 'ported_python_output.csv' and 'correct_legacy_etl_output.csv' into dataframes using the code interpreter.
2.  Inspect the headers and a few rows from each file to understand their structure.
3.  **Row Matching Strategy**: Devise a strategy to find rows in 'correct_legacy_etl_output.csv' that correspond to rows in 'ported_python_output.csv'. This might involve looking for rows with high overall similarity, or matching based on potential key columns. 
4.  **Iterative Matching and Analysis**:
    a. Select a small sample of rows from 'ported_python_output.csv'.
    b. For one of the selected row from 'ported_python_output.csv':
        i.  Attempt to find the best matching row in 'correct_legacy_etl_output.csv' based on your strategy.
        ii. If a plausible match is found:
            4.1 One file called 'ported_python_output_row.csv' which contains the single row (directly piped from the csv) and the columns row from the Python output file that match the legacy ETL output file.
            4.2 One file called 'correct_legacy_etl_output_row.csv' which contains the single row (directly piped from the csv) and the columns row from the legacy ETL output file that match the Python output file.
            4.3 One file called 'row_location.txt' which contains location of the rows):
               ```text
               ## Correct Index (Legacy ETL File)
               332

               ## Current Index (Python File)
               4590
               ```

        iii. If no plausible match is found create use the first row a plausible match. Add a comment to the row_location.txt file indicating that no match was found.
".

Definition LEGACY_ETL_MIGRATION_SYSTEM_PROMPT : string :=
  "You are an expert legacy ETL to Python migration assistant generating Python code from legacy ETL code.

Your task is to analyze the legacy ETL code and the related CSV files and generate a complete Python script that precisely recreates the transformations.
Once the python code is executed, it must generate exactly the same output as provided in the **output CSV file**. 

Focus on recreating the resulting transformations, field mappings, data types, and any business logic applied to the data (in the order provided in the sample CSV file).
If there is SQL in the legacy ETL code that looks up data in other tables, recreate that with pandas DataFrames or explicit CSV lookups in Python.

The file you are producing in your python file must end with _PY.csv.

Give the full, production-ready code, no placeholders, no "
  ++ dq
  ++ "..."
  ++ dq
  ++ " or "
  ++ dq
  ++ "TODO"
  ++ dq
  ++ " comments. All fields must be fully specified with their types and transformations.
Generate a complete, runnable Python script that can be saved directly to a file and executed.
".

Definition PYTHON_REFINEMENT_SYSTEM_PROMPT : string :=
  "You are an expert in legacy ETL to Python migration. Your task is to refine existing Python code to ensure it produces EXACTLY the same output as the original legacy ETL code.

Key requirements:
1. The Python code must produce identical output to the legacy ETL code - same values, same formatting, same order
2. Pay careful attention to data types, rounding, string formatting, and sorting
3. Ensure all transformations match the legacy ETL logic precisely
4. Handle edge cases and null values the same way as legacy ETL
5. Preserve the exact column order and naming from legacy ETL output

You will be provided with:
- The original legacy ETL code
- The current Python code that needs refinement
- Any other relevant CSV files that are used in the data dir (e.g. lookup tables, input data, schema files)
- Sample input and output CSV data (both output generated from legacy ETL and Python (Ends with _PY.csv))

Your response should include:
1. A brief analysis of what needs to be fixed
2. The COMPLETE updated Python code (not just snippets)
3. Explanations of key changes made
".

(** [PYTHON_REFINEMENT_PROMPT_TEMPLATE.format] as a function of its
    five fields. *)
Definition PYTHON_REFINEMENT_PROMPT_TEMPLATE
    (current_python_code full_legacy_etl_code csv_context_str issues_description additional_context : string) : string :=
  "Please refine the following Python code to ensure it produces EXACTLY the same output as the legacy ETL code.

CURRENT PYTHON CODE:
```python
"
  ++ current_python_code
  ++ "
```

ORIGINAL LEGACY ETL CODE:
"
  ++ full_legacy_etl_code
  ++ "

"
  ++ csv_context_str
  ++ "

SPECIFIC ISSUES TO ADDRESS:
"
  ++ issues_description
  ++ "

"
  ++ additional_context
  ++ "

Please provide:
1. A brief analysis of what needs to be fixed
2. The COMPLETE updated Python code (entire file, not just changes)
3. Key explanations of the changes made

Focus on ensuring the Python output matches the legacy ETL output exactly in terms of:
- Data values and formatting
- Column order and naming
- Row order and sorting
- Handling of null/empty values
- Number formatting and precision
- Date/time formatting
- String case and trimming
".

Definition DEFAULT_SYSTEM_PROMPT : string :=
  "You are a helpful AI assistant.".
End prompts.

(** ** The thread pool *)

(** What becomes of a task handed to [loop.run_in_executor]: either the
    hand-over raises, or the task runs on a worker thread against the
    environment as that worker meets it. *)
Record worker : Type := { submit_error : option exn; meets : Env }.

Definition empty_world : world := {| trace := []; log := [] |}.

(** The awaited result of [run_in_executor]: what the task returns or
    raises. *)
Definition run_in_executor {A} (w : worker) (task : Env -> M world A)
  : outcome A :=
  match submit_error w with
  | Some e => Raise e
  | None => fst (task (meets w) empty_world)
  end.

(** [await c] for a coroutine whose outcome is known. *)
Definition await {S A} (r : outcome A) : M S A := fun s => (r, s).

Fixpoint enumerate {A} (xs : list A) (start : nat) : list (nat * A) :=
  match xs with
  | [] => []
  | x :: rest => (start, x) :: enumerate rest (S start)
  end.

Definition nl : string := String (ascii_of_nat 10) EmptyString.

Definition IndexError : exn := Exn "IndexError" "list index out of range".

Definition KeyError (key : string) : exn := Exn "KeyError" key.

(** [d[k]] *)
Definition getitem {S V} (d : dict V) (k : string) : M S V :=
  match get d k with
  | Some v => ret v
  | None => raise (KeyError k)
  end.

(** [xs[0]] *)
Definition first {S A} (xs : list A) : M S A :=
  match xs with
  | x :: _ => ret x
  | [] => raise IndexError
  end.

(** ** services/openai_service.py *)

Module OpenAIService.

(** The fields of [LegacyEtlMcpConfig] the services read.  The
    services reach [model_deployments] through [getattr] / [hasattr]:
    [None] stands for a configuration object without the attribute. *)
Record LegacyEtlMcpConfig : Type :=
  { azure_openai_deployment_name : string;
    model_deployments : option (list string);
    best_output_selector_model : string }.

Definition SELECTION_MAX_TOKENS : nat := 10.

Definition CSV_OUTPUT_SELECTION_SYSTEM_PROMPT : string :=
  "You are an expert at evaluating CSV data mapping quality. Respond with only a single number.".

Definition OpenAIServiceError (msg : string) : exn :=
  Exn "OpenAIServiceError" msg.

Definition ValueError (msg : string) : exn := Exn "ValueError" msg.

Section OpenAIService.
(** [self.client] and [self.config] *)
Variable client : Env.
Variable config : LegacyEtlMcpConfig.
(** The builtins [str.strip] and [int]; [None] is [ValueError]. *)
Variable strip : string -> string.
Variable int : string -> option Z.
(** [CSV_OUTPUT_SELECTION_USER_PROMPT_TEMPLATE.format] as a function
    of its two fields. *)
Variable CSV_OUTPUT_SELECTION_USER_PROMPT_TEMPLATE : string -> nat -> string.

Definition _prepare_numbered_outputs (model_outputs : dict string)
  : list (nat * (string * string)) :=
  map (fun '(i, item) => (i + 1, item)) (enumerate model_outputs 0).

Definition _build_selection_prompt
    (numbered_outputs : list (nat * (string * string))) : string :=
  let outputs_text :=
    join nl
      (map (fun '(num, (_, output)) =>
              "=== OUTPUT " ++ str_int num ++ " ===" ++ nl ++ output ++ nl)
           numbered_outputs) in
  CSV_OUTPUT_SELECTION_USER_PROMPT_TEMPLATE outputs_text
    (length numbered_outputs).

(** [_make_api_call]: both handlers log and re-raise. *)
Definition _make_api_call (model system_prompt user_prompt : string)
    (max_completion_tokens : nat) : M world ChatCompletion :=
  try_except
    (call_completion client
       (chat_completions_create model system_prompt user_prompt
          max_completion_tokens))
    (fun e =>
       (if exn_class e =? "OpenAIError"
        then logger ERROR ("Azure OpenAI API error: " ++ str_exn e)
        else logger ERROR ("Unexpected error during OpenAI call: " ++ str_exn e)) ;;
       raise e).

Definition _extract_response_content (response : ChatCompletion)
  : M world string :=
  content <- first (choices response) ;;
  match content with
  | None => raise (OpenAIServiceError "Response content is None")
  | Some c => ret (strip c)
  end.

Definition _get_selection_number (selection_prompt : string) : M world Z :=
  let judge_model :=
    if truthy (best_output_selector_model config)
    then best_output_selector_model config
    else azure_openai_deployment_name config in
  response <- _make_api_call judge_model CSV_OUTPUT_SELECTION_SYSTEM_PROMPT
                selection_prompt SELECTION_MAX_TOKENS ;;
  selection_text <- _extract_response_content response ;;
  match int selection_text with
  | Some n => ret n
  | None => raise (ValueError ("Invalid selection response: " ++ selection_text))
  end.

(** [numbered_outputs[selected_num]] when [selected_num in
    numbered_outputs]. *)
Fixpoint numbered_get (numbered_outputs : list (nat * (string * string)))
    (selected_num : Z) : option (string * string) :=
  match numbered_outputs with
  | [] => None
  | (num, item) :: rest =>
      if Z.eqb (Z.of_nat num) selected_num then Some item
      else numbered_get rest selected_num
  end.

Definition _get_selected_output
    (numbered_outputs : list (nat * (string * string)))
    (selected_num : Z) (model_outputs : dict string) : M world string :=
  match numbered_get numbered_outputs selected_num with
  | Some (selected_model, selected_output) => ret selected_output
  | None =>
      logger WARNING ("Invalid selection number: " ++ str_Z selected_num
                      ++ ". Using first available.") ;;
      first (values model_outputs)
  end.

Definition select_best_csv_output (model_outputs : dict string)
  : M world string :=
  if Nat.eqb (len model_outputs) 1 then first (values model_outputs)
  else
    let numbered_outputs := _prepare_numbered_outputs model_outputs in
    let selection_prompt := _build_selection_prompt numbered_outputs in
    try_except
      (selected_number <- _get_selection_number selection_prompt ;;
       _get_selected_output numbered_outputs selected_number model_outputs)
      (fun e =>
         logger ERROR ("Error selecting best output: " ++ str_exn e
                       ++ ", using first model") ;;
         first (values model_outputs)).

Definition DEFAULT_MAX_TOKENS : nat := 8 * 1000.

(** [self.config.legacy_etl_code_description] and
    [self.system_prompt_template], which [__init__] sets to
    [LEGACY_ETL_MIGRATION_SYSTEM_PROMPT]. *)
Variable legacy_etl_code_description : string.
Variable system_prompt_template : string.

(** [value or default] for an optional string. *)
Definition or_default (value : option string) (default : string) : string :=
  match value with
  | Some v => if truthy v then v else default
  | None => default
  end.

(** [get_completion]; the temperature is not part of the request as
    the environment sees it. *)
Definition get_completion (prompt : string)
    (system_prompt model_name : option string) (max_tokens : option nat)
  : M world string :=
  let system_prompt := or_default system_prompt prompts.DEFAULT_SYSTEM_PROMPT in
  let model_name := or_default model_name (azure_openai_deployment_name config) in
  let max_tokens :=
    match max_tokens with
    | Some (S n) => S n
    | _ => DEFAULT_MAX_TOKENS
    end in
  try_except
    (response <- _make_api_call model_name system_prompt prompt max_tokens ;;
     _extract_response_content response)
    (fun e =>
       raise (OpenAIServiceError ("Failed to get completion: " ++ str_exn e))).

Definition _build_analysis_prompt (legacy_code csv_context : string) : string :=
  let code_language := lower_str legacy_etl_code_description in
  "LEGACY ETL CODE TO ANALYZE:" ++ nl
  ++ "```" ++ code_language ++ nl
  ++ legacy_code ++ nl
  ++ "```" ++ nl
  ++ nl
  ++ "CSV CONTEXT:" ++ nl
  ++ csv_context ++ nl
  ++ nl
  ++ "Based on the data provided, provide complete migrated python code.".

Definition _build_system_prompt (directory_path : option string)
  : M world string :=
  let system_prompt := system_prompt_template in
  match directory_path with
  | Some path =>
      if truthy path
      then
        prompt_md_content <- file_utils.read_prompt_md client path ;;
        match prompt_md_content with
        | Some content =>
            if truthy content
            then ret (system_prompt ++ nl ++ nl
                      ++ "## Additional Instructions from PROMPT.md"
                      ++ nl ++ nl ++ content)
            else ret system_prompt
        | None => ret system_prompt
        end
      else ret system_prompt
  | None => ret system_prompt
  end.

Definition analyze_legacy_etl_code (legacy_code csv_context : string)
    (directory_path : option string) : M world string :=
  let user_prompt := _build_analysis_prompt legacy_code csv_context in
  system_prompt <- _build_system_prompt directory_path ;;
  try_except
    (response <- _make_api_call (azure_openai_deployment_name config)
                   system_prompt user_prompt DEFAULT_MAX_TOKENS ;;
     _extract_response_content response)
    (fun e =>
       let error_msg := "Failed to analyze legacy ETL code: " ++ str_exn e in
       logger ERROR error_msg ;;
       raise (OpenAIServiceError error_msg)).

(** The backward-compatibility wrapper. *)
Definition analyze_legacy_etl_code_with_context
    (legacy_etl_code csv_context_str : string) (directory_path : option string)
  : M world string :=
  analyze_legacy_etl_code legacy_etl_code csv_context_str directory_path.
End OpenAIService.
End OpenAIService.

(** ** services/csv_comparison_agent_service.py *)

Module CSVComparisonAgentService.
Import BaseAgentService.

(** [AgentContext] inherits every field of [BaseAgentTaskContext]. *)
Definition AgentContext : Type := BaseAgentTaskContext.

Definition DEFAULT_MODEL : string := "gpt-4".
Definition MAX_ATTEMPTS : nat := 3.
Definition TASK_COMPLETION_MARKER : string := "TASK COMPLETED".

Definition AttributeError (msg : string) : exn := Exn "AttributeError" msg.

(** The two staging paths of [_prepare_comparison_files]. *)
Definition tmp_python (model_name : string) : string :=
  "/tmp/ported_python_output_" ++ replace model_name "." "_" ++ ".csv".

Definition tmp_legacy (model_name : string) : string :=
  "/tmp/correct_legacy_etl_output_" ++ replace model_name "." "_" ++ ".csv".

Definition _is_task_completed (message : option MessageTextContent) : bool :=
  match message with
  | Some m =>
      match text m with
      | Some value => contains value TASK_COMPLETION_MARKER
      | None => false
      end
  | None => false
  end.

Definition _format_csv_name (text : string) : string :=
  let name := replace_str (last_segment text "/") ".csv" "" in
  title (replace name "_" " ").

(** The strings [_execute_agent_task] returns on its failure paths. *)
Definition run_failed (run : ThreadRun) : string :=
  "Run failed: " ++ last_error run.

Definition max_attempts_reached (model_name : string) : string :=
  "Maximum attempts reached without task completion for model " ++ model_name.

Section CSVComparisonAgentService.
Variable agents_client : Env.

Definition _prepare_comparison_files
    (python_path legacy_path model_name : string)
  : M (AgentContext * world) unit :=
  copied <- lift (file_utils.copy_files_to_temp agents_client
                    [(python_path, tmp_python model_name);
                     (legacy_path, tmp_legacy model_name)]) ;;
  modify_context (fun c =>
    {| model_name := BaseAgentService.model_name c;
       file_ids := file_ids c; agent_id := agent_id c;
       thread_id := thread_id c; tmp_files := copied |}).

Definition _upload_files_to_agent : M (AgentContext * world) unit :=
  context <- get_context ;;
  for_each (tmp_files context) (fun file_path =>
    file <- lift (call_text agents_client
                    (files_upload_and_poll file_path None)) ;;
    modify_context (fun c =>
      {| model_name := BaseAgentService.model_name c;
         file_ids := file_ids c ++ [file]; agent_id := agent_id c;
         thread_id := thread_id c; tmp_files := tmp_files c |})).

Definition _create_and_configure_agent (model_name : string)
  : M (AgentContext * world) unit :=
  context <- get_context ;;
  agent <- lift (call_text agents_client
             (create_agent model_name
                ("csv-comparison-agent-" ++ replace model_name "." "-")
                prompts.AGENT_DEFAULT_INSTRUCTIONS (file_ids context))) ;;
  modify_context (fun c =>
    {| model_name := BaseAgentService.model_name c;
       file_ids := file_ids c; agent_id := Some agent;
       thread_id := thread_id c; tmp_files := tmp_files c |}) ;;
  thread <- lift (call_text agents_client threads_create) ;;
  modify_context (fun c =>
    {| model_name := BaseAgentService.model_name c;
       file_ids := file_ids c; agent_id := agent_id c;
       thread_id := Some thread; tmp_files := tmp_files c |}).

Definition _get_last_agent_message (thread_id : option string)
  : M world (option MessageTextContent) :=
  call_last_message agents_client
    (messages_get_last_message_text_by_role thread_id).

Definition _send_continuation_prompt (thread_id : option string)
  : M world unit :=
  call_effect agents_client
    (messages_create thread_id prompts.AGENT_CONTINUATION_PROMPT).

Definition _download_and_read_csv (fid model_name : string)
  : M world (option string) :=
  let file_name := fid ++ "_csv_" ++ replace model_name "." "_" in
  try_except
    (call_effect agents_client (files_save fid file_name None) ;;
     content <- call_text agents_client (open_read file_name) ;;
     call_effect agents_client (os_remove file_name) ;;
     ret (Some content))
    (fun e =>
       logger ERROR ("Error reading CSV file " ++ fid ++ ": " ++ str_exn e) ;;
       ret None).

Definition _extract_csv_results (thread_id : option string)
    (model_name : string) : M world string :=
  messages <- call_messages agents_client (messages_list thread_id) ;;
  result_parts <-
    for_fold messages [] (fun parts msg =>
      match file_path_annotations msg with
      | None =>
          raise (AttributeError
                   "'ThreadMessage' object has no attribute 'file_path_annotations'")
      | Some annotations =>
          for_fold annotations parts (fun parts annotation =>
            csv_content <- _download_and_read_csv (file_id annotation) model_name ;;
            match csv_content with
            | Some content =>
                if truthy content
                then
                  let file_name := _format_csv_name (annotation_text annotation) in
                  let part := "# " ++ file_name ++ nl ++ content ++ nl ++ nl in
                  ret (app parts [part])
                else ret parts
            | None => ret parts
            end)
      end) ;;
  ret (join "" result_parts).

(** The body of [for attempt in range(1, MAX_ATTEMPTS + 1)], with the
    [return] that follows the loop. *)
Fixpoint attempts (context : AgentContext) (range : list nat)
  : M world string :=
  match range with
  | [] => ret (max_attempts_reached (BaseAgentService.model_name context))
  | attempt :: rest =>
      run <- call_run agents_client
               (runs_create_and_process (thread_id context) (agent_id context)) ;;
      if status run =? "failed"
      then
        logger ERROR ("Run failed for model "
                      ++ BaseAgentService.model_name context
                      ++ ": " ++ last_error run) ;;
        ret (run_failed run)
      else
        last_message <- _get_last_agent_message (thread_id context) ;;
        if _is_task_completed last_message
        then _extract_csv_results (thread_id context)
               (BaseAgentService.model_name context)
        else
          (if Nat.ltb attempt MAX_ATTEMPTS
           then _send_continuation_prompt (thread_id context)
           else ret tt) ;;
          attempts context rest
  end.

Definition _execute_agent_task (task : string)
  : M (AgentContext * world) string :=
  context <- get_context ;;
  lift (call_effect agents_client (messages_create (thread_id context) task) ;;
        attempts context (seq 1 MAX_ATTEMPTS)).

(** [_cleanup_agent_resources(context)], the override. *)
Definition _cleanup_agent_resources : M (AgentContext * world) unit :=
  context <- get_context ;;
  lift (BaseAgentService._cleanup_agent_resources (Some agents_client)
          (thread_id context) (agent_id context) (Some (file_ids context))
          (BaseAgentService.model_name context) ;;
        file_utils.cleanup_temp_files agents_client (tmp_files context)).

Definition _run_comparison_sync
    (python_output_path legacy_output_path task model_name : string)
  : M world string :=
  with_context (new_context model_name)
    (try_finally
       (try_except
          (_prepare_comparison_files python_output_path legacy_output_path
             model_name ;;
           _upload_files_to_agent ;;
           _create_and_configure_agent model_name ;;
           _execute_agent_task task)
          (fun e =>
             lift (logger ERROR
                     ("Error during comparison with agent " ++ model_name
                      ++ ": " ++ str_exn e)) ;;
             ret ("An error occurred during agent processing with model "
                  ++ model_name ++ ": " ++ str_exn e)))
       _cleanup_agent_resources).
End CSVComparisonAgentService.

(** The service object: the environment the orchestrating coroutine
    meets (the client of [self.openai_service]), the configuration
    and the builtins [self.openai_service] uses, [self.model_name],
    and [self._executor], the pool that gives the i-th task handed
    to it its worker. *)
Record service : Type :=
  { environment : Env;
    config : OpenAIService.LegacyEtlMcpConfig;
    strip : string -> string;
    int : string -> option Z;
    CSV_OUTPUT_SELECTION_USER_PROMPT_TEMPLATE : string -> nat -> string;
    model_name_ : string;
    _executor : nat -> worker }.

(** [_initialize_model_deployments] *)
Definition model_deployments (self : service) : list string :=
  match OpenAIService.model_deployments (config self) with
  | Some deployments => deployments
  | None => [model_name_ self]
  end.

Definition _is_single_model_mode (self : service) : bool :=
  match OpenAIService.model_deployments (config self) with
  | None => true
  | Some _ => Nat.eqb (length (model_deployments self)) 1
  end.

(** [_run_single_comparison]; [position] is the rank of the task
    among those handed to the pool. *)
Definition _run_single_comparison (self : service) (position : nat)
    (python_output_path legacy_output_path task model_name : string)
  : outcome string :=
  run_in_executor (_executor self position)
    (fun agents_client =>
       _run_comparison_sync agents_client python_output_path
         legacy_output_path task model_name).

Definition _collect_successful_outputs (self : service)
    (results : list (outcome string)) : M world (dict string) :=
  for_fold (zip (model_deployments self) results) []
    (fun model_outputs '(model, result) =>
       match result with
       | Raise e =>
           logger ERROR ("Model " ++ model ++ " failed: " ++ str_exn e) ;;
           ret model_outputs
       | Return s =>
           if negb (startswith s "Error:")
           then ret (setitem model_outputs model s)
           else ret model_outputs
       end).

(** [asyncio.gather] over the coroutines with
    [return_exceptions=True]: one outcome per coroutine, in the order
    of the coroutines. *)
Definition gather (self : service)
    (python_output_path legacy_output_path task : string)
  : list (outcome string) :=
  map (fun '(position, model) =>
         _run_single_comparison self position python_output_path
           legacy_output_path task model)
      (enumerate (model_deployments self) 0).

Definition all_models_failed : string :=
  "Error: All models failed to process the files".

Definition _run_parallel_comparisons (self : service)
    (python_output_path legacy_output_path task : string)
  : M world string :=
  let results := gather self python_output_path legacy_output_path task in
  model_outputs <- _collect_successful_outputs self results ;;
  if Nat.eqb (len model_outputs) 0 then ret all_models_failed
  else if Nat.eqb (len model_outputs) 1 then first (values model_outputs)
  else
    OpenAIService.select_best_csv_output (environment self) (config self)
      (strip self) (int self)
      (CSV_OUTPUT_SELECTION_USER_PROMPT_TEMPLATE self) model_outputs.

Definition compare_csv_files (self : service)
    (python_output_path legacy_output_path task : string)
  : M world string :=
  if _is_single_model_mode self
  then await (_run_single_comparison self 0 python_output_path
                legacy_output_path task (model_name_ self))
  else _run_parallel_comparisons self python_output_path legacy_output_path task.

End CSVComparisonAgentService.

(** ** services/reorder_service.py *)

Module ReorderService.

Record ReorderContext : Type :=
  { model_name : string;
    model_index : nat;
    file_ids : list string;
    agent_id : option string;
    thread_id : option string;
    tmp_files : list string }.

Definition new_context (model : string) (index : nat) : ReorderContext :=
  {| model_name := model; model_index := index; file_ids := [];
     agent_id := None; thread_id := None; tmp_files := [] |}.

Definition DEFAULT_MODEL : string := "gpt-4".
Definition CSV_HEAD_LINES : nat := 20.
Definition CSV_SAMPLE_LINES : nat := 5.

Definition ReorderServiceError (msg : string) : exn :=
  Exn "ReorderServiceError" msg.

Definition AttributeError (msg : string) : exn := Exn "AttributeError" msg.

Definition ValueError (msg : string) : exn := Exn "ValueError" msg.

(** The two staging paths of [_prepare_reorder_files]. *)
Definition tmp_source (model_index : nat) : string :=
  "/tmp/source_data_" ++ str_int model_index ++ ".csv".

Definition tmp_legacy (model_index : nat) : string :=
  "/tmp/legacy_etl_output_" ++ str_int model_index ++ ".csv".

(** The strings the task returns on its failure paths. *)
Definition run_failed (run : ThreadRun) : string :=
  "Error: Run failed: " ++ last_error run.

Definition no_output : string := "Error: No reordered output was generated".

Definition _format_reorder_results (reordered_content : dict string) : string :=
  join ""
    (("# Reordering Analysis" ++ nl) ::
     flat_map (fun '(file_name, content) =>
                 [nl ++ "## " ++ file_name ++ nl; content; nl])
       reordered_content).

Section ReorderService.
Variable agents_client : Env.

Definition _prepare_reorder_files (source_path legacy_path : string)
  : M (ReorderContext * world) unit :=
  context <- get_context ;;
  copied <- lift (file_utils.copy_files_to_temp agents_client
                    [(source_path, tmp_source (model_index context));
                     (legacy_path, tmp_legacy (model_index context))]) ;;
  modify_context (fun c =>
    {| model_name := model_name c; model_index := model_index c;
       file_ids := file_ids c; agent_id := agent_id c;
       thread_id := thread_id c; tmp_files := copied |}).

Definition _upload_files_for_reordering : M (ReorderContext * world) unit :=
  context <- get_context ;;
  for_each (tmp_files context) (fun file_path =>
    let file_name := basename file_path in
    file <- lift (call_text agents_client
                    (files_upload_and_poll file_path (Some file_name))) ;;
    modify_context (fun c =>
      {| model_name := model_name c; model_index := model_index c;
         file_ids := file_ids c ++ [file]; agent_id := agent_id c;
         thread_id := thread_id c; tmp_files := tmp_files c |})).

Definition _create_reorder_agent : M (ReorderContext * world) unit :=
  context <- get_context ;;
  agent <- lift (call_text agents_client
             (create_agent (model_name context)
                ("reorder_agent_" ++ str_int (model_index context))
                "You are a data reordering specialist. Follow the user's instructions precisely."
                (file_ids context))) ;;
  modify_context (fun c =>
    {| model_name := model_name c; model_index := model_index c;
       file_ids := file_ids c; agent_id := Some agent;
       thread_id := thread_id c; tmp_files := tmp_files c |}) ;;
  thread <- lift (call_text agents_client threads_create) ;;
  modify_context (fun c =>
    {| model_name := model_name c; model_index := model_index c;
       file_ids := file_ids c; agent_id := agent_id c;
       thread_id := Some thread; tmp_files := tmp_files c |}).

(** [_process_single_reordered_file]: [temp_path] and [final_path] are
    the same string, so the [os.rename] it guards is never reached. *)
Definition _process_single_reordered_file
    (annotation : FilePathAnnotation) (context : ReorderContext)
    (target_dir : string) (reordered_content : dict string)
  : M world (dict string) :=
  let base_filename := last_segment (lower_str (annotation_text annotation)) "/" in
  let temp_filename :=
    "model_" ++ str_int (model_index context) ++ "_" ++ base_filename in
  let temp_path := path_join target_dir temp_filename in
  call_effect agents_client
    (files_save (file_id annotation) temp_filename (Some target_dir)) ;;
  let final_filename := temp_filename in
  let final_path := path_join target_dir final_filename in
  (if negb (temp_path =? final_path)
   then call_effect agents_client (os_rename temp_path final_path)
   else ret tt) ;;
  content <- call_text agents_client (open_read final_path) ;;
  ret (setitem reordered_content final_filename content).

Definition _process_reorder_results (context : ReorderContext)
    (legacy_path : string) : M world string :=
  messages <- call_messages agents_client (messages_list (thread_id context)) ;;
  let target_dir := dirname legacy_path in
  reordered_content <-
    for_fold messages [] (fun reordered msg =>
      match role msg, file_path_annotations msg with
      | AGENT, Some annotations =>
          for_fold annotations reordered (fun reordered annotation =>
            _process_single_reordered_file annotation context target_dir
              reordered)
      | _, _ => ret reordered
      end) ;;
  if Nat.eqb (len reordered_content) 0 then ret no_output
  else ret (_format_reorder_results reordered_content).

Definition _execute_reorder_task (legacy_path : string)
  : M (ReorderContext * world) string :=
  context <- get_context ;;
  lift (call_effect agents_client
          (messages_create (thread_id context) prompts.REORDER_TASK_PROMPT) ;;
        run <- call_run agents_client
                 (runs_create_and_process (thread_id context) (agent_id context)) ;;
        if status run =? "failed"
        then
          logger ERROR ("Reorder run failed for model " ++ model_name context
                        ++ ": " ++ last_error run) ;;
          ret (run_failed run)
        else _process_reorder_results context legacy_path).

Definition _cleanup_reorder_resources : M (ReorderContext * world) unit :=
  context <- get_context ;;
  lift (BaseAgentService._cleanup_agent_resources (Some agents_client)
          (thread_id context) (agent_id context) (Some (file_ids context)) "" ;;
        file_utils.cleanup_temp_files agents_client (tmp_files context)).

Definition _run_reorder_sync
    (source_path legacy_path model_name : string) (model_index : nat)
  : M world string :=
  with_context (new_context model_name model_index)
    (try_finally
       (try_except
          (_prepare_reorder_files source_path legacy_path ;;
           _upload_files_for_reordering ;;
           _create_reorder_agent ;;
           _execute_reorder_task legacy_path)
          (fun e =>
             lift (logger ERROR
                     ("Error during reordering with model " ++ model_name
                      ++ ": " ++ str_exn e)) ;;
             ret ("Error: " ++ str_exn e)))
       _cleanup_reorder_resources).
End ReorderService.

(** The service object: the environment the orchestrating coroutine
    meets (the client of [self.openai_service] and the local files),
    the configuration, the builtin [str.strip], and [self._executor]. *)
Record service : Type :=
  { environment : Env;
    config : OpenAIService.LegacyEtlMcpConfig;
    strip : string -> string;
    _executor : nat -> worker }.

(** [_initialize_model_deployments] *)
Definition model_deployments (self : service) : list string :=
  match OpenAIService.model_deployments (config self) with
  | Some deployments => deployments
  | None => [DEFAULT_MODEL]
  end.

(** [_run_single_reorder]; [position] is the rank of the task among
    those handed to the pool. *)
Definition _run_single_reorder (self : service) (position : nat)
    (source_path legacy_path model_name : string) (model_index : nat)
  : outcome string :=
  run_in_executor (_executor self position)
    (fun agents_client =>
       _run_reorder_sync agents_client source_path legacy_path model_name
         model_index).

(** [asyncio.gather] over the coroutines with [return_exceptions=True]. *)
Definition gather (self : service) (source_path legacy_path : string)
  : list (outcome string) :=
  map (fun '(idx, model) =>
         _run_single_reorder self idx source_path legacy_path model (idx + 1))
      (enumerate (model_deployments self) 0).

(** The second half of [_run_parallel_reordering]: the mapping built
    from the gathered results. *)
Definition collect (self : service) (results : list (outcome string))
  : M world (dict string) :=
  for_fold (zip (model_deployments self) results) []
    (fun model_outputs '(model, result) =>
       match result with
       | Raise e =>
           logger ERROR ("Model " ++ model ++ " failed during reordering: "
                         ++ str_exn e) ;;
           ret model_outputs
       | Return s =>
           if negb (startswith s "Error:")
           then ret (setitem model_outputs model s)
           else ret model_outputs
       end).

Definition _run_parallel_reordering (self : service)
    (source_path legacy_path : string) : M world (dict string) :=
  collect self (gather self source_path legacy_path).

Definition _read_file_sample (self : service) (file_path : string)
    (num_lines : nat) : M world string :=
  lines <- file_utils.read_file_lines (environment self) (strip self)
             file_path num_lines ;;
  match lines with
  | [] => ret "Error reading file"
  | _ => ret (join nl lines)
  end.

Definition _read_csv_head (self : service) (file_path : string)
    (num_lines : nat) : M world string :=
  try_except
    (_read_file_sample self file_path num_lines)
    (fun e =>
       logger ERROR ("Error reading CSV head: " ++ str_exn e) ;;
       ret ("Error reading file: " ++ str_exn e)).

Definition _build_comparison_data (self : service)
    (source_path source_head : string) (model_outputs : dict string)
  : M world string :=
  let target_dir := dirname source_path in
  comparison_parts <-
    for_fold (enumerate model_outputs 1)
      ["ORIGINAL SOURCE FILE (first " ++ str_int CSV_HEAD_LINES ++ " lines):"
       ++ nl ++ source_head ++ nl]
      (fun parts '(i, (model, _)) =>
         let parts :=
           app parts [nl ++ "=== MODEL " ++ str_int i ++ " (" ++ model ++ ") ==="] in
         let source_file :=
           path_join target_dir
             ("model_" ++ str_int i ++ "_source_data_reordered.csv") in
         let legacy_file :=
           path_join target_dir
             ("model_" ++ str_int i ++ "_legacy_etl_output_reordered.csv") in
         try_except
           (source_sample <- _read_file_sample self source_file CSV_SAMPLE_LINES ;;
            legacy_sample <- _read_file_sample self legacy_file CSV_SAMPLE_LINES ;;
            ret (app parts
                   [nl ++ "SOURCE REORDERED:" ++ nl ++ source_sample ++ nl;
                    "LEGACY ETL OUTPUT REORDERED:" ++ nl ++ legacy_sample ++ nl]))
           (fun e =>
              logger ERROR ("Error reading reordered files for model " ++ model
                            ++ ": " ++ str_exn e) ;;
              ret (app parts [" ERROR READING FILES" ++ nl]))) ;;
  ret (join "" comparison_parts).

Definition _get_model_selection (self : service) (selection_prompt : string)
  : M world string :=
  response <- call_completion (environment self)
                (chat_completions_create
                   (OpenAIService.best_output_selector_model (config self))
                   "You are an expert at evaluating CSV row ordering. Select the best match."
                   selection_prompt 50) ;;
  content <- first (choices response) ;;
  match content with
  | Some c => ret (strip self c)
  | None => raise (AttributeError "'NoneType' object has no attribute 'strip'")
  end.

Definition _cleanup_non_winning_files (self : service)
    (source_path winning_model : string) : M world unit :=
  let target_dir := dirname source_path in
  match index (model_deployments self) winning_model with
  | None => raise (ValueError ("'" ++ winning_model ++ "' is not in list"))
  | Some position =>
      let model_index := position + 1 in
      let winning_prefix := "model_" ++ str_int model_index ++ "_" in
      listing <- call_lines (environment self) (os_listdir target_dir) ;;
      let all_model_files :=
        filter (fun f => startswith f "model_" && endswith f ".csv") listing in
      for_each all_model_files (fun file_name =>
        if negb (startswith file_name winning_prefix)
        then
          try_except
            (call_effect (environment self)
               (os_remove (path_join target_dir file_name)))
            (fun e =>
               logger ERROR ("Error removing file " ++ file_name ++ ": "
                             ++ str_exn e))
        else ret tt) ;;
      let winning_files :=
        filter (fun f => startswith f winning_prefix) all_model_files in
      for_each winning_files (fun file_name =>
        let old_path := path_join target_dir file_name in
        let new_name := replace_str file_name winning_prefix "" in
        let new_path := path_join target_dir new_name in
        found <- call_test (environment self) (os_path_exists new_path) ;;
        (if found then call_effect (environment self) (os_remove new_path)
         else ret tt) ;;
        call_effect (environment self) (os_rename old_path new_path))
  end.

Definition _select_best_reordering (self : service)
    (source_file_path : string) (model_outputs : dict string)
  : M world string :=
  source_head <- _read_csv_head self source_file_path CSV_HEAD_LINES ;;
  comparison_data <-
    _build_comparison_data self source_file_path source_head model_outputs ;;
  let selection_prompt :=
    prompts.REORDER_SELECTION_PROMPT_TEMPLATE comparison_data
      (join ", " (map (fun model => "'" ++ model ++ "'") (model_deployments self))) in
  try_except
    (selected_model <- _get_model_selection self selection_prompt ;;
     if mem model_outputs selected_model
     then
       _cleanup_non_winning_files self source_file_path selected_model ;;
       ret selected_model
     else
       fallback <- first (keys model_outputs) ;;
       logger WARNING ("Invalid model selection '" ++ selected_model
                       ++ "', using fallback: " ++ fallback) ;;
       ret fallback)
    (fun e =>
       logger ERROR ("Error selecting best reordering: " ++ str_exn e) ;;
       first (keys model_outputs)).

Definition all_models_failed : exn :=
  ReorderServiceError "All models failed to reorder the files".

Definition reorder_csv_files (self : service)
    (source_file_path legacy_output_path : string)
  : M world (string * string) :=
  model_outputs <- _run_parallel_reordering self source_file_path
                     legacy_output_path ;;
  if Nat.eqb (len model_outputs) 0 then raise all_models_failed
  else if Nat.eqb (len model_outputs) 1
  then
    model_name <- first (keys model_outputs) ;;
    content <- getitem model_outputs model_name ;;
    ret (content, model_name)
  else
    best_model <- _select_best_reordering self source_file_path model_outputs ;;
    content <- getitem model_outputs best_model ;;
    ret (content, best_model).

End ReorderService.

(** * The tools *)

(** ** What a tool meets besides the services' environment *)

(** The calls of the tools that the services never make: those on the
    FastMCP context a tool is handed, the probes of a path's kind,
    [pd.read_csv], and the writing of the cache file. *)
Inductive host_call : Type :=
  | ctx_info (msg : string)
  | ctx_warning (msg : string)
  | ctx_error (msg : string)
  | os_path_isdir (path : string)
  | os_path_isfile (path : string)
  | pd_read_csv (file_path : string) (nrows : nat)
  | pickle_dump (path : string) (entries : nat).

(** What [pd.read_csv] and [df.to_csv(index=False)] yield of a frame:
    [list(df.columns)], [len(df)] and the CSV text. *)
Record DataFrame : Type :=
  { columns : list string;
    sample_row_count : nat;
    to_csv : string }.

(** The host answers a call knowing the calls and the requests made
    so far. *)
Record Host : Type :=
  { on_call : list host_call -> list request -> host_call -> option exn;
    on_probe : list host_call -> list request -> host_call -> bool;
    on_frame : list host_call -> list request -> host_call -> exn + DataFrame }.

(** The state of a tool call: the calls made on the host, and the
    world. *)
Definition session : Type := (list host_call * world)%type.

Section Host_calls.
Variable host : Host.

Definition host_effect (call : host_call) : M session unit :=
  fun s =>
    (match on_call host (fst s) (trace (snd s)) call with
     | Some e => Raise e
     | None => Return tt
     end, ((fst s ++ [call])%list, snd s)).

Definition host_test (call : host_call) : M session bool :=
  fun s =>
    (Return (on_probe host (fst s) (trace (snd s)) call),
     ((fst s ++ [call])%list, snd s)).

Definition host_frame (call : host_call) : M session DataFrame :=
  fun s =>
    (of_answer (on_frame host (fst s) (trace (snd s)) call),
     ((fst s ++ [call])%list, snd s)).
End Host_calls.

(** ** utils/file_utils.py, the functions the tools call *)

Module file_utils_for_tools.

Definition CSV_CONTEXT_SAMPLE_DATA_LINE_LIMIT : nat := 15.

(** [s.split(sep)] for a one-character [sep]; [cur] is the piece read
    so far. *)
Fixpoint split_from (s : string) (sep : ascii) (cur : string) : list string :=
  match s with
  | EmptyString => [cur]
  | String c rest =>
      if Ascii.eqb c sep then cur :: split_from rest sep EmptyString
      else split_from rest sep (cur ++ String c EmptyString)
  end.

Definition split (s : string) (sep : ascii) : list string :=
  split_from s sep EmptyString.

(** The dictionary [read_csv_metadata] returns: with the headers and
    the sample, or with the key [error]. *)
Inductive file_metadata : Type :=
  | sampled (filename : string) (headers : list string)
      (sample_row_count : nat) (sample_data : string)
  | unreadable (filename : string) (error : string).

Definition filename_of (m : file_metadata) : string :=
  match m with
  | sampled filename _ _ _ => filename
  | unreadable filename _ => filename
  end.

(** The dictionary [build_csv_context] returns. *)
Record csv_context : Type :=
  { metadata : list file_metadata;
    context_string : string }.

Section file_utils_for_tools.
Variable env : Env.
Variable host : Host.

Definition read_csv_metadata (file_path : string) (max_rows_sample : nat)
  : M session file_metadata :=
  try_except
    (df <- host_frame host (pd_read_csv file_path max_rows_sample) ;;
     ret (sampled (basename file_path) (columns df) (sample_row_count df)
            (to_csv df)))
    (fun e =>
       lift (logger WARNING ("Error reading CSV " ++ file_path ++ ": "
                             ++ str_exn e
                             ++ ". Skipping this file for context.")) ;;
       ret (unreadable (basename file_path) (str_exn e))).

(** [scan_directory_for_files(directory, *extensions)] *)
Definition scan_directory_for_files (directory : string)
    (extensions : list string) : M session (dict (list string)) :=
  let results := fold_left (fun d ext => setitem d ext []) extensions [] in
  listing <- lift (call_lines env (os_listdir directory)) ;;
  for_fold listing results (fun results item =>
    let item_path := path_join directory item in
    is_file <- host_test host (os_path_isfile item_path) ;;
    if is_file
    then
      match find (fun ext => endswith (lower_str item) ext) extensions with
      | Some ext =>
          files <- getitem results ext ;;
          ret (setitem results ext (app files [item_path]))
      | None => ret results
      end
    else ret results).

Definition build_csv_context (csv_files : list string) : M session csv_context :=
  match csv_files with
  | [] => ret {| metadata := []; context_string := "No CSV files found." |}
  | _ =>
      built <-
        for_fold csv_files ([], ["CSV FILES CONTEXT:"])
          (fun '(metadata, context_parts) csv_path =>
             file_metadata <- read_csv_metadata csv_path 10 ;;
             match file_metadata with
             | sampled filename headers count sample_data =>
                 ret (app metadata [file_metadata],
                      app context_parts
                        [nl ++ "--- CSV File: " ++ filename ++ " ---";
                         "Headers: " ++ join ", " headers;
                         "Sample data (first " ++ str_int count ++ " rows):";
                         join nl
                           (firstn CSV_CONTEXT_SAMPLE_DATA_LINE_LIMIT
                              (split sample_data (ascii_of_nat 10)))])
             | unreadable filename error =>
                 ret (metadata,
                      app context_parts
                        ["File: " ++ filename ++ " - Error: " ++ error])
             end) ;;
      let '(metadata, context_parts) := built in
      ret {| metadata := metadata;
             context_string :=
               join nl (app context_parts
                              ["--- End of CSV Files Context ---"]) |}
  end.
End file_utils_for_tools.
End file_utils_for_tools.
(** ** rowlevel_analyzer_agent_tool.py *)

Module RowlevelAnalyzerAgentTool.

(** What the tool returns: the analysis text, or the dictionary with
    the single key [error]. *)
Inductive response : Type :=
  | analysis (text : string)
  | error (message : string).

Definition ERROR_INDICATORS : list string := ["Error:"; "Run failed:"].

Definition _is_error_response (response : string) : bool :=
  existsb (fun indicator => contains response indicator) ERROR_INDICATORS.

Definition _build_file_path (base_path filename : string) : string :=
  path_join base_path filename.

Section RowlevelAnalyzerAgentTool.
(** [self.csv_comparison_service]; the tool's own file probes meet the
    environment of the coroutine that runs the service. *)
Variable csv_comparison_service : CSVComparisonAgentService.service.
Variable host : Host.

Definition _validate_file_paths (python_path legacy_path : string)
  : M world unit :=
  found <- call_test (CSVComparisonAgentService.environment
                        csv_comparison_service)
             (os_path_exists python_path) ;;
  if negb found
  then raise (file_utils.FileNotFoundError ("File not found: " ++ python_path))
  else
    found <- call_test (CSVComparisonAgentService.environment
                          csv_comparison_service)
               (os_path_exists legacy_path) ;;
    if negb found
    then raise (file_utils.FileNotFoundError
                  ("File not found: " ++ legacy_path))
    else ret tt.

Definition _analyze_csv_differences
    (python_output_path legacy_output_path : string) : M world response :=
  try_except
    (_validate_file_paths python_output_path legacy_output_path ;;
     analysis_text <-
       CSVComparisonAgentService.compare_csv_files csv_comparison_service
         python_output_path legacy_output_path
         prompts.CSV_DIFFERENCE_ANALYSIS_INSTRUCTIONS ;;
     if _is_error_response analysis_text
     then
       logger ERROR ("Agent processing returned an error: " ++ analysis_text) ;;
       ret (error analysis_text)
     else ret (analysis analysis_text))
    (fun e =>
       if exn_class e =? "FileNotFoundError"
       then ret (error (str_exn e))
       else
         logger ERROR ("Error analyzing CSV differences: " ++ str_exn e) ;;
         ret (error (str_exn e))).

Definition rowlevel_analyzer_agent
    (data_path legacy_etl_output_file python_output_file : string)
  : M session response :=
  host_effect host (ctx_info ("Analyzing row differences for " ++ data_path)) ;;
  try_except
    (let legacy_path := _build_file_path data_path legacy_etl_output_file in
     let python_path := _build_file_path data_path python_output_file in
     host_effect host
       (ctx_info ("Running CSV difference analysis on Python output: "
                  ++ python_path)) ;;
     analysis_result <- lift (_analyze_csv_differences python_path legacy_path) ;;
     match analysis_result with
     | error message =>
         host_effect host (ctx_error ("Analysis failed: " ++ message))
     | analysis _ =>
         host_effect host (ctx_info "Row-level analysis completed successfully")
     end ;;
     ret analysis_result)
    (fun e =>
       let error_msg := "Error analyzing row differences: " ++ str_exn e in
       lift (logger ERROR error_msg) ;;
       host_effect host (ctx_error error_msg) ;;
       ret (error (str_exn e))).
End RowlevelAnalyzerAgentTool.
End RowlevelAnalyzerAgentTool.

(** ** order_consistency_agent_tool.py *)

Module OrderConsistencyAgentTool.

(** [_format_success_message], character for character. *)
Definition _format_success_message (output_file model_name : string)
  : string :=
  "Order consistency ensured successfully! ðŸŽ¯

âœ… Reordered "
  ++ output_file ++
  " to match source row order
âœ… Saved as: 'source_data_reordered.csv' and 'legacy_etl_output_reordered.csv'
âœ… Best ordering selected from model: "
  ++ model_name ++
  "
âœ… Data integrity preserved - only row order was changed

The reordered files are now ready for accurate comparison.".

Definition _build_file_paths (base_path source_file legacy_file : string)
  : string * string :=
  (path_join base_path source_file, path_join base_path legacy_file).

Section OrderConsistencyAgentTool.
(** [self.reorder_service] *)
Variable reorder_service : ReorderService.service.
Variable host : Host.

Definition _validate_file_paths (source_path legacy_path : string)
  : M world unit :=
  found <- call_test (ReorderService.environment reorder_service)
             (os_path_exists source_path) ;;
  if negb found
  then raise (file_utils.FileNotFoundError
                ("Source file not found: " ++ source_path))
  else
    found <- call_test (ReorderService.environment reorder_service)
               (os_path_exists legacy_path) ;;
    if negb found
    then raise (file_utils.FileNotFoundError
                  ("Legacy ETL output file not found: " ++ legacy_path))
    else ret tt.

Definition order_consistency_agent
    (data_path source_file legacy_etl_output_file : string)
  : M session string :=
  host_effect host
    (ctx_info ("Ensuring order consistency for " ++ legacy_etl_output_file)) ;;
  try_except
    (let '(source_path, legacy_path) :=
       _build_file_paths data_path source_file legacy_etl_output_file in
     lift (_validate_file_paths source_path legacy_path) ;;
     host_effect host (ctx_info "Running reordering with multiple AI models...") ;;
     reordered <- lift (ReorderService.reorder_csv_files reorder_service
                          source_path legacy_path) ;;
     let selected_model := snd reordered in
     host_effect host
       (ctx_info ("Successfully reordered using model: " ++ selected_model)) ;;
     ret (_format_success_message legacy_etl_output_file selected_model))
    (fun e =>
       if exn_class e =? "FileNotFoundError"
       then
         let error_msg := str_exn e in
         host_effect host (ctx_error error_msg) ;;
         ret ("Error: " ++ error_msg)
       else if exn_class e =? "ReorderServiceError"
       then
         let error_msg := "Reordering failed: " ++ str_exn e in
         lift (logger ERROR error_msg) ;;
         host_effect host (ctx_error error_msg) ;;
         ret ("Error: " ++ error_msg)
       else
         let error_msg := "Unexpected error during reordering: " ++ str_exn e in
         lift (logger ERROR error_msg) ;;
         host_effect host (ctx_error error_msg) ;;
         ret ("Error: " ++ str_exn e)).
End OrderConsistencyAgentTool.
End OrderConsistencyAgentTool.
(** ** tools/base_tool.py *)

Module BaseTool.

(** The dictionary [gather_legacy_files] returns. *)
Record legacy_data : Type :=
  { files : list string;
    contents : list string;
    full_code : string }.

Definition get_legacy_extension (legacy_etl_code_description : string)
  : string :=
  let description := lower_str legacy_etl_code_description in
  "." ++ description.

Definition format_file_contents (filenames contents : list string) : string :=
  match filenames with
  | [] => EmptyString
  | _ =>
      let parts :=
        map (fun '(filename, content) =>
               "--- File: " ++ filename ++ " ---" ++ nl ++ content)
            (zip filenames contents) in
      join (nl ++ nl ++ "--- End of File ---" ++ nl ++ nl) parts
  end.

Section BaseTool.
Variable env : Env.
Variable host : Host.

(** [validate_directory]: the error message, or [None]. *)
Definition validate_directory (directory : string)
  : M session (option string) :=
  is_dir <- host_test host (os_path_isdir directory) ;;
  if negb is_dir
  then
    let error_msg := "Directory not found: " ++ directory in
    host_effect host (ctx_error error_msg) ;;
    ret (Some error_msg)
  else ret None.

(** [gather_legacy_files]; [with_ctx] tells whether a context is
    passed. *)
Definition gather_legacy_files (directory legacy_extension : string)
    (with_ctx : bool) : M session legacy_data :=
  scanned <- file_utils_for_tools.scan_directory_for_files env host directory
               [legacy_extension] ;;
  files <- getitem scanned legacy_extension ;;
  gathered <-
    for_fold files ([], [])
      (fun '(legacy_files, legacy_contents) file_path =>
         content <- lift (file_utils.read_file_safely env file_path) ;;
         match content with
         | Some (String c rest) =>
             ret (app legacy_files [basename file_path],
                  app legacy_contents [String c rest])
         | _ =>
             (if with_ctx
              then host_effect host
                     (ctx_warning ("Error reading " ++ file_path))
              else ret tt) ;;
             ret (legacy_files, legacy_contents)
         end) ;;
  let '(legacy_files, legacy_contents) := gathered in
  ret {| files := legacy_files;
         contents := legacy_contents;
         full_code := format_file_contents legacy_files legacy_contents |}.
End BaseTool.
End BaseTool.

(** ** code_generation_tool.py *)

Module CodeGenerationTool.

(** What the tool returns: the dictionary with the key [error], or
    the one with the description and the analyzed files. *)
Inductive response : Type :=
  | error (message : string)
  | generated (description : string)
      (analyzed_legacy_etl_files analyzed_csv_files : list string).

Definition build_error_response (message : string) : response :=
  error message.

Definition _is_cacheable_result (result : response) : bool :=
  match result with
  | error _ => false
  | generated _ _ _ => true
  end.

Definition _build_empty_response : response :=
  generated "No legacy ETL or CSV files found to analyze." [] [].

Definition _build_success_response (description : string)
    (legacy_files : list string) (csv_context : file_utils_for_tools.csv_context)
  : response :=
  generated description legacy_files
    (map file_utils_for_tools.filename_of
       (file_utils_for_tools.metadata csv_context)).

(** The keyword arguments of a call, and the key under which its
    result is cached: the function's name and the sorted items. *)
Definition kwargs : Type := list (string * string).

Definition item_leb (a b : string * string) : bool :=
  if fst a =? fst b then String.leb (snd a) (snd b)
  else String.leb (fst a) (fst b).

Fixpoint insert_sorted (item : string * string) (items : kwargs) : kwargs :=
  match items with
  | [] => [item]
  | first :: rest =>
      if item_leb item first then item :: items
      else first :: insert_sorted item rest
  end.

(** [sorted(kwargs.items())] *)
Definition sorted (items : kwargs) : kwargs :=
  fold_right insert_sorted [] items.

Definition cache_key : Type := (string * kwargs)%type.

Definition key_eqb (a b : cache_key) : bool :=
  (fst a =? fst b)
  && Nat.eqb (length (snd a)) (length (snd b))
  && forallb (fun '(x, y) => (fst x =? fst y) && (snd x =? snd y))
       (combine (snd a) (snd b)).

(** [self.cache], a dictionary in insertion order. *)
Definition Cache : Type := list (cache_key * response).

Fixpoint cache_get (cache : Cache) (key : cache_key) : option response :=
  match cache with
  | [] => None
  | (key', result) :: rest =>
      if key_eqb key' key then Some result else cache_get rest key
  end.

Fixpoint cache_set (cache : Cache) (key : cache_key) (result : response)
  : Cache :=
  match cache with
  | [] => [(key, result)]
  | (key', result') :: rest =>
      if key_eqb key' key then (key, result) :: rest
      else (key', result') :: cache_set rest key result
  end.

(** Inside a call the state is the tool's cache together with the
    session. *)
Definition tool_state : Type := (Cache * session)%type.

Definition in_session {A} (c : M session A) : M tool_state A :=
  fun s =>
    let (r, s') := c (snd s) in (r, (fst s, s')).

Definition get_cache : M tool_state Cache :=
  fun s => (Return (fst s), s).

Definition modify_cache (f : Cache -> Cache) : M tool_state unit :=
  fun s => (Return tt, (f (fst s), snd s)).

Section CodeGenerationTool.
(** [self.openai_service]: its client, its configuration and
    [system_prompt_template]; the builtin [str.strip];
    [self.cache_file]. *)
Variable client : Env.
Variable config : OpenAIService.LegacyEtlMcpConfig.
Variable legacy_etl_code_description : string.
Variable system_prompt_template : string.
Variable strip : string -> string.
Variable cache_file : string.
Variable host : Host.

Definition _save_cache : M tool_state unit :=
  cache <- get_cache ;;
  try_except
    (in_session (host_effect host (pickle_dump cache_file (length cache))))
    (fun e =>
       in_session (lift (logger WARNING ("Failed to save cache: "
                                         ++ str_exn e)))).

(** The decorator [mcp_tool_cache] applied to the function [func]
    named [name]. *)
Definition mcp_tool_cache (name : string)
    (func : kwargs -> M tool_state response) (arguments : kwargs)
  : M tool_state response :=
  let key := (name, sorted arguments) in
  cache <- get_cache ;;
  match cache_get cache key with
  | Some result =>
      in_session (host_effect host
                    (ctx_info ("Returning cached result for " ++ name))) ;;
      ret result
  | None =>
      result <- func arguments ;;
      (if _is_cacheable_result result
       then
         modify_cache (fun cache => cache_set cache key result) ;;
         _save_cache ;;
         in_session (host_effect host
                       (ctx_info ("Cached result for " ++ name)))
       else ret tt) ;;
      ret result
  end.

Definition execute (input_dir : string) : M session response :=
  let legacy_extension :=
    BaseTool.get_legacy_extension legacy_etl_code_description in
  scanned <- file_utils_for_tools.scan_directory_for_files client host
               input_dir [legacy_extension; ".csv"] ;;
  legacy_files <- getitem scanned legacy_extension ;;
  csv_files <- getitem scanned ".csv" ;;
  match legacy_files, csv_files with
  | [], [] =>
      host_effect host (ctx_info "No files found to analyze") ;;
      ret _build_empty_response
  | _, _ =>
      legacy_data <- BaseTool.gather_legacy_files client host input_dir
                       legacy_extension true ;;
      csv_context <- file_utils_for_tools.build_csv_context host csv_files ;;
      if negb (truthy (strip (BaseTool.full_code legacy_data)))
         && match csv_files with [] => true | _ => false end
      then ret _build_empty_response
      else
        description <-
          lift (OpenAIService.analyze_legacy_etl_code client config strip
                  legacy_etl_code_description system_prompt_template
                  (BaseTool.full_code legacy_data)
                  (file_utils_for_tools.context_string csv_context)
                  (Some input_dir)) ;;
        host_effect host (ctx_info "Code generation completed successfully") ;;
        ret (_build_success_response description
               (BaseTool.files legacy_data) csv_context)
  end.

(** The body of [code_bootstrap_agent], before the decorator. *)
Definition code_bootstrap_agent_body (input_dir : string)
  : M session response :=
  host_effect host
    (ctx_info ("Generating Python code from files in: " ++ input_dir)) ;;
  error <- BaseTool.validate_directory host input_dir ;;
  match error with
  | Some message => ret (build_error_response message)
  | None =>
      try_except (execute input_dir)
        (fun e =>
           let error_msg := "Error generating code: " ++ str_exn e in
           lift (logger ERROR error_msg) ;;
           host_effect host (ctx_error error_msg) ;;
           ret (build_error_response (str_exn e)))
  end.

Definition TypeError (msg : string) : exn := Exn "TypeError" msg.

(** [code_bootstrap_agent(ctx, *, input_dir)] as the decorator sees
    it, and decorated. *)
Definition code_bootstrap_agent_func (arguments : kwargs)
  : M tool_state response :=
  match arguments with
  | [(name, input_dir)] =>
      if name =? "input_dir"
      then in_session (code_bootstrap_agent_body input_dir)
      else raise (TypeError "code_bootstrap_agent() got an unexpected keyword argument")
  | _ => raise (TypeError "code_bootstrap_agent() missing or unexpected keyword arguments")
  end.

Definition code_bootstrap_agent (input_dir : string) : M tool_state response :=
  mcp_tool_cache "code_bootstrap_agent" code_bootstrap_agent_func
    [("input_dir", input_dir)].
End CodeGenerationTool.
End CodeGenerationTool.
(** * Vocabulary of the properties *)

(** The requests that delete a remote resource. *)
Definition is_deletion (r : request) : bool :=
  match r with
  | threads_delete _ | files_delete _ | delete_agent _ => true
  | _ => false
  end.

(** The deletions a release is expected to attempt, in order: the
    thread, every file, the agent; an identifier that is [None] or
    empty is skipped. *)
Definition deletions (thread_id agent_id : option string)
    (file_ids : option (list string)) : list request :=
  (match thread_id with
   | Some t => if truthy t then [threads_delete t] else []
   | None => []
   end ++
   match file_ids with
   | Some fs => map files_delete fs
   | None => []
   end ++
   match agent_id with
   | Some a => if truthy a then [delete_agent a] else []
   | None => []
   end)%list.

(** The record [logger.error] writes when deletion [d] raised [e]. *)
Definition error_deleting (d : request) (e : exn) : string :=
  match d with
  | threads_delete t => "Error deleting thread " ++ t ++ ": " ++ str_exn e
  | files_delete f => "Error deleting file " ++ f ++ ": " ++ str_exn e
  | delete_agent a => "Error deleting agent " ++ a ++ ": " ++ str_exn e
  | _ => ""
  end.

(** The records due when the requests [ds] are made one after the
    other from history [h]: one for every request the environment
    answers with an exception. *)
Fixpoint failures (client : Env) (h : list request) (ds : list request)
  : list (level * string) :=
  match ds with
  | [] => []
  | d :: rest =>
      (match on_effect client h d with
       | Some e => [(ERROR, error_deleting d e)]
       | None => []
       end ++ failures client (h ++ [d]) rest)%list
  end.

(** Every part of an extracted result opens with a header mark. *)
Definition headed (parts : list string) : Prop :=
  Forall (fun part => exists rest, part = String "#" rest) parts.

(** * Scenarios *)

(** An environment in which every call succeeds: files exist, runs
    complete, the agent reports completion at once and attaches
    nothing, the judge answers [1]. *)
Definition agreeable : Env :=
  {| on_effect := fun _ _ => None;
     on_test := fun _ _ => true;
     on_text := fun h _ => inr ("id-" ++ str_int (length h));
     on_lines := fun _ _ => inr [];
     on_run := fun _ _ => inr {| status := "completed"; last_error := "None" |};
     on_last_message := fun _ _ => inr (Some {| text := Some "TASK COMPLETED" |});
     on_messages := fun _ _ => inr [];
     on_completion := fun _ _ => inr {| choices := [Some "1"] |} |}.

(** A task context that holds one of each remote resource. *)
Definition held : BaseAgentService.BaseAgentTaskContext :=
  {| BaseAgentService.model_name := "gpt-4";
     BaseAgentService.file_ids := ["file-1"];
     BaseAgentService.agent_id := Some "agent-1";
     BaseAgentService.thread_id := Some "thread-1";
     BaseAgentService.tmp_files := ["/tmp/ported_python_output_gpt-4.csv"] |}.

(** [silent Q c]: whatever the state, [c] only appends requests to the
    trace, none of which satisfies [Q]. *)
Definition silent {A} (Q : request -> bool) (c : M world A) : Prop :=
  forall w, exists delta,
    trace (snd (c w)) = (trace w ++ delta)%list /\ filter Q delta = [].

(** The requests of the completion-continuation protocol: runs, reads
    of the last agent message, and posts to the thread. *)
Definition is_run (r : request) : bool :=
  match r with
  | runs_create_and_process _ _ => true
  | _ => false
  end.

Definition is_protocol (r : request) : bool :=
  match r with
  | runs_create_and_process _ _
  | messages_get_last_message_text_by_role _
  | messages_create _ _ => true
  | _ => false
  end.

Section Protocol.
Import BaseAgentService CSVComparisonAgentService.
Variable context : AgentContext.

Definition run_request : request :=
  runs_create_and_process (thread_id context) (agent_id context).

Definition read_request : request :=
  messages_get_last_message_text_by_role (thread_id context).

Definition nudge : request :=
  messages_create (thread_id context) prompts.AGENT_CONTINUATION_PROMPT.

(** What the attempts in [range] request when none of them ends the
    protocol: a run and a read each, and a nudge after every attempt
    but the last allowed one. *)
Definition protocol_of (range : list nat) : list request :=
  flat_map (fun attempt =>
              [run_request; read_request]
              ++ if Nat.ltb attempt MAX_ATTEMPTS then [nudge] else [])%list
           range.

(** The whole protocol: the task, then [MAX_ATTEMPTS] attempts. *)
Definition full_protocol (task : string) : list request :=
  messages_create (thread_id context) task :: protocol_of (seq 1 MAX_ATTEMPTS).
End Protocol.

(** [quiet client h r]: asked [r] after the requests [h], the
    environment lets the protocol go on: a run comes back with a status
    other than failed, the last agent message lacks the completion
    marker, a post is accepted. *)
Definition quiet (client : Env) (h : list request) (r : request) : bool :=
  match r with
  | runs_create_and_process _ _ =>
      match on_run client h r with
      | inr run => negb (status run =? "failed")
      | inl _ => false
      end
  | messages_get_last_message_text_by_role _ =>
      match on_last_message client h r with
      | inr m => negb (CSVComparisonAgentService._is_task_completed m)
      | inl _ => false
      end
  | _ =>
      match on_effect client h r with
      | None => true
      | Some _ => false
      end
  end.

Fixpoint all_quiet (client : Env) (h : list request) (rs : list request) : bool :=
  match rs with
  | [] => true
  | r :: rest => quiet client h r && all_quiet client (h ++ [r]) rest
  end.

(** The two protocol requests of the reorder task. *)
Definition reorder_post (context : ReorderService.ReorderContext) : request :=
  messages_create (ReorderService.thread_id context) prompts.REORDER_TASK_PROMPT.

Definition reorder_run (context : ReorderService.ReorderContext) : request :=
  runs_create_and_process (ReorderService.thread_id context)
    (ReorderService.agent_id context).

(** An environment in which every run comes back failed and the agent
    never writes a message. *)
Definition run_fails : Env :=
  {| on_effect := on_effect agreeable;
     on_test := on_test agreeable;
     on_text := on_text agreeable;
     on_lines := on_lines agreeable;
     on_run := fun _ _ =>
       inr {| status := "failed"; last_error := "rate_limit_exceeded" |};
     on_last_message := fun _ _ => inr None;
     on_messages := on_messages agreeable;
     on_completion := on_completion agreeable |}.

(** A reorder context that holds one of each remote resource. *)
Definition held_reorder : ReorderService.ReorderContext :=
  {| ReorderService.model_name := "gpt-4";
     ReorderService.model_index := 1;
     ReorderService.file_ids := ["file-1"];
     ReorderService.agent_id := Some "agent-1";
     ReorderService.thread_id := Some "thread-1";
     ReorderService.tmp_files := ["/tmp/source_data_1.csv"] |}.

(** A gathered result the collection step counts as a failure: an
    exception, or a string that starts with [Error:]. *)
Definition failed (result : outcome string) : bool :=
  match result with
  | Raise _ => true
  | Return s => startswith s "Error:"
  end.

(** The mapping the collection step builds from the zipped names and
    results, apart from its logging. *)
Fixpoint kept (pairs : list (string * outcome string)) (acc : dict string)
  : dict string :=
  match pairs with
  | [] => acc
  | (model, result) :: rest =>
      match result with
      | Raise _ => kept rest acc
      | Return s =>
          if negb (startswith s "Error:") then kept rest (setitem acc model s)
          else kept rest acc
      end
  end.

(** The request the comparison selector sends to the arbiter. *)
Definition judge_request (config : OpenAIService.LegacyEtlMcpConfig)
    (template : string -> nat -> string) (model_outputs : dict string)
  : request :=
  chat_completions_create
    (if truthy (OpenAIService.best_output_selector_model config)
     then OpenAIService.best_output_selector_model config
     else OpenAIService.azure_openai_deployment_name config)
    OpenAIService.CSV_OUTPUT_SELECTION_SYSTEM_PROMPT
    (OpenAIService._build_selection_prompt template
       (OpenAIService._prepare_numbered_outputs model_outputs))
    OpenAIService.SELECTION_MAX_TOKENS.

(** [response.choices[0].message.content] of the environment's answer
    to a chat completion, when the call returns and the content is
    there. *)
Definition first_content (answer : exn + ChatCompletion) : option string :=
  match answer with
  | inr response =>
      match choices response with
      | Some content :: _ => Some content
      | _ => None
      end
  | inl _ => None
  end.

(** The ordinal the arbiter's answer to [req] after [h] parses to;
    [None] when the call raises, the answer has no content, or [int]
    rejects it. *)
Definition arbiter_choice (client : Env) (strip : string -> string)
    (int : string -> option Z) (h : list request) (req : request) : option Z :=
  match first_content (on_completion client h req) with
  | Some content => int (strip content)
  | None => None
  end.

(** What a computation returns, read as a string; the empty string
    when it raises. *)
Definition returned (r : outcome string) : string :=
  match r with
  | Return s => s
  | Raise _ => ""
  end.

(** The prompt the reorder selector builds from state [w], and the
    state in which it then asks the arbiter. *)
Definition reorder_judge_setup (self : ReorderService.service)
    (source_file_path : string) (model_outputs : dict string) (w : world)
  : string * world :=
  let head := ReorderService._read_csv_head self source_file_path
                ReorderService.CSV_HEAD_LINES w in
  let data := ReorderService._build_comparison_data self source_file_path
                (returned (fst head)) model_outputs (snd head) in
  (prompts.REORDER_SELECTION_PROMPT_TEMPLATE (returned (fst data))
     (join ", " (map (fun model => "'" ++ model ++ "'")
                   (ReorderService.model_deployments self))),
   snd data).

(** The request the reorder selector sends to the arbiter. *)
Definition reorder_judge_request (self : ReorderService.service)
    (selection_prompt : string) : request :=
  chat_completions_create
    (OpenAIService.best_output_selector_model (ReorderService.config self))
    "You are an expert at evaluating CSV row ordering. Select the best match."
    selection_prompt 50.

(** A stand-in for [int] on strings of decimal digits. *)
Definition digits (s : string) : option Z :=
  match s with
  | EmptyString => None
  | _ =>
      match NilEmpty.uint_of_string s with
      | Some u => Some (Z.of_nat (Nat.of_uint u))
      | None => None
      end
  end.

(** A stand-in for [str.strip] on strings without outer blanks. *)
Definition unpadded (s : string) : string := s.

(** A stand-in for the selection template: the outputs and their count. *)
Definition plain_template (numbered_outputs_str : string) (num_outputs : nat)
  : string :=
  numbered_outputs_str ++ "(1-" ++ str_int num_outputs ++ ")".

Definition two_deployments : OpenAIService.LegacyEtlMcpConfig :=
  {| OpenAIService.azure_openai_deployment_name := "o3";
     OpenAIService.model_deployments := Some ["gpt-4"; "gpt-4o"];
     OpenAIService.best_output_selector_model := "gpt-4.1" |}.

Definition three_deployments : OpenAIService.LegacyEtlMcpConfig :=
  {| OpenAIService.azure_openai_deployment_name := "o3";
     OpenAIService.model_deployments := Some ["gpt-4"; "gpt-4.1"; "gpt-4o"];
     OpenAIService.best_output_selector_model := "gpt-4.1" |}.

(** The arbiter answers [7]. *)
Definition answers_seven : Env :=
  {| on_effect := on_effect agreeable;
     on_test := on_test agreeable;
     on_text := on_text agreeable;
     on_lines := on_lines agreeable;
     on_run := on_run agreeable;
     on_last_message := on_last_message agreeable;
     on_messages := on_messages agreeable;
     on_completion := fun _ _ => inr {| choices := [Some "7"] |} |}.

Definition two_outputs : dict string :=
  [("gpt-4", "# Row Location" ++ nl ++ "332" ++ nl ++ nl);
   ("gpt-4o", "# Row Location" ++ nl ++ "17" ++ nl ++ nl)].

(** An environment whose agent completes at once and attaches one
    file, which downloads. *)
Definition productive : Env :=
  {| on_effect := on_effect agreeable;
     on_test := on_test agreeable;
     on_text := fun h r =>
       match r with
       | open_read _ => inr "332"
       | _ => on_text agreeable h r
       end;
     on_lines := on_lines agreeable;
     on_run := on_run agreeable;
     on_last_message := on_last_message agreeable;
     on_messages := fun _ _ =>
       inr [ {| role := AGENT;
                file_path_annotations :=
                  Some [ {| annotation_text := "sandbox:/mnt/data/row_location.csv";
                            file_id := "assistant-1" |} ] |} ];
     on_completion := on_completion agreeable |}.

(** An environment whose runs complete but whose agent never reports
    completion. *)
Definition never_done : Env :=
  {| on_effect := on_effect agreeable;
     on_test := on_test agreeable;
     on_text := on_text agreeable;
     on_lines := on_lines agreeable;
     on_run := on_run agreeable;
     on_last_message := fun _ _ => inr (Some {| text := Some "Still working." |});
     on_messages := on_messages agreeable;
     on_completion := on_completion agreeable |}.

(** An environment that refuses every upload. *)
Definition uploads_fail : Env :=
  {| on_effect := on_effect agreeable;
     on_test := on_test agreeable;
     on_text := fun h r =>
       match r with
       | files_upload_and_poll _ _ => inl (Exn "HttpResponseError" "upload refused")
       | _ => on_text agreeable h r
       end;
     on_lines := on_lines agreeable;
     on_run := on_run agreeable;
     on_last_message := on_last_message agreeable;
     on_messages := on_messages agreeable;
     on_completion := on_completion agreeable |}.

Definition pool_is_shut_down : exn :=
  Exn "RuntimeError" "cannot schedule new futures after shutdown".

(** A comparison service over two deployments: the first task
    succeeds, the second cannot be handed to the pool. *)
Definition one_succeeds : CSVComparisonAgentService.service :=
  {| CSVComparisonAgentService.environment := agreeable;
     CSVComparisonAgentService.config := two_deployments;
     CSVComparisonAgentService.strip := unpadded;
     CSVComparisonAgentService.int := digits;
     CSVComparisonAgentService.CSV_OUTPUT_SELECTION_USER_PROMPT_TEMPLATE :=
       plain_template;
     CSVComparisonAgentService.model_name_ := "gpt-4";
     CSVComparisonAgentService._executor := fun position =>
       match position with
       | 0 => {| submit_error := None; meets := productive |}
       | _ => {| submit_error := Some pool_is_shut_down; meets := agreeable |}
       end |}.

(** A comparison service over two deployments, none of whose tasks can
    be handed to the pool. *)
Definition none_succeeds : CSVComparisonAgentService.service :=
  {| CSVComparisonAgentService.environment := agreeable;
     CSVComparisonAgentService.config := two_deployments;
     CSVComparisonAgentService.strip := unpadded;
     CSVComparisonAgentService.int := digits;
     CSVComparisonAgentService.CSV_OUTPUT_SELECTION_USER_PROMPT_TEMPLATE :=
       plain_template;
     CSVComparisonAgentService.model_name_ := "gpt-4";
     CSVComparisonAgentService._executor := fun _ =>
       {| submit_error := Some pool_is_shut_down; meets := agreeable |} |}.

(** A comparison service over three deployments whose tasks meet an
    upload failure, a failed run, and an agent that never completes. *)
Definition all_in_trouble : CSVComparisonAgentService.service :=
  {| CSVComparisonAgentService.environment := agreeable;
     CSVComparisonAgentService.config := three_deployments;
     CSVComparisonAgentService.strip := unpadded;
     CSVComparisonAgentService.int := digits;
     CSVComparisonAgentService.CSV_OUTPUT_SELECTION_USER_PROMPT_TEMPLATE :=
       plain_template;
     CSVComparisonAgentService.model_name_ := "gpt-4";
     CSVComparisonAgentService._executor := fun position =>
       match position with
       | 0 => {| submit_error := None; meets := uploads_fail |}
       | 1 => {| submit_error := None; meets := run_fails |}
       | _ => {| submit_error := None; meets := never_done |}
       end |}.

(** A comparison service whose configuration lists one deployment. *)
Definition lone_deployment : CSVComparisonAgentService.service :=
  {| CSVComparisonAgentService.environment := agreeable;
     CSVComparisonAgentService.config :=
       {| OpenAIService.azure_openai_deployment_name := "o3";
          OpenAIService.model_deployments := Some ["gpt-4.1"];
          OpenAIService.best_output_selector_model := "gpt-4.1" |};
     CSVComparisonAgentService.strip := unpadded;
     CSVComparisonAgentService.int := digits;
     CSVComparisonAgentService.CSV_OUTPUT_SELECTION_USER_PROMPT_TEMPLATE :=
       plain_template;
     CSVComparisonAgentService.model_name_ := "gpt-4.1";
     CSVComparisonAgentService._executor := fun _ =>
       {| submit_error := None; meets := productive |} |}.

(** A comparison service over two deployments, both of whose tasks
    succeed. *)
Definition both_succeed : CSVComparisonAgentService.service :=
  {| CSVComparisonAgentService.environment := agreeable;
     CSVComparisonAgentService.config := two_deployments;
     CSVComparisonAgentService.strip := unpadded;
     CSVComparisonAgentService.int := digits;
     CSVComparisonAgentService.CSV_OUTPUT_SELECTION_USER_PROMPT_TEMPLATE :=
       plain_template;
     CSVComparisonAgentService.model_name_ := "gpt-4";
     CSVComparisonAgentService._executor := fun _ =>
       {| submit_error := None; meets := productive |} |}.

(** The requests that acquire a remote resource. *)
Definition is_acquire (r : request) : bool :=
  match r with
  | files_upload_and_poll _ _ | create_agent _ _ _ _ | threads_create => true
  | _ => false
  end.

(** The deletion that releases what request [r] acquired when the
    environment answered it with [id].  An agent or a thread whose
    identifier is the empty string is never deleted: the release tests
    the identifier's truth value. *)
Definition release_of (r : request) (id : string) : option request :=
  match r with
  | files_upload_and_poll _ _ => Some (files_delete id)
  | create_agent _ _ _ _ => if truthy id then Some (delete_agent id) else None
  | threads_create => if truthy id then Some (threads_delete id) else None
  | _ => None
  end.

(** [tracked client h delta ds]: every resource acquired by a request of
    [delta], made after [h], is released by one of the deletions [ds]. *)
Fixpoint tracked (client : Env) (h delta ds : list request) : Prop :=
  match delta with
  | [] => True
  | r :: rest =>
      (forall id d,
          on_text client h r = inr id -> release_of r id = Some d -> In d ds) /\
      tracked client (h ++ [r]) rest ds
  end.

(** [all_released client h delta]: every resource acquired by a request
    of [delta], made after [h], is released by a later request of
    [delta]. *)
Fixpoint all_released (client : Env) (h delta : list request) : Prop :=
  match delta with
  | [] => True
  | r :: rest =>
      (forall id d,
          on_text client h r = inr id -> release_of r id = Some d -> In d rest) /\
      all_released client (h ++ [r]) rest
  end.

(** The deletions a release of the comparison context [context]
    attempts. *)
Definition due (context : BaseAgentService.BaseAgentTaskContext)
  : list request :=
  deletions (BaseAgentService.thread_id context)
    (BaseAgentService.agent_id context)
    (Some (BaseAgentService.file_ids context)).

(** The deletions a release of the reorder context [context] attempts. *)
Definition reorder_due (context : ReorderService.ReorderContext)
  : list request :=
  deletions (ReorderService.thread_id context)
    (ReorderService.agent_id context)
    (Some (ReorderService.file_ids context)).

(** [silent_in Q P R c]: the same for a computation inside a task,
    whose state carries the task context: started on a context that
    satisfies [P], [c] only appends requests to the trace, none of
    which satisfies [Q], and leaves a context that satisfies [R]. *)
Definition silent_in {C A} (Q : request -> bool) (P R : C -> Prop)
    (c : M (C * world) A) : Prop :=
  forall s, P (fst s) ->
    exists delta,
      trace (snd (snd (c s))) = (trace (snd s) ++ delta)%list /\
      filter Q delta = [] /\
      R (fst (snd (c s))).

(** The requests made between the state [w] and the later state [w']. *)
Definition since (w w' : world) : list request :=
  skipn (length (trace w)) (trace w').

(** The names under which the requests of [delta] save downloaded
    files. *)
Definition saved_names (delta : list request) : list string :=
  flat_map (fun r => match r with
                     | files_save _ file_name _ => [file_name]
                     | _ => []
                     end) delta.

(** The prefix that marks the files of the task with index
    [model_index]. *)
Definition model_prefix (model_index : nat) : string :=
  "model_" ++ str_int model_index ++ "_".

(** A request that saves a file whose name lacks the prefix of
    [model_index]. *)
Definition saves_outside (model_index : nat) (r : request) : bool :=
  match r with
  | files_save _ file_name _ =>
      negb (startswith file_name (model_prefix model_index))
  | _ => false
  end.

Definition is_digit (c : ascii) : bool :=
  ((48 <=? nat_of_ascii c) && (nat_of_ascii c <=? 57))%nat.

Fixpoint all_digits (s : string) : bool :=
  match s with
  | EmptyString => true
  | String c rest => is_digit c && all_digits rest
  end.

Definition is_rename (r : request) : bool :=
  match r with
  | os_rename _ _ => true
  | _ => false
  end.

(** The requests that remove or rename a local file. *)
Definition is_mutation (r : request) : bool :=
  match r with
  | os_remove _ | os_rename _ _ => true
  | _ => false
  end.

(** The entries of a directory listing that
    [_cleanup_non_winning_files] takes for files of a model. *)
Definition is_model_file (f : string) : bool :=
  startswith f "model_" && endswith f ".csv".

(** What [_cleanup_non_winning_files] asks for a file [f] of
    [target_dir]: the removal of a non-winning file, and the renaming
    of a winning file to its name without the winner's prefix. *)
Definition discarded (target_dir f : string) : request :=
  os_remove (path_join target_dir f).

Definition promoted (target_dir prefix f : string) : request :=
  os_rename (path_join target_dir f)
    (path_join target_dir (replace_str f prefix "")).

(** A directory in which three models left their files. *)
Definition crowded_directory : Env :=
  {| on_effect := on_effect agreeable;
     on_test := fun _ _ => false;
     on_text := on_text agreeable;
     on_lines := fun _ r =>
       match r with
       | os_listdir _ =>
           inr ["model_1_source_data_reordered.csv";
                "model_2_source_data_reordered.csv";
                "notes.txt";
                "model_2_legacy_etl_output_reordered.csv";
                "model_10_source_data_reordered.csv"]
       | _ => inr []
       end;
     on_run := on_run agreeable;
     on_last_message := on_last_message agreeable;
     on_messages := on_messages agreeable;
     on_completion := on_completion agreeable |}.

Definition reorder_over_crowded : ReorderService.service :=
  {| ReorderService.environment := crowded_directory;
     ReorderService.config := two_deployments;
     ReorderService.strip := unpadded;
     ReorderService._executor := fun _ =>
       {| submit_error := None; meets := productive |} |}.

(** The two sample files [_build_comparison_data] reads for the
    candidate numbered [i]. *)
Definition sample_reads (target_dir : string) (i : nat) : list request :=
  [read_first_lines
     (path_join target_dir
        ("model_" ++ str_int i ++ "_source_data_reordered.csv"))
     ReorderService.CSV_SAMPLE_LINES;
   read_first_lines
     (path_join target_dir
        ("model_" ++ str_int i ++ "_legacy_etl_output_reordered.csv"))
     ReorderService.CSV_SAMPLE_LINES].

(** A reorder service whose arbiter answers [7]. *)
Definition undecided_judge : ReorderService.service :=
  {| ReorderService.environment := answers_seven;
     ReorderService.config := two_deployments;
     ReorderService.strip := unpadded;
     ReorderService._executor := fun _ =>
       {| submit_error := None; meets := productive |} |}.

(** The successful results among the zipped names and results, in
    order. *)
Definition successes (pairs : list (string * outcome string)) : dict string :=
  flat_map (fun '(model, result) =>
              match result with
              | Return s => if failed result then [] else [(model, s)]
              | Raise _ => []
              end) pairs.


(** An environment with a [PROMPT.md] in every directory. *)
Definition with_prompt_md : Env :=
  {| on_effect := on_effect agreeable;
     on_test := on_test agreeable;
     on_text := fun _ _ => inr "Keep the column order.";
     on_lines := on_lines agreeable;
     on_run := on_run agreeable;
     on_last_message := on_last_message agreeable;
     on_messages := on_messages agreeable;
     on_completion := fun _ _ => inr {| choices := [Some "import pandas"] |} |}.

(** A host none of whose calls raises. *)
Definition obliging (host : Host) : Prop :=
  forall calls requests call, on_call host calls requests call = None.

(** A host that answers every call without raising, sees every path
    as a directory, and reads no frame. *)
Definition easy_host : Host :=
  {| on_call := fun _ _ _ => None;
     on_probe := fun _ _ _ => true;
     on_frame := fun _ _ _ => inl (Exn "EmptyDataError" "No columns to parse from file") |}.

(** A reorder service over two deployments of which only the second
    task can be handed to the pool. *)
Definition second_succeeds : ReorderService.service :=
  {| ReorderService.environment := agreeable;
     ReorderService.config := two_deployments;
     ReorderService.strip := unpadded;
     ReorderService._executor := fun position =>
       match position with
       | 0 => {| submit_error := Some pool_is_shut_down; meets := agreeable |}
       | _ => {| submit_error := None; meets := productive |}
       end |}.

(** The paths [results] holds under the extension [ext]. *)
Definition bucket (results : dict (list string)) (ext : string) : list string :=
  match get results ext with
  | Some files => files
  | None => []
  end.

(** The number of paths filed in [results]. *)
Definition filed (results : dict (list string)) : nat :=
  list_sum (map (fun entry => length (snd entry)) results).

(** A directory with two CSV files, a SQL script and a subdirectory. *)
Definition data_directory : Env :=
  {| on_effect := on_effect agreeable;
     on_test := on_test agreeable;
     on_text := on_text agreeable;
     on_lines := fun _ _ => inr ["source.CSV"; "legacy.sql"; "archive.csv"; "out.csv"];
     on_run := on_run agreeable;
     on_last_message := on_last_message agreeable;
     on_messages := on_messages agreeable;
     on_completion := on_completion agreeable |}.

(** A host for which [archive.csv] is a directory and every other
    path a file. *)
Definition picky_host : Host :=
  {| on_call := fun _ _ _ => None;
     on_probe := fun _ _ call =>
       match call with
       | os_path_isfile path => negb (endswith path "archive.csv")
       | _ => true
       end;
     on_frame := fun _ _ _ =>
       inr {| columns := ["id"; "name"]; sample_row_count := 1;
              to_csv := "id,name" ++ nl ++ "1,test" ++ nl |} |}.

(** A host that sees no directory anywhere. *)
Definition no_directory : Host :=
  {| on_call := fun _ _ _ => None;
     on_probe := fun _ _ _ => false;
     on_frame := on_frame easy_host |}.

(** A client whose directory listings are refused. *)
Definition unlistable : Env :=
  {| on_effect := on_effect agreeable;
     on_test := on_test agreeable;
     on_text := on_text agreeable;
     on_lines := fun _ _ => inl (Exn "PermissionError" "[Errno 13] Permission denied: '/data'");
     on_run := on_run agreeable;
     on_last_message := on_last_message agreeable;
     on_messages := on_messages agreeable;
     on_completion := on_completion agreeable |}.

(** The arbiter answers [2]. *)
Definition prefers_second : Env :=
  {| on_effect := on_effect agreeable;
     on_test := on_test agreeable;
     on_text := on_text agreeable;
     on_lines := on_lines agreeable;
     on_run := on_run agreeable;
     on_last_message := on_last_message agreeable;
     on_messages := on_messages agreeable;
     on_completion := fun _ _ => inr {| choices := [Some "2"] |} |}.

(** A comparison service over two deployments: the first task
    succeeds, the second meets a refused upload; the arbiter prefers
    the second candidate. *)
Definition success_beside_failure : CSVComparisonAgentService.service :=
  {| CSVComparisonAgentService.environment := prefers_second;
     CSVComparisonAgentService.config := two_deployments;
     CSVComparisonAgentService.strip := unpadded;
     CSVComparisonAgentService.int := digits;
     CSVComparisonAgentService.CSV_OUTPUT_SELECTION_USER_PROMPT_TEMPLATE :=
       plain_template;
     CSVComparisonAgentService.model_name_ := "gpt-4";
     CSVComparisonAgentService._executor := fun position =>
       match position with
       | 0 => {| submit_error := None; meets := productive |}
       | _ => {| submit_error := None; meets := uploads_fail |}
       end |}.

(** A reorder service over three deployments whose tasks meet the
    troubles of [all_in_trouble]: a refused upload, a failed run, and
    an agent that leaves no file. *)
Definition reorder_in_trouble : ReorderService.service :=
  {| ReorderService.environment := agreeable;
     ReorderService.config := three_deployments;
     ReorderService.strip := unpadded;
     ReorderService._executor := fun position =>
       match position with
       | 0 => {| submit_error := None; meets := uploads_fail |}
       | 1 => {| submit_error := None; meets := run_fails |}
       | _ => {| submit_error := None; meets := never_done |}
       end |}.

(** The requests [_download_and_read_csv] makes for the file [fid]
    after the requests [h] when the download fails: the save, the read
    and the removal, up to the first that raises; [None] when none of
    them raises. *)
Definition failed_download (client : Env) (model_name : string)
    (h : list request) (fid : string) : option (list request) :=
  let file_name := fid ++ "_csv_" ++ replace model_name "." "_" in
  let save := files_save fid file_name None in
  match on_effect client h save with
  | Some _ => Some [save]
  | None =>
      match on_text client (h ++ [save]) (open_read file_name) with
      | inl _ => Some [save; open_read file_name]
      | inr _ =>
          match on_effect client (h ++ [save; open_read file_name])
                  (os_remove file_name) with
          | Some _ => Some [save; open_read file_name; os_remove file_name]
          | None => None
          end
      end
  end.

(** [all_downloads_fail client model_name h fids]: downloaded one after
    the other, the first after the requests [h], every file of [fids]
    fails. *)
Fixpoint all_downloads_fail (client : Env) (model_name : string)
    (h : list request) (fids : list string) : bool :=
  match fids with
  | [] => true
  | fid :: rest =>
      match failed_download client model_name h fid with
      | Some requests =>
          all_downloads_fail client model_name (h ++ requests) rest
      | None => false
      end
  end.

(** The attachments of the messages, in the order the extraction
    visits them. *)
Definition attachments (messages : list ThreadMessage)
  : list FilePathAnnotation :=
  flat_map (fun msg => match file_path_annotations msg with
                       | Some annotations => annotations
                       | None => []
                       end) messages.

(** [sentinel_after client context h n]: started after the requests
    [h], the first [n] attempts of the protocol go by without the
    completion marker (each run comes back with a status other than
    failed, the last agent message lacks the marker, the nudge is
    accepted), and in the next attempt the run comes back with a status
    other than failed and the last agent message holds the marker. *)
Definition sentinel_after (client : Env)
    (context : CSVComparisonAgentService.AgentContext)
    (h : list request) (n : nat) : bool :=
  all_quiet client h (protocol_of context (seq 1 n)) &&
  let h' := (h ++ protocol_of context (seq 1 n))%list in
  match on_run client h' (run_request context) with
  | inr run =>
      negb (status run =? "failed") &&
      match on_last_message client (h' ++ [run_request context])
              (read_request context) with
      | inr m => CSVComparisonAgentService._is_task_completed m
      | inl _ => false
      end
  | inl _ => false
  end.

(** An environment whose agent reports completion after its second
    run and attaches two files, neither of which can be read: saving
    the first is refused, the second is saved but is not text. *)
Definition late_and_unreadable : Env :=
  {| on_effect := fun _ r =>
       match r with
       | files_save "assistant-1" _ _ =>
           Some (Exn "HttpResponseError" "file not found")
       | _ => None
       end;
     on_test := on_test agreeable;
     on_text := fun h r =>
       match r with
       | open_read _ =>
           inl (Exn "UnicodeDecodeError" "'utf-8' codec can't decode byte 0x89")
       | _ => on_text agreeable h r
       end;
     on_lines := on_lines agreeable;
     on_run := on_run agreeable;
     on_last_message := fun h _ =>
       if Nat.leb 2 (length (filter is_run h))
       then inr (Some {| text := Some "All files are written. TASK COMPLETED" |})
       else inr (Some {| text := Some "Still working." |});
     on_messages := fun _ _ =>
       inr [ {| role := AGENT;
                file_path_annotations :=
                  Some [ {| annotation_text := "sandbox:/mnt/data/row_location.csv";
                            file_id := "assistant-1" |};
                         {| annotation_text := "sandbox:/mnt/data/chart.png";
                            file_id := "assistant-2" |} ] |} ];
     on_completion := on_completion agreeable |}.

(** A comparison service over two deployments: the first task
    completes without a readable attachment, the second succeeds. *)
Definition empty_handed : CSVComparisonAgentService.service :=
  {| CSVComparisonAgentService.environment := agreeable;
     CSVComparisonAgentService.config := two_deployments;
     CSVComparisonAgentService.strip := unpadded;
     CSVComparisonAgentService.int := digits;
     CSVComparisonAgentService.CSV_OUTPUT_SELECTION_USER_PROMPT_TEMPLATE :=
       plain_template;
     CSVComparisonAgentService.model_name_ := "gpt-4";
     CSVComparisonAgentService._executor := fun position =>
       match position with
       | 0 => {| submit_error := None; meets := late_and_unreadable |}
       | _ => {| submit_error := None; meets := productive |}
       end |}.

(** * Properties *)

(** ** Computations *)

Lemma world_eta (w : world) : {| trace := trace w; log := log w |} = w.
Proof. destruct w; reflexivity. Qed.

Lemma bind_Return {S A B} (c : M S A) (k : A -> M S B) s a s' :
  c s = (Return a, s') -> bind c k s = k a s'.
Proof. intros H; unfold bind; rewrite H; reflexivity. Qed.

Lemma bind_Raise {S A B} (c : M S A) (k : A -> M S B) s e s' :
  c s = (Raise e, s') -> bind c k s = (Raise e, s').
Proof. intros H; unfold bind; rewrite H; reflexivity. Qed.

(** A guarded call made for its effect never raises: it records the
    request, and logs when the environment answered with an exception. *)
Lemma guarded_effect (client : Env) (d : request) (msg : exn -> string) w :
  try_except (call_effect client d) (fun e => logger ERROR (msg e)) w
  = (Return tt,
     {| trace := trace w ++ [d];
        log := log w ++ match on_effect client (trace w) d with
                        | Some e => [(ERROR, msg e)]
                        | None => []
                        end |}).
Proof.
  unfold try_except, call_effect, logger, record; simpl.
  destruct (on_effect client (trace w) d); simpl.
  - reflexivity.
  - now rewrite app_nil_r.
Qed.

Section Release.
Import BaseAgentService.
Variable client : Env.

Lemma _cleanup_thread_run t m w :
  _cleanup_thread client t m w
  = (Return tt,
     {| trace := trace w ++ [threads_delete t];
        log := log w ++ failures client (trace w) [threads_delete t] |}).
Proof.
  unfold _cleanup_thread. rewrite guarded_effect. simpl.
  now rewrite app_nil_r.
Qed.

Lemma _cleanup_agent_run a m w :
  _cleanup_agent client a m w
  = (Return tt,
     {| trace := trace w ++ [delete_agent a];
        log := log w ++ failures client (trace w) [delete_agent a] |}).
Proof.
  unfold _cleanup_agent. rewrite guarded_effect. simpl.
  now rewrite app_nil_r.
Qed.

Lemma _cleanup_files_run fs m w :
  _cleanup_files client fs m w
  = (Return tt,
     {| trace := trace w ++ map files_delete fs;
        log := log w ++ failures client (trace w) (map files_delete fs) |}).
Proof.
  unfold _cleanup_files. revert w.
  induction fs as [|f fs IH]; intros w; simpl.
  - unfold ret. now rewrite !app_nil_r, world_eta.
  - erewrite bind_Return by apply guarded_effect.
    rewrite IH. simpl. now rewrite <- !app_assoc.
Qed.

Lemma failures_app h ds1 ds2 :
  failures client h (ds1 ++ ds2)
  = (failures client h ds1 ++ failures client (h ++ ds1) ds2)%list.
Proof.
  revert h. induction ds1 as [|d ds1 IH]; intros h; simpl.
  - now rewrite app_nil_r.
  - rewrite IH, <- !app_assoc. reflexivity.
Qed.

Lemma release_run thread agent files m w :
  _cleanup_agent_resources (Some client) thread agent files m w
  = (Return tt,
     {| trace := trace w ++ deletions thread agent files;
        log := log w ++ failures client (trace w) (deletions thread agent files) |}).
Proof.
  unfold _cleanup_agent_resources, deletions.
  set (dt := match thread with Some t => if truthy t then [threads_delete t] else [] | None => [] end).
  set (df := match files with Some fs => map files_delete fs | None => [] end).
  set (da := match agent with Some a => if truthy a then [delete_agent a] else [] | None => [] end).
  assert (Ht : (match thread with
                | Some t => if truthy t then _cleanup_thread client t m else ret tt
                | None => ret tt end) w
          = (Return tt, {| trace := trace w ++ dt; log := log w ++ failures client (trace w) dt |})).
  { subst dt. destruct thread as [t|]; [destruct (truthy t)|];
      rewrite ?_cleanup_thread_run; unfold ret; simpl;
      rewrite ?app_nil_r, ?world_eta; reflexivity. }
  erewrite bind_Return by exact Ht. clear Ht.
  set (w1 := {| trace := trace w ++ dt; log := log w ++ failures client (trace w) dt |}).
  assert (Hf : (match files with
                | Some (f :: fs) => _cleanup_files client (f :: fs) m
                | _ => ret tt end) w1
          = (Return tt, {| trace := trace w1 ++ df; log := log w1 ++ failures client (trace w1) df |})).
  { subst df. destruct files as [[|f fs]|];
      rewrite ?_cleanup_files_run; unfold ret; simpl;
      rewrite ?app_nil_r; reflexivity. }
  erewrite bind_Return by exact Hf. clear Hf.
  set (w2 := {| trace := trace w1 ++ df; log := log w1 ++ failures client (trace w1) df |}).
  assert (Ha : (match agent with
                | Some a => if truthy a then _cleanup_agent client a m else ret tt
                | None => ret tt end) w2
          = (Return tt, {| trace := trace w2 ++ da; log := log w2 ++ failures client (trace w2) da |})).
  { subst da. destruct agent as [a|]; [destruct (truthy a)|];
      rewrite ?_cleanup_agent_run; unfold ret; simpl;
      rewrite ?app_nil_r, ?world_eta; reflexivity. }
  rewrite Ha. subst w2 w1. simpl.
  rewrite !failures_app, <- !app_assoc. reflexivity.
Qed.

End Release.

Lemma failures_In (client : Env) ds : forall h i d e,
  nth_error ds i = Some d ->
  on_effect client (h ++ firstn i ds) d = Some e ->
  In (ERROR, error_deleting d e) (failures client h ds).
Proof.
  induction ds as [|d0 ds IH]; intros h i d e Hnth Hans.
  - destruct i; discriminate.
  - destruct i as [|i]; simpl in *.
    + injection Hnth as ->. rewrite app_nil_r in Hans. rewrite Hans.
      now left.
    + apply in_or_app. right. apply (IH (h ++ [d0])%list i d e Hnth).
      now rewrite <- app_assoc.
Qed.

(** C5. A release with an optional thread id, an optional agent id and
    a file id list never raises; whatever the environment answers, the
    deletions it attempts are the thread, then every file, then the
    agent, each attempted; and every deletion answered with an
    exception leaves an error record in the log.  A service without a
    client attempts nothing. *)
Theorem release_order_and_guards :
  forall (client : Env) (thread_id agent_id : option string)
         (file_ids : option (list string)) (model_name : string) (w : world),
    let ds := deletions thread_id agent_id file_ids in
    let r := BaseAgentService._cleanup_agent_resources (Some client)
               thread_id agent_id file_ids model_name w in
    fst r = Return tt /\
    trace (snd r) = (trace w ++ ds)%list /\
    log (snd r) = (log w ++ failures client (trace w) ds)%list /\
    (forall i d e,
        nth_error ds i = Some d ->
        on_effect client (trace w ++ firstn i ds) d = Some e ->
        In (ERROR, error_deleting d e) (log (snd r))) /\
    BaseAgentService._cleanup_agent_resources None
      thread_id agent_id file_ids model_name w = (Return tt, w).
Proof.
  intros client thread_id agent_id file_ids model_name w ds r.
  subst r. rewrite release_run. simpl. fold ds.
  repeat split.
  intros i d e Hnth Hans. apply in_or_app. right.
  eapply failures_In; eassumption.
Qed.

(** ** Release of a task context *)

Lemma deletions_are_deletions thread agent files :
  filter is_deletion (deletions thread agent files) = deletions thread agent files.
Proof.
  unfold deletions.
  rewrite !filter_app.
  f_equal; [|f_equal].
  - destruct thread as [t|]; [destruct (truthy t)|]; reflexivity.
  - destruct files as [fs|]; [|reflexivity].
    induction fs as [|f fs IH]; simpl; [reflexivity | now rewrite IH].
  - destruct agent as [a|]; [destruct (truthy a)|]; reflexivity.
Qed.

Lemma cleanup_temp_files_run (env : Env) paths : forall w,
  exists w',
    file_utils.cleanup_temp_files env paths w = (Return tt, w') /\
    filter is_deletion (trace w') = filter is_deletion (trace w).
Proof.
  unfold file_utils.cleanup_temp_files.
  induction paths as [|p paths IH]; intros w; simpl.
  - exists w. split; reflexivity.
  - set (step := try_except _ _).
    assert (Hstep : exists w1, step w = (Return tt, w1) /\
              filter is_deletion (trace w1) = filter is_deletion (trace w)).
    { subst step. unfold try_except, bind, call_test, call_effect, logger, ret, record.
      simpl.
      destruct (on_test env (trace w) (os_path_exists p)); simpl.
      - destruct (on_effect env _ (os_remove p)); simpl;
          eexists; (split; [reflexivity|]); simpl;
          rewrite <- ?app_assoc, !filter_app; simpl; now rewrite ?app_nil_r.
      - eexists; (split; [reflexivity|]); simpl.
        rewrite filter_app; simpl; now rewrite app_nil_r. }
    destruct Hstep as (w1 & Hrun & Hdel).
    erewrite bind_Return by exact Hrun.
    destruct (IH w1) as (w' & Hrun' & Hdel').
    exists w'. split; [exact Hrun'|]. now rewrite Hdel'.
Qed.

Lemma context_release_run (client : Env) context w :
  exists w',
    CSVComparisonAgentService._cleanup_agent_resources client (context, w)
    = (Return tt, (context, w')) /\
    filter is_deletion (trace w')
    = (filter is_deletion (trace w)
       ++ deletions (BaseAgentService.thread_id context)
            (BaseAgentService.agent_id context)
            (Some (BaseAgentService.file_ids context)))%list.
Proof.
  unfold CSVComparisonAgentService._cleanup_agent_resources.
  unfold bind at 1, get_context, lift; cbn [fst snd].
  erewrite bind_Return by apply release_run.
  match goal with
  | |- context [file_utils.cleanup_temp_files client ?ps ?w0] =>
      destruct (cleanup_temp_files_run client ps w0) as (w' & Hrun & Hdel)
  end.
  rewrite Hrun. exists w'. split; [reflexivity|].
  rewrite Hdel. simpl. rewrite filter_app, deletions_are_deletions. reflexivity.
Qed.

(** C6, as the code has it.  Releasing a task context twice does not
    raise; the release leaves every field of the context as it was, so
    the second release attempts the deletions of the first once more:
    the thread, every file, the agent. *)
Theorem release_twice :
  forall (client : Env) (context : CSVComparisonAgentService.AgentContext)
         (w : world),
    let ds := deletions (BaseAgentService.thread_id context)
                (BaseAgentService.agent_id context)
                (Some (BaseAgentService.file_ids context)) in
    let r1 := CSVComparisonAgentService._cleanup_agent_resources client
                (context, w) in
    let r2 := CSVComparisonAgentService._cleanup_agent_resources client
                (snd r1) in
    fst r1 = Return tt /\ fst r2 = Return tt /\
    fst (snd r1) = context /\ fst (snd r2) = context /\
    filter is_deletion (trace (snd (snd r1)))
    = (filter is_deletion (trace w) ++ ds)%list /\
    filter is_deletion (trace (snd (snd r2)))
    = (filter is_deletion (trace (snd (snd r1))) ++ ds)%list.
Proof.
  intros client context w ds r1 r2.
  destruct (context_release_run client context w) as (w1 & H1 & D1).
  assert (E1 : r1 = (Return tt, (context, w1))) by exact H1.
  destruct (context_release_run client context w1) as (w2 & H2 & D2).
  assert (E2 : r2 = (Return tt, (context, w2))).
  { subst r2. rewrite E1. exact H2. }
  rewrite E2, E1. simpl. repeat split; assumption.
Qed.

(** C6, as the claim has it, fails: after a first release the context
    still holds its thread, its file and its agent, and a second
    release asks for each of them to be deleted again. *)
Lemma release_twice_deletes_again :
  let s1 := snd (CSVComparisonAgentService._cleanup_agent_resources agreeable
                   (held, empty_world)) in
  let s2 := snd (CSVComparisonAgentService._cleanup_agent_resources agreeable s1) in
  fst s1 = held /\
  filter is_deletion (trace (snd s1))
  = [threads_delete "thread-1"; files_delete "file-1"; delete_agent "agent-1"] /\
  filter is_deletion (trace (snd s2))
  = [threads_delete "thread-1"; files_delete "file-1"; delete_agent "agent-1";
     threads_delete "thread-1"; files_delete "file-1"; delete_agent "agent-1"].
Proof. repeat split. Qed.

(** ** Requests a computation does not make *)

Section Silent.
Variable Q : request -> bool.

Lemma silent_ret {A} (a : A) : silent Q (ret a).
Proof. intros w. exists []. simpl. now rewrite app_nil_r. Qed.

Lemma silent_raise {A} (e : exn) : silent Q (@raise world A e).
Proof. intros w. exists []. simpl. now rewrite app_nil_r. Qed.

Lemma silent_logger lvl msg : silent Q (logger lvl msg).
Proof. intros w. exists []. simpl. now rewrite app_nil_r. Qed.

Lemma silent_bind {A B} (c : M world A) (k : A -> M world B) :
  silent Q c -> (forall a, silent Q (k a)) -> silent Q (bind c k).
Proof.
  intros Hc Hk w. unfold bind.
  destruct (Hc w) as (d1 & T1 & F1).
  destruct (c w) as [[a|e] w1]; simpl in *.
  - destruct (Hk a w1) as (d2 & T2 & F2).
    exists (d1 ++ d2)%list. rewrite T2, T1, app_assoc, filter_app, F1, F2.
    split; reflexivity.
  - exists d1. split; assumption.
Qed.

Lemma silent_try_except {A} (c : M world A) (h : exn -> M world A) :
  silent Q c -> (forall e, silent Q (h e)) -> silent Q (try_except c h).
Proof.
  intros Hc Hh w. unfold try_except.
  destruct (Hc w) as (d1 & T1 & F1).
  destruct (c w) as [[a|e] w1]; simpl in *.
  - exists d1. split; assumption.
  - destruct (Hh e w1) as (d2 & T2 & F2).
    exists (d1 ++ d2)%list. rewrite T2, T1, app_assoc, filter_app, F1, F2.
    split; reflexivity.
Qed.

Lemma silent_for_fold {A B} (xs : list A) (body : B -> A -> M world B) :
  (forall acc x, silent Q (body acc x)) ->
  forall acc, silent Q (for_fold xs acc body).
Proof.
  intros Hbody. induction xs as [|x xs IH]; intros acc; simpl.
  - apply silent_ret.
  - apply silent_bind; [apply Hbody | intros acc'; apply IH].
Qed.

Lemma silent_for_each {A} (xs : list A) (body : A -> M world unit) :
  (forall x, silent Q (body x)) -> silent Q (for_each xs body).
Proof.
  intros Hbody. induction xs as [|x xs IH]; simpl.
  - apply silent_ret.
  - apply silent_bind; [apply Hbody | intros _; apply IH].
Qed.

Lemma silent_request {A} (answer : world -> outcome A) (req : request) :
  Q req = false -> silent Q (fun w => (answer w, record req w)).
Proof.
  intros Hq w. exists [req]. simpl. rewrite Hq. split; reflexivity.
Qed.
End Silent.

Ltac silence :=
  repeat first
    [ apply silent_ret | apply silent_raise | apply silent_logger
    | apply silent_bind | apply silent_try_except
    | apply silent_for_fold | apply silent_for_each
    | apply silent_request; reflexivity
    | intro ].

(** ** The completion-continuation protocol *)

Section Protocol_proofs.
Import BaseAgentService CSVComparisonAgentService.
Variable client : Env.

Lemma download_silent fid model :
  silent is_protocol (_download_and_read_csv client fid model).
Proof.
  unfold _download_and_read_csv, call_effect, call_text. silence.
Qed.

Lemma extract_silent thread model :
  silent is_protocol (_extract_csv_results client thread model).
Proof.
  unfold _extract_csv_results, call_messages.
  apply silent_bind; [apply silent_request; reflexivity | intros messages].
  apply silent_bind; [|silence].
  apply silent_for_fold. intros parts msg.
  destruct (file_path_annotations msg) as [annotations|]; [|apply silent_raise].
  apply silent_for_fold. intros parts' annotation.
  apply silent_bind; [apply download_silent | intros [content|]].
  - destruct (truthy content); apply silent_ret.
  - apply silent_ret.
Qed.

Lemma attempts_requests (context : AgentContext) range : forall w,
  exists delta,
    trace (snd (attempts client context range w)) = (trace w ++ delta)%list /\
    exists rest,
      protocol_of context range = (filter is_protocol delta ++ rest)%list.
Proof.
  induction range as [|attempt range IH]; intros w.
  - exists []. simpl. rewrite app_nil_r. split; [reflexivity|]. now exists [].
  - cbn [attempts protocol_of flat_map].
    fold (protocol_of context range).
    unfold bind at 1. unfold call_run at 1. cbn [fst snd].
    fold (run_request context).
    destruct (on_run client (trace w) (run_request context)) as [e|run];
      cbn [of_answer].
    { exists [run_request context]. split; [reflexivity|]. simpl. eauto. }
    destruct (status run =? "failed").
    { exists [run_request context]. split; [reflexivity|]. simpl. eauto. }
    unfold bind at 1. unfold _get_last_agent_message at 1, call_last_message at 1.
    fold (read_request context). cbn [record trace log].
    destruct (on_last_message client (trace w ++ [run_request context])
                (read_request context)) as [e|m]; cbn [of_answer].
    { exists [run_request context; read_request context].
      cbn [snd record trace]. rewrite <- app_assoc. split; [reflexivity|].
      simpl. eauto. }
    destruct (_is_task_completed m).
    { match goal with
      | |- context [_extract_csv_results client ?t ?m ?w0] =>
          destruct (extract_silent t m w0) as (dx & Tx & Fx)
      end.
      exists ([run_request context; read_request context] ++ dx)%list.
      rewrite Tx. cbn [record trace]. rewrite <- !app_assoc. split; [reflexivity|].
      rewrite filter_app, Fx. simpl. eauto. }
    destruct (Nat.ltb attempt MAX_ATTEMPTS).
    + unfold bind at 1. unfold _send_continuation_prompt at 1, call_effect at 1.
      fold (nudge context). cbn [record trace log].
      destruct (on_effect client _ (nudge context)) as [e|].
      { exists [run_request context; read_request context; nudge context].
        cbn [snd record trace]. rewrite <- !app_assoc. split; [reflexivity|].
        simpl. eauto. }
      match goal with
      | |- context [attempts client context range ?w0] =>
          destruct (IH w0) as (d & Td & r & Hr)
      end.
      exists ([run_request context; read_request context; nudge context] ++ d)%list.
      rewrite Td. cbn [record trace]. rewrite <- !app_assoc. split; [reflexivity|].
      rewrite filter_app. exists r. rewrite Hr. reflexivity.
    + unfold bind at 1. unfold ret at 1.
      match goal with
      | |- context [attempts client context range ?w0] =>
          destruct (IH w0) as (d & Td & r & Hr)
      end.
      exists ([run_request context; read_request context] ++ d)%list.
      rewrite Td. cbn [record trace]. rewrite <- !app_assoc. split; [reflexivity|].
      rewrite filter_app. exists r. rewrite Hr. reflexivity.
Qed.


Lemma for_fold_invariant {A B} (I : B -> Prop) (xs : list A)
    (body : B -> A -> M world B) :
  (forall acc x w acc' w',
      I acc -> body acc x w = (Return acc', w') -> I acc') ->
  forall acc w acc' w',
    I acc -> for_fold xs acc body w = (Return acc', w') -> I acc'.
Proof.
  intros Hbody. induction xs as [|x xs IH]; intros acc w acc' w' Hacc Hrun.
  - simpl in Hrun. injection Hrun as <- _. exact Hacc.
  - simpl in Hrun. unfold bind in Hrun.
    destruct (body acc x w) as [[acc1|e] w1] eqn:Hstep; [|discriminate].
    eapply IH; [|exact Hrun]. eapply Hbody; eassumption.
Qed.

Lemma join_headed parts :
  headed parts ->
  join "" parts = "" \/ exists rest, join "" parts = String "#" rest.
Proof.
  intros H. destruct H as [|part parts (rest & ->) _].
  - now left.
  - right. unfold join. destruct parts as [|p ps]; simpl; eauto.
Qed.

Lemma extract_shape thread model w s w' :
  _extract_csv_results client thread model w = (Return s, w') ->
  s = "" \/ exists rest, s = String "#" rest.
Proof.
  unfold _extract_csv_results, bind.
  destruct (call_messages client (messages_list thread) w) as [[messages|e] w1];
    [|discriminate].
  destruct (for_fold messages [] _ w1) as [[parts|e] w2] eqn:Hfold; [|discriminate].
  unfold ret. intros Hs. injection Hs as <- _.
  apply join_headed.
  revert Hfold. apply for_fold_invariant; [|constructor].
  intros acc msg w0 acc' w0' Hacc.
  destruct (file_path_annotations msg) as [annotations|]; [|discriminate].
  apply for_fold_invariant; [|exact Hacc].
  clear. intros acc annotation w0 acc' w0' Hacc. unfold bind.
  destruct (_download_and_read_csv client (file_id annotation) model w0)
    as [[[content|]|e] w1]; try discriminate.
  - destruct (truthy content); unfold ret; intros H; injection H as <- _.
    + apply Forall_app. split; [exact Hacc|].
      constructor; [|constructor]. simpl. eauto.
    + exact Hacc.
  - unfold ret; intros H; injection H as <- _. exact Hacc.
Qed.

Lemma extract_not_exhausted thread model w m :
  fst (_extract_csv_results client thread model w)
  <> Return (max_attempts_reached m).
Proof.
  destruct (_extract_csv_results client thread model w) as [[s|e] w'] eqn:Hrun;
    simpl; [|discriminate].
  intros H. injection H as ->.
  destruct (extract_shape _ _ _ Hrun) as [H|(rest & H)]; discriminate.
Qed.

Lemma all_quiet_attempt (context : AgentContext) h attempt rest :
  all_quiet client h
    (([run_request context; read_request context]
      ++ (if Nat.ltb attempt MAX_ATTEMPTS then [nudge context] else []))
     ++ rest)
  = match on_run client h (run_request context) with
    | inr run =>
        negb (status run =? "failed") &&
        match on_last_message client (h ++ [run_request context])
                (read_request context) with
        | inr m =>
            negb (_is_task_completed m) &&
            if Nat.ltb attempt MAX_ATTEMPTS
            then
              match on_effect client
                      (h ++ [run_request context; read_request context])
                      (nudge context) with
              | None =>
                  all_quiet client
                    (h ++ [run_request context; read_request context;
                           nudge context]) rest
              | Some _ => false
              end
            else
              all_quiet client
                (h ++ [run_request context; read_request context]) rest
        | inl _ => false
        end
    | inl _ => false
    end.
Proof.
  cbn [app all_quiet]. unfold run_request at 1. cbn [quiet].
  fold (run_request context).
  destruct (on_run client h (run_request context)) as [e|run]; [reflexivity|].
  f_equal. unfold read_request at 1. cbn [quiet]. fold (read_request context).
  destruct (on_last_message client _ (read_request context)) as [e|m];
    [reflexivity|].
  f_equal. rewrite <- !app_assoc. cbn [app].
  destruct (Nat.ltb attempt MAX_ATTEMPTS); cbn [app all_quiet]; [|reflexivity].
  unfold nudge at 1. cbn [quiet]. fold (nudge context).
  destruct (on_effect client _ (nudge context)); [reflexivity|].
  rewrite <- !app_assoc. reflexivity.
Qed.

Lemma attempts_exhausted (context : AgentContext) range : forall w,
  fst (attempts client context range w)
  = Return (max_attempts_reached (model_name context))
  <-> all_quiet client (trace w) (protocol_of context range) = true.
Proof.
  induction range as [|attempt range IH]; intros w.
  - simpl. split; reflexivity.
  - cbn [attempts protocol_of flat_map].
    fold (protocol_of context range).
    rewrite all_quiet_attempt.
    unfold bind at 1. unfold call_run at 1. cbn [fst snd].
    fold (run_request context).
    destruct (on_run client (trace w) (run_request context)) as [e|run];
      cbn [of_answer].
    { simpl. split; discriminate. }
    destruct (status run =? "failed"); cbn [negb andb].
    { simpl. split; discriminate. }
    unfold bind at 1. unfold _get_last_agent_message at 1, call_last_message at 1.
    fold (read_request context). cbn [record trace log].
    destruct (on_last_message client (trace w ++ [run_request context])
                (read_request context)) as [e|m]; cbn [of_answer].
    { simpl. split; discriminate. }
    destruct (_is_task_completed m); cbn [negb andb].
    { split; [|discriminate]. intros H. now apply extract_not_exhausted in H. }
    destruct (Nat.ltb attempt MAX_ATTEMPTS).
    + unfold bind at 1. unfold _send_continuation_prompt at 1, call_effect at 1.
      fold (nudge context). cbn [record trace log].
      rewrite <- !app_assoc. cbn [app].
      destruct (on_effect client _ (nudge context)) as [e|].
      { simpl. split; discriminate. }
      rewrite IH. cbn [record trace]. rewrite <- !app_assoc. reflexivity.
    + unfold bind at 1. unfold ret at 1.
      rewrite IH. cbn [record trace]. rewrite <- !app_assoc. reflexivity.
Qed.


Lemma execute_agent_task_run (task : string) (context : AgentContext) w :
  _execute_agent_task client task (context, w)
  = let post := messages_create (thread_id context) task in
    match on_effect client (trace w) post with
    | Some e => (Raise e, (context, record post w))
    | None =>
        (fst (attempts client context (seq 1 MAX_ATTEMPTS) (record post w)),
         (context,
          snd (attempts client context (seq 1 MAX_ATTEMPTS) (record post w))))
    end.
Proof.
  unfold _execute_agent_task, bind at 1, get_context, lift. cbn [fst snd].
  unfold bind at 1, call_effect at 1.
  destruct (on_effect client (trace w) _); [reflexivity|].
  now destruct (attempts client context (seq 1 MAX_ATTEMPTS) _).
Qed.

Lemma filter_run_protocol (l : list request) :
  filter is_run (filter is_protocol l) = filter is_run l.
Proof.
  induction l as [|r l IH]; [reflexivity|].
  destruct r; simpl; rewrite ?IH; reflexivity.
Qed.

Lemma runs_bounded (full delta rest : list request) :
  full = (filter is_protocol delta ++ rest)%list ->
  length (filter is_run delta) <= length (filter is_run full).
Proof.
  intros ->. rewrite filter_app, filter_run_protocol, length_app. lia.
Qed.

End Protocol_proofs.

Section Reorder_protocol.
Import ReorderService.
Variable client : Env.

Lemma process_silent context legacy_path :
  silent is_protocol (_process_reorder_results client context legacy_path).
Proof.
  unfold _process_reorder_results, call_messages.
  apply silent_bind; [apply silent_request; reflexivity | intros messages].
  apply silent_bind.
  - apply silent_for_fold. intros reordered msg.
    destruct (role msg); [apply silent_ret|].
    destruct (file_path_annotations msg) as [annotations|]; [|apply silent_ret].
    apply silent_for_fold. intros reordered' annotation.
    unfold _process_single_reordered_file, call_effect, call_text.
    rewrite String.eqb_refl. cbn [negb]. silence.
  - intros reordered. destruct (Nat.eqb _ 0); apply silent_ret.
Qed.

Lemma execute_reorder_task_run (legacy_path : string) (context : ReorderContext) w :
  _execute_reorder_task client legacy_path (context, w)
  = match on_effect client (trace w) (reorder_post context) with
    | Some e => (Raise e, (context, record (reorder_post context) w))
    | None =>
        let w1 := record (reorder_post context) w in
        let w2 := record (reorder_run context) w1 in
        match on_run client (trace w1) (reorder_run context) with
        | inl e => (Raise e, (context, w2))
        | inr run =>
            if status run =? "failed"
            then
              (Return (run_failed run),
               (context,
                {| trace := trace w2;
                   log := log w2
                          ++ [(ERROR, "Reorder run failed for model "
                                      ++ model_name context ++ ": "
                                      ++ last_error run)] |}))
            else
              (fst (_process_reorder_results client context legacy_path w2),
               (context,
                snd (_process_reorder_results client context legacy_path w2)))
        end
    end.
Proof.
  unfold _execute_reorder_task, bind at 1, get_context, lift. cbn [fst snd].
  fold (reorder_post context) (reorder_run context).
  unfold bind at 1, call_effect at 1.
  destruct (on_effect client (trace w) _); [reflexivity|].
  unfold bind at 1, call_run at 1.
  destruct (on_run client _ (reorder_run context)) as [e|run]; [reflexivity|].
  cbn [of_answer]. destruct (status run =? "failed"); [reflexivity|].
  now destruct (_process_reorder_results client context legacy_path _).
Qed.

End Reorder_protocol.

(** C3, as the code has it.  The runs, reads of the last agent message
    and posts of the comparison protocol are an initial segment of:
    the task, then [MAX_ATTEMPTS] = 3 attempts of a run and a read, with
    a nudge after each attempt but the last; so the run is invoked at
    most three times and no nudge follows the last attempt.  The
    protocol returns the maximum-attempts result exactly when the
    environment lets every request of that sequence pass: the task and
    the nudges are accepted, every run returns a status other than
    failed, and every last message lacks the completion marker.  The
    reorder task posts its prompt and runs at most once, exactly once
    when the prompt is accepted. *)
Theorem continuation_protocol :
  forall (client : Env),
    CSVComparisonAgentService.MAX_ATTEMPTS = 3 /\
    (forall (task : string) (context : CSVComparisonAgentService.AgentContext)
            (w : world),
        let r := CSVComparisonAgentService._execute_agent_task client task
                   (context, w) in
        (exists delta,
            trace (snd (snd r)) = (trace w ++ delta)%list /\
            (exists rest,
                full_protocol context task
                = (filter is_protocol delta ++ rest)%list) /\
            length (filter is_run delta)
            <= CSVComparisonAgentService.MAX_ATTEMPTS) /\
        (fst r = Return (CSVComparisonAgentService.max_attempts_reached
                           (BaseAgentService.model_name context))
         <-> all_quiet client (trace w) (full_protocol context task) = true)) /\
    (forall (legacy_path : string) (context : ReorderService.ReorderContext)
            (w : world),
        let r := ReorderService._execute_reorder_task client legacy_path
                   (context, w) in
        exists delta,
          trace (snd (snd r)) = (trace w ++ delta)%list /\
          (exists rest,
              [reorder_post context; reorder_run context]
              = (filter is_protocol delta ++ rest)%list) /\
          (on_effect client (trace w) (reorder_post context) = None ->
           filter is_protocol delta
           = [reorder_post context; reorder_run context])).
Proof.
  intros client. split; [reflexivity|]. split.
  - intros task context w r. subst r.
    rewrite execute_agent_task_run. cbv zeta.
    set (post := messages_create (BaseAgentService.thread_id context) task).
    unfold full_protocol. fold post. cbn [all_quiet].
    change (quiet client (trace w) post)
      with (match on_effect client (trace w) post with
            | None => true
            | Some _ => false
            end).
    destruct (on_effect client (trace w) post) as [e|]; cbn [fst snd andb].
    + split; [|split; discriminate].
      exists [post]. split; [reflexivity|]. split; [|simpl; unfold CSVComparisonAgentService.MAX_ATTEMPTS; lia].
      simpl. eauto.
    + split.
      * destruct (attempts_requests client context
                    (seq 1 CSVComparisonAgentService.MAX_ATTEMPTS) (record post w))
          as (d & Td & rest & Hr).
        exists (post :: d). rewrite Td. cbn [record trace].
        rewrite <- app_assoc. split; [reflexivity|].
        assert (Hfull : post :: protocol_of context
                                  (seq 1 CSVComparisonAgentService.MAX_ATTEMPTS)
                        = (filter is_protocol (post :: d) ++ rest)%list).
        { change (filter is_protocol (post :: d))
            with (post :: filter is_protocol d).
          cbn [app]. now rewrite Hr. }
        split; [eauto|].
        apply runs_bounded in Hfull. exact Hfull.
      * apply attempts_exhausted.
  - intros legacy_path context w r. subst r.
    rewrite execute_reorder_task_run. cbv zeta.
    destruct (on_effect client (trace w) (reorder_post context)) as [e|].
    + exists [reorder_post context]. cbn [snd record trace].
      split; [reflexivity|]. split; [|discriminate]. simpl. eauto.
    + destruct (on_run client _ (reorder_run context)) as [e|run].
      * exists [reorder_post context; reorder_run context]. cbn [snd record trace].
        rewrite <- app_assoc. split; [reflexivity|]. split; [|reflexivity].
        exists []. reflexivity.
      * destruct (status run =? "failed").
        -- exists [reorder_post context; reorder_run context].
           cbn [snd record trace]. rewrite <- app_assoc.
           split; [reflexivity|]. split; [|reflexivity]. exists []. reflexivity.
        -- cbn [snd].
           match goal with
           | |- context [ReorderService._process_reorder_results client ?c ?l ?w0] =>
               destruct (process_silent client c l w0) as (dx & Tx & Fx)
           end.
           exists ([reorder_post context; reorder_run context] ++ dx)%list.
           rewrite Tx. cbn [record trace]. rewrite <- !app_assoc.
           split; [reflexivity|].
           rewrite filter_app, Fx. simpl. split; [|reflexivity].
           exists []. reflexivity.
Qed.

(** C3, as the claim has it, fails: in an environment whose agent never
    writes the completion marker (it never writes at all), a run that
    comes back failed ends the protocol with the run-failed result, not
    with the maximum-attempts result. *)
Lemma failed_run_is_not_exhaustion :
  (forall h r, on_last_message run_fails h r = inr None) /\
  fst (CSVComparisonAgentService._execute_agent_task run_fails "compare"
         (held, empty_world))
  = Return "Run failed: rate_limit_exceeded" /\
  fst (CSVComparisonAgentService._execute_agent_task run_fails "compare"
         (held, empty_world))
  <> Return (CSVComparisonAgentService.max_attempts_reached "gpt-4").
Proof.
  split; [reflexivity|]. split; [reflexivity|]. discriminate.
Qed.

(** C8. When the environment answers a run with status failed, the
    attempt returns the run-failed result at once: the run is the last
    request made, nothing is posted, no further attempt starts.  This
    holds at every attempt of the comparison protocol, hence for the
    comparison task when its first run fails, and for the reorder task. *)
Theorem failed_run_returns_at_once :
  forall (client : Env),
    (forall (context : CSVComparisonAgentService.AgentContext)
            (attempt : nat) (rest : list nat) (w : world) (run : ThreadRun),
        on_run client (trace w) (run_request context) = inr run ->
        status run = "failed" ->
        exists entry,
          CSVComparisonAgentService.attempts client context (attempt :: rest) w
          = (Return (CSVComparisonAgentService.run_failed run),
             {| trace := trace w ++ [run_request context];
                log := log w ++ [(ERROR, entry)] |})) /\
    (forall (task : string) (context : CSVComparisonAgentService.AgentContext)
            (w : world) (run : ThreadRun),
        let post := messages_create (BaseAgentService.thread_id context) task in
        on_effect client (trace w) post = None ->
        on_run client (trace w ++ [post]) (run_request context) = inr run ->
        status run = "failed" ->
        exists entry,
          CSVComparisonAgentService._execute_agent_task client task (context, w)
          = (Return (CSVComparisonAgentService.run_failed run),
             (context,
              {| trace := trace w ++ [post; run_request context];
                 log := log w ++ [(ERROR, entry)] |}))) /\
    (forall (legacy_path : string) (context : ReorderService.ReorderContext)
            (w : world) (run : ThreadRun),
        on_effect client (trace w) (reorder_post context) = None ->
        on_run client (trace w ++ [reorder_post context]) (reorder_run context)
        = inr run ->
        status run = "failed" ->
        exists entry,
          ReorderService._execute_reorder_task client legacy_path (context, w)
          = (Return (ReorderService.run_failed run),
             (context,
              {| trace := trace w ++ [reorder_post context; reorder_run context];
                 log := log w ++ [(ERROR, entry)] |}))).
Proof.
  intros client.
  assert (Hloop :
    forall (context : CSVComparisonAgentService.AgentContext)
           (attempt : nat) (rest : list nat) (w : world) (run : ThreadRun),
      on_run client (trace w) (run_request context) = inr run ->
      status run = "failed" ->
      exists entry,
        CSVComparisonAgentService.attempts client context (attempt :: rest) w
        = (Return (CSVComparisonAgentService.run_failed run),
           {| trace := trace w ++ [run_request context];
              log := log w ++ [(ERROR, entry)] |})).
  { intros context attempt rest w run Hrun Hfailed.
    cbn [CSVComparisonAgentService.attempts].
    unfold bind at 1, call_run at 1. fold (run_request context).
    rewrite Hrun. cbn [of_answer]. rewrite Hfailed. cbn [String.eqb Ascii.eqb Bool.eqb].
    eexists. reflexivity. }
  split; [exact Hloop|]. split.
  - intros task context w run post Hpost Hrun Hfailed.
    rewrite execute_agent_task_run. cbv zeta. fold post. rewrite Hpost.
    destruct (Hloop context 1 (seq 2 2) (record post w) run Hrun Hfailed)
      as (entry & Hattempts).
    exists entry.
    change (seq 1 CSVComparisonAgentService.MAX_ATTEMPTS) with (1 :: seq 2 2).
    rewrite Hattempts. cbn [fst snd record trace log].
    now rewrite <- app_assoc.
  - intros legacy_path context w run Hpost Hrun Hfailed.
    rewrite execute_reorder_task_run. cbv zeta. rewrite Hpost.
    cbn [record trace log]. rewrite Hrun, Hfailed.
    cbn [String.eqb Ascii.eqb Bool.eqb]. eexists.
    rewrite <- app_assoc. reflexivity.
Qed.

(** C8 at work: with every run failing, the first attempt of the
    comparison protocol ends it after a single run. *)
Lemma failed_run_returns_at_once_witness :
  on_run run_fails (trace empty_world) (run_request held)
  = inr {| status := "failed"; last_error := "rate_limit_exceeded" |} /\
  exists entry,
    CSVComparisonAgentService.attempts run_fails held [1; 2; 3] empty_world
    = (Return "Run failed: rate_limit_exceeded",
       {| trace := [run_request held]; log := [(ERROR, entry)] |}).
Proof.
  split; [reflexivity|].
  exact (proj1 (failed_run_returns_at_once run_fails) held 1 [2; 3] empty_world
           {| status := "failed"; last_error := "rate_limit_exceeded" |}
           eq_refl eq_refl).
Defined.

(** ** Dictionaries and the collection step *)

Lemma get_setitem_same {V} (d : dict V) k v : get (setitem d k v) k = Some v.
Proof.
  induction d as [|[k' v'] d IH]; simpl.
  - now rewrite String.eqb_refl.
  - destruct (String.eqb_spec k' k) as [->|Hne]; simpl.
    + now rewrite String.eqb_refl.
    + destruct (String.eqb_spec k' k); [contradiction | exact IH].
Qed.

Lemma get_setitem_other {V} (d : dict V) k k' v :
  k' <> k -> get (setitem d k v) k' = get d k'.
Proof.
  intros Hne. induction d as [|[k0 v0] d IH]; simpl.
  - destruct (String.eqb_spec k k'); [congruence | reflexivity].
  - destruct (String.eqb_spec k0 k) as [->|Hk]; simpl.
    + destruct (String.eqb_spec k k'); [congruence | reflexivity].
    + destruct (String.eqb_spec k0 k'); [reflexivity | exact IH].
Qed.

Lemma keys_setitem {V} (d : dict V) k v :
  keys (setitem d k v) = if mem d k then keys d else (keys d ++ [k])%list.
Proof.
  unfold mem. induction d as [|[k' v'] d IH]; simpl; [reflexivity|].
  destruct (String.eqb_spec k' k) as [->|Hne]; simpl; [reflexivity|].
  unfold keys in *. rewrite IH. now destruct (get d k).
Qed.

Lemma get_None_keys {V} (d : dict V) k : get d k = None -> ~ In k (keys d).
Proof.
  induction d as [|[k' v'] d IH]; simpl; [tauto|].
  destruct (String.eqb_spec k' k) as [->|Hne]; [discriminate|].
  intros H [Heq|Hin]; [congruence | now apply IH].
Qed.

Lemma setitem_keys_NoDup {V} (d : dict V) k v :
  NoDup (keys d) -> NoDup (keys (setitem d k v)).
Proof.
  intros Hd. rewrite keys_setitem. unfold mem.
  destruct (get d k) eqn:Hget; [exact Hd|].
  apply NoDup_app; [exact Hd | repeat constructor; simpl; tauto |].
  intros a Ha [<-|[]]. now apply (get_None_keys d k).
Qed.

Lemma values_setitem {V} (P : V -> Prop) (d : dict V) k v :
  Forall P (values d) -> P v -> Forall P (values (setitem d k v)).
Proof.
  intros Hd Hv. induction d as [|[k' v'] d IH]; simpl.
  - repeat constructor. exact Hv.
  - inversion Hd; subst. destruct (k' =? k); simpl; constructor; auto.
Qed.

Lemma kept_app pairs1 pairs2 : forall acc,
  kept (pairs1 ++ pairs2) acc = kept pairs2 (kept pairs1 acc).
Proof.
  induction pairs1 as [|[m [s|e]] pairs1 IH]; intros acc; simpl; auto.
  destruct (negb (startswith s "Error:")); auto.
Qed.

Lemma kept_failed pairs : forall acc,
  Forall (fun p => failed (snd p) = true) pairs -> kept pairs acc = acc.
Proof.
  induction pairs as [|[m [s|e]] pairs IH]; intros acc H; simpl; auto;
    inversion H as [|? ? Hp Hrest]; subst; simpl in Hp.
  - rewrite Hp. simpl. now apply IH.
  - now apply IH.
Qed.

Lemma kept_untouched pairs m : forall acc,
  ~ In m (map fst pairs) -> get (kept pairs acc) m = get acc m.
Proof.
  induction pairs as [|[m' [s|e]] pairs IH]; intros acc Hm; simpl in *; auto.
  destruct (negb (startswith s "Error:")).
  - rewrite IH by tauto. apply get_setitem_other. intros ->. tauto.
  - apply IH. tauto.
Qed.

Lemma kept_keeps pairs m : forall acc,
  mem acc m = true -> mem (kept pairs acc) m = true.
Proof.
  unfold mem.
  induction pairs as [|[m' [s|e]] pairs IH]; intros acc Hm; simpl; auto.
  destruct (negb (startswith s "Error:")); [|now apply IH].
  apply IH. destruct (String.eqb_spec m m') as [->|Hne].
  - now rewrite get_setitem_same.
  - now rewrite get_setitem_other.
Qed.

Lemma kept_member pairs m s : forall acc,
  In (m, Return s) pairs -> startswith s "Error:" = false ->
  mem (kept pairs acc) m = true.
Proof.
  intros acc Hin Hs. apply in_split in Hin as (pre & post & ->).
  rewrite kept_app. simpl. rewrite Hs. simpl.
  apply kept_keeps. unfold mem. now rewrite get_setitem_same.
Qed.

Lemma kept_values pairs : forall acc,
  Forall (fun v => startswith v "Error:" = false) (values acc) ->
  Forall (fun v => startswith v "Error:" = false) (values (kept pairs acc)).
Proof.
  induction pairs as [|[m [s|e]] pairs IH]; intros acc Hacc; simpl; auto.
  destruct (startswith s "Error:") eqn:Hs; simpl; auto.
  apply IH. now apply values_setitem.
Qed.

Lemma kept_keys_NoDup pairs : forall acc,
  NoDup (keys acc) -> NoDup (keys (kept pairs acc)).
Proof.
  induction pairs as [|[m [s|e]] pairs IH]; intros acc Hacc; simpl; auto.
  destruct (negb (startswith s "Error:")); auto.
  apply IH. now apply setitem_keys_NoDup.
Qed.

Lemma zip_names_NoDup {B} (names : list string) (results : list B) :
  NoDup names -> NoDup (map fst (zip names results)).
Proof.
  unfold zip. revert results.
  induction names as [|n names IH]; intros results Hn; simpl; [constructor|].
  destruct results as [|r results]; simpl; [constructor|].
  inversion Hn as [|? ? Hnotin Hrest]; subst. constructor; [|now apply IH].
  intros Hin. apply Hnotin. apply in_map_iff in Hin as ((n', r') & <- & Hin).
  now apply in_combine_l in Hin.
Qed.

(** The collection loop of either service returns the kept mapping,
    makes no request, and never raises. *)
Lemma collect_fold (msg : string -> exn -> string) pairs : forall acc w,
  exists w',
    for_fold pairs acc
      (fun model_outputs '(model, result) =>
         match result with
         | Raise e => logger ERROR (msg model e) ;; ret model_outputs
         | Return s =>
             if negb (startswith s "Error:")
             then ret (setitem model_outputs model s)
             else ret model_outputs
         end) w
    = (Return (kept pairs acc), w') /\ trace w' = trace w.
Proof.
  induction pairs as [|[m [s|e]] pairs IH]; intros acc w; simpl.
  - exists w. split; reflexivity.
  - unfold bind at 1.
    destruct (negb (startswith s "Error:")); unfold ret at 1; apply IH.
  - unfold bind at 1. unfold bind at 1. unfold logger at 1, ret at 1.
    match goal with
    | |- context [for_fold pairs acc _ ?w0] =>
        destruct (IH acc w0) as (w' & Hrun & Htrace)
    end.
    exists w'. split; [exact Hrun | exact Htrace].
Qed.

Lemma comparison_collect_run (self : CSVComparisonAgentService.service)
    results w :
  exists w',
    CSVComparisonAgentService._collect_successful_outputs self results w
    = (Return (kept (zip (CSVComparisonAgentService.model_deployments self)
                      results) []), w')
    /\ trace w' = trace w.
Proof.
  unfold CSVComparisonAgentService._collect_successful_outputs.
  apply (collect_fold (fun model e => "Model " ++ model ++ " failed: " ++ str_exn e)).
Qed.

Lemma reorder_collect_run (self : ReorderService.service) results w :
  exists w',
    ReorderService.collect self results w
    = (Return (kept (zip (ReorderService.model_deployments self) results) []), w')
    /\ trace w' = trace w.
Proof.
  unfold ReorderService.collect.
  apply (collect_fold (fun model e =>
           "Model " ++ model ++ " failed during reordering: " ++ str_exn e)).
Qed.

(** ** Result extraction *)

Section Extraction.
Import CSVComparisonAgentService.
Variable client : Env.

Lemma download_run fid model w :
  let file_name := fid ++ "_csv_" ++ replace model "." "_" in
  let save := files_save fid file_name None in
  let entry e := (ERROR, "Error reading CSV file " ++ fid ++ ": " ++ str_exn e) in
  _download_and_read_csv client fid model w
  = match on_effect client (trace w) save with
    | Some e =>
        (Return None,
         {| trace := trace w ++ [save]; log := log w ++ [entry e] |})
    | None =>
        match on_text client (trace w ++ [save]) (open_read file_name) with
        | inl e =>
            (Return None,
             {| trace := trace w ++ [save; open_read file_name];
                log := log w ++ [entry e] |})
        | inr content =>
            match on_effect client (trace w ++ [save; open_read file_name])
                    (os_remove file_name) with
            | Some e =>
                (Return None,
                 {| trace := trace w ++ [save; open_read file_name;
                                         os_remove file_name];
                    log := log w ++ [entry e] |})
            | None =>
                (Return (Some content),
                 {| trace := trace w ++ [save; open_read file_name;
                                         os_remove file_name];
                    log := log w |})
            end
        end
    end.
Proof.
  cbv zeta. unfold _download_and_read_csv, try_except, bind, call_effect,
    call_text, logger, ret, record. cbn [trace log].
  destruct (on_effect client (trace w) _); [reflexivity|].
  rewrite <- !app_assoc. cbn [app].
  destruct (on_text client _ _); cbn [of_answer]; [reflexivity|].
  destruct (on_effect client _ _); reflexivity.
Qed.

End Extraction.

(** ** The comparison selector *)

Section Selector.
Import OpenAIService.
Variable client : Env.
Variable config : LegacyEtlMcpConfig.
Variable strip : string -> string.
Variable int : string -> option Z.
Variable template : string -> nat -> string.

Lemma numbered_get_enumerate (d : dict string) (n : Z) : forall k,
  numbered_get (map (fun '(i, item) => (i + 1, item)) (enumerate d k)) n
  = if ((Z.of_nat k + 1 <=? n) && (n <=? Z.of_nat k + Z.of_nat (length d)))%Z
    then nth_error d (Z.to_nat (n - (Z.of_nat k + 1)))
    else None.
Proof.
  induction d as [|item d IH]; intros k; cbn [enumerate map numbered_get length].
  - destruct ((Z.of_nat k + 1 <=? n) && (n <=? Z.of_nat k + Z.of_nat 0))%Z eqn:H;
      [|reflexivity].
    apply andb_prop in H as [H1 H2]. lia.
  - destruct (Z.eqb_spec (Z.of_nat (k + 1)) n) as [<-|Hne].
    + replace ((Z.of_nat k + 1 <=? Z.of_nat (k + 1))
               && (Z.of_nat (k + 1) <=? Z.of_nat k + Z.of_nat (S (length d))))%Z
        with true by (symmetry; apply andb_true_intro; split; lia).
      replace (Z.to_nat (Z.of_nat (k + 1) - (Z.of_nat k + 1))) with 0 by lia.
      reflexivity.
    + rewrite IH.
      destruct ((Z.of_nat (S k) + 1 <=? n)
                && (n <=? Z.of_nat (S k) + Z.of_nat (length d)))%Z eqn:H1;
        destruct ((Z.of_nat k + 1 <=? n)
                  && (n <=? Z.of_nat k + Z.of_nat (S (length d))))%Z eqn:H2;
        try reflexivity.
      * apply andb_prop in H1 as [H1a H1b].
        replace (Z.to_nat (n - (Z.of_nat k + 1)))
          with (S (Z.to_nat (n - (Z.of_nat (S k) + 1)))) by lia.
        reflexivity.
      * apply andb_prop in H1 as [H1a H1b].
        apply andb_false_iff in H2 as [H2|H2]; lia.
      * apply andb_prop in H2 as [H2a H2b].
        apply andb_false_iff in H1 as [H1|H1]; lia.
Qed.

Lemma numbered_get_ordinal (d : dict string) (n : Z) :
  numbered_get (_prepare_numbered_outputs d) n
  = if ((1 <=? n) && (n <=? Z.of_nat (len d)))%Z
    then nth_error d (Z.to_nat (n - 1))
    else None.
Proof.
  unfold _prepare_numbered_outputs. rewrite numbered_get_enumerate. reflexivity.
Qed.

Lemma first_run {A} (xs : list A) (x : A) (w : world) :
  hd_error xs = Some x -> first xs w = (Return x, w).
Proof. destruct xs; simpl; [discriminate|]. now intros [= ->]. Qed.

(** The selector on two or more outputs: it asks the arbiter once and
    returns an output, never an exception. *)
Lemma select_run (d : dict string) (w : world) :
  2 <= len d ->
  exists v w',
    select_best_csv_output client config strip int template d w = (Return v, w')
    /\ trace w' = (trace w ++ [judge_request config template d])%list
    /\ match arbiter_choice client strip int (trace w)
               (judge_request config template d) with
       | Some n =>
           if ((1 <=? n) && (n <=? Z.of_nat (len d)))%Z
           then nth_error (values d) (Z.to_nat (n - 1)) = Some v
           else hd_error (values d) = Some v
       | None => hd_error (values d) = Some v
       end.
Proof.
  intros Hlen.
  destruct d as [|[m0 v0] d]; [simpl in Hlen; lia|].
  unfold select_best_csv_output.
  replace (Nat.eqb (len ((m0, v0) :: d)) 1) with false
    by (symmetry; apply Nat.eqb_neq; simpl in *; lia).
  unfold try_except, bind at 1, _get_selection_number, bind at 1,
    _make_api_call, try_except, call_completion at 1.
  fold (judge_request config template ((m0, v0) :: d)).
  unfold arbiter_choice, first_content.
  set (req := judge_request config template ((m0, v0) :: d)).
  set (d' := (m0, v0) :: d) in *.
  assert (Hhd : hd_error (values d') = Some v0) by reflexivity.
  assert (Hfirst : forall w0 : world, first (values d') w0 = (Return v0, w0))
    by reflexivity.
  destruct (on_completion client (trace w) req) as [e|[[|[content|] others]]];
    cbn [of_answer choices].
  - unfold bind at 1.
    destruct (exn_class e =? "OpenAIError"); unfold bind, logger, raise;
      rewrite Hfirst;
      do 2 eexists; (split; [reflexivity|]); (split; [reflexivity | exact Hhd]).
  - unfold bind at 1, _extract_response_content, bind at 1. cbn [choices].
    change (@first world (option string) []) with (@raise world (option string) IndexError).
    unfold raise, bind, logger. rewrite Hfirst.
    do 2 eexists. split; [reflexivity|]. split; [reflexivity | exact Hhd].
  - unfold bind at 1, _extract_response_content, bind at 1. cbn [choices].
    change (@first world (option string) (Some content :: others))
      with (@ret world (option string) (Some content)).
    unfold ret at 1, ret at 1.
    destruct (int (strip content)) as [n|].
    + unfold ret at 1, _get_selected_output. rewrite numbered_get_ordinal.
      destruct ((1 <=? n) && (n <=? Z.of_nat (len d')))%Z eqn:Hn.
      * destruct (nth_error d' (Z.to_nat (n - 1))) as [[m v]|] eqn:Hnth.
        -- do 2 eexists. split; [reflexivity|]. split; [reflexivity|].
           unfold values. now rewrite nth_error_map, Hnth.
        -- exfalso. apply nth_error_None in Hnth. unfold len in Hn. lia.
      * unfold bind, logger. rewrite Hfirst.
        do 2 eexists. split; [reflexivity|]. split; [reflexivity | exact Hhd].
    + unfold raise, bind, logger. rewrite Hfirst.
      do 2 eexists. split; [reflexivity|]. split; [reflexivity | exact Hhd].
  - unfold bind at 1, _extract_response_content, bind at 1. cbn [choices].
    change (@first world (option string) (None :: others))
      with (@ret world (option string) None).
    unfold ret at 1, raise, bind, logger. rewrite Hfirst.
    do 2 eexists. split; [reflexivity|]. split; [reflexivity | exact Hhd].
Qed.

Lemma select_single (m v : string) (w : world) :
  select_best_csv_output client config strip int template [(m, v)] w
  = (Return v, w).
Proof. reflexivity. Qed.

Lemma select_in_values (d : dict string) (w : world) :
  2 <= len d ->
  exists v w',
    select_best_csv_output client config strip int template d w = (Return v, w')
    /\ In v (values d).
Proof.
  intros Hlen. destruct (select_run d w Hlen) as (v & w' & Hrun & _ & Hv).
  exists v, w'. split; [exact Hrun|].
  destruct (arbiter_choice client strip int (trace w) _) as [n|].
  - destruct ((1 <=? n) && (n <=? Z.of_nat (len d)))%Z.
    + eapply nth_error_In; eassumption.
    + destruct (values d); [discriminate|]. injection Hv as ->. now left.
  - destruct (values d); [discriminate|]. injection Hv as ->. now left.
Qed.

End Selector.

(** ** The reorder selector *)

Lemma try_except_total {S A} (c : M S A) (h : exn -> M S A) :
  (forall e s, exists a s', h e s = (Return a, s')) ->
  forall s, exists a s', try_except c h s = (Return a, s').
Proof.
  intros Hh s. unfold try_except.
  destruct (c s) as [[a|e] s1]; [eauto | apply Hh].
Qed.

Lemma for_fold_total {S A B} (xs : list A) (body : B -> A -> M S B) :
  (forall acc x s, exists acc' s', body acc x s = (Return acc', s')) ->
  forall acc s, exists acc' s', for_fold xs acc body s = (Return acc', s').
Proof.
  intros Hbody. induction xs as [|x xs IH]; intros acc s; cbn [for_fold].
  - unfold ret. eauto.
  - unfold bind. destruct (Hbody acc x s) as (acc1 & s1 & ->). apply IH.
Qed.

Section Reorder_selector.
Import ReorderService.
Variable self : service.

Lemma read_csv_head_total file_path num_lines w :
  exists s w', _read_csv_head self file_path num_lines w = (Return s, w').
Proof.
  unfold _read_csv_head. apply try_except_total.
  intros e s. unfold bind, logger, ret. eauto.
Qed.

Lemma build_comparison_data_total source_path source_head d w :
  exists s w',
    _build_comparison_data self source_path source_head d w = (Return s, w').
Proof.
  unfold _build_comparison_data. unfold bind at 1.
  match goal with
  | |- context [for_fold ?xs ?acc0 ?body w] =>
      assert (Hfold : exists parts w1, for_fold xs acc0 body w = (Return parts, w1))
  end.
  { apply for_fold_total.
    intros acc [i [model v]] s. cbv zeta. apply try_except_total.
    intros e s0. unfold bind, logger, ret. eauto. }
  destruct Hfold as (parts & w1 & ->). unfold ret. eauto.
Qed.

(** The reorder selector on a non-empty mapping: it returns a model
    name of the mapping, never an exception; the name is the first key
    unless the arbiter's stripped answer is itself a key. *)
Lemma select_reordering_run source_file_path (d : dict string) (w : world) :
  1 <= len d ->
  let setup := reorder_judge_setup self source_file_path d w in
  exists m w',
    _select_best_reordering self source_file_path d w = (Return m, w') /\
    mem d m = true /\
    match first_content
            (on_completion (environment self) (trace (snd setup))
               (reorder_judge_request self (fst setup))) with
    | Some content =>
        if mem d (strip self content)
        then m = strip self content \/ hd_error (keys d) = Some m
        else hd_error (keys d) = Some m
    | None => hd_error (keys d) = Some m
    end.
Proof.
  intros Hlen setup.
  destruct d as [|[m0 v0] d]; [simpl in Hlen; lia|].
  assert (Hfirst : forall w0 : world,
             first (keys ((m0, v0) :: d)) w0 = (Return m0, w0))
    by (intros; reflexivity).
  assert (Hm0 : mem ((m0, v0) :: d) m0 = true).
  { unfold mem. simpl. now rewrite String.eqb_refl. }
  subst setup. unfold reorder_judge_setup, _select_best_reordering.
  unfold bind at 1.
  destruct (read_csv_head_total source_file_path CSV_HEAD_LINES w)
    as (head & w1 & ->).
  cbn [fst snd returned]. unfold bind at 1.
  destruct (build_comparison_data_total source_file_path head ((m0, v0) :: d) w1)
    as (data & w2 & ->).
  cbn [fst snd returned].
  unfold try_except, bind at 1, _get_model_selection, bind at 1,
    call_completion at 1.
  fold (reorder_judge_request self
          (prompts.REORDER_SELECTION_PROMPT_TEMPLATE data
             (join ", " (map (fun model => "'" ++ model ++ "'")
                           (model_deployments self))))).
  unfold first_content.
  destruct (on_completion (environment self) (trace w2) _)
    as [e|[[|[content|] others]]]; cbn [of_answer choices].
  - unfold bind, logger. rewrite Hfirst. eauto.
  - unfold bind at 1, first, raise, bind, logger. cbn [choices].
    rewrite Hfirst. eauto.
  - unfold bind at 1, first. cbn [choices]. unfold ret at 1, ret at 1.
    destruct (mem ((m0, v0) :: d) (strip self content)) eqn:Hmem.
    + unfold bind at 1.
      destruct (_cleanup_non_winning_files self source_file_path
                  (strip self content) _) as [[[]|e] w3].
      * unfold ret. do 2 eexists. split; [reflexivity|]. split; [exact Hmem|].
        now left.
      * unfold bind, logger. rewrite Hfirst.
        do 2 eexists. split; [reflexivity|]. split; [exact Hm0|]. now right.
    + unfold bind at 1. rewrite Hfirst. unfold bind, logger, ret.
      do 2 eexists. split; [reflexivity|]. split; [exact Hm0|]. reflexivity.
  - unfold bind at 1, first. cbn [choices]. unfold ret at 1.
    unfold raise, bind, logger. rewrite Hfirst. eauto.
Qed.

End Reorder_selector.

(** C4. On two or more outputs the comparison selector never raises.
    It returns the output whose ordinal the arbiter's answer parses to
    when that ordinal lies between 1 and the number of outputs; when
    the call raises, the answer has no content, does not parse, or is
    out of range, it returns the first output.  The reorder selector
    never raises either, and returns the first model name unless the
    arbiter's stripped answer is a model name of the mapping. *)
Theorem arbiter_fallback :
  (forall (client : Env) (config : OpenAIService.LegacyEtlMcpConfig)
          (strip : string -> string) (int : string -> option Z)
          (template : string -> nat -> string)
          (model_outputs : dict string) (w : world),
      2 <= len model_outputs ->
      exists v w',
        OpenAIService.select_best_csv_output client config strip int template
          model_outputs w = (Return v, w') /\
        match arbiter_choice client strip int (trace w)
                (judge_request config template model_outputs) with
        | Some n =>
            if ((1 <=? n) && (n <=? Z.of_nat (len model_outputs)))%Z
            then nth_error (values model_outputs) (Z.to_nat (n - 1)) = Some v
            else hd_error (values model_outputs) = Some v
        | None => hd_error (values model_outputs) = Some v
        end) /\
  (forall (self : ReorderService.service) (source_file_path : string)
          (model_outputs : dict string) (w : world),
      2 <= len model_outputs ->
      let setup := reorder_judge_setup self source_file_path model_outputs w in
      exists m w',
        ReorderService._select_best_reordering self source_file_path
          model_outputs w = (Return m, w') /\
        mem model_outputs m = true /\
        match first_content
                (on_completion (ReorderService.environment self)
                   (trace (snd setup))
                   (reorder_judge_request self (fst setup))) with
        | Some content =>
            if mem model_outputs (ReorderService.strip self content)
            then m = ReorderService.strip self content
                 \/ hd_error (keys model_outputs) = Some m
            else hd_error (keys model_outputs) = Some m
        | None => hd_error (keys model_outputs) = Some m
        end).
Proof.
  split.
  - intros client config strip int template d w Hlen.
    destruct (select_run client config strip int template d w Hlen)
      as (v & w' & Hrun & _ & Hv).
    exists v, w'. split; assumption.
  - intros self source_file_path d w Hlen.
    apply select_reordering_run. lia.
Qed.

(** C4 at work: two outputs, and an arbiter that answers 7. *)
Lemma arbiter_fallback_witness :
  2 <= len two_outputs /\
  exists w',
    OpenAIService.select_best_csv_output answers_seven two_deployments unpadded
      digits plain_template two_outputs empty_world
    = (Return ("# Row Location" ++ nl ++ "332" ++ nl ++ nl), w').
Proof.
  split; [simpl; lia|].
  destruct (proj1 arbiter_fallback answers_seven two_deployments unpadded digits
              plain_template two_outputs empty_world (le_n 2))
    as (v & w' & Hrun & Hv).
  vm_compute in Hv. injection Hv as <-. exists w'. exact Hrun.
Defined.

(** ** The fan-out *)

Lemma kept_nil pairs : forall acc,
  kept pairs acc = [] -> Forall (fun p => failed (snd p) = true) pairs.
Proof.
  induction pairs as [|[m [s|e]] pairs IH]; intros acc H; simpl in *.
  - constructor.
  - destruct (startswith s "Error:") eqn:Hs; simpl in H.
    + constructor; [exact Hs | eapply IH; eassumption].
    + exfalso.
      assert (Hm : mem (kept pairs (setitem acc m s)) m = true).
      { apply kept_keeps. unfold mem. now rewrite get_setitem_same. }
      rewrite H in Hm. discriminate.
  - constructor; [reflexivity | eapply IH; eassumption].
Qed.

Lemma kept_single pre m s post :
  Forall (fun p => failed (snd p) = true) pre ->
  Forall (fun p => failed (snd p) = true) post ->
  failed (Return s) = false ->
  kept (pre ++ (m, Return s) :: post) [] = [(m, s)].
Proof.
  intros Hpre Hpost Hs. simpl in Hs.
  rewrite kept_app, (@kept_failed pre [] Hpre). simpl. rewrite Hs. simpl.
  now apply kept_failed.
Qed.

Lemma comparison_fan_out_run (self : CSVComparisonAgentService.service)
    python_output_path legacy_output_path task w :
  let d := kept (zip (CSVComparisonAgentService.model_deployments self)
                   (CSVComparisonAgentService.gather self python_output_path
                      legacy_output_path task)) [] in
  exists w1,
    trace w1 = trace w /\
    CSVComparisonAgentService._run_parallel_comparisons self python_output_path
      legacy_output_path task w
    = if Nat.eqb (len d) 0
      then (Return CSVComparisonAgentService.all_models_failed, w1)
      else if Nat.eqb (len d) 1 then first (values d) w1
      else OpenAIService.select_best_csv_output
             (CSVComparisonAgentService.environment self)
             (CSVComparisonAgentService.config self)
             (CSVComparisonAgentService.strip self)
             (CSVComparisonAgentService.int self)
             (CSVComparisonAgentService.CSV_OUTPUT_SELECTION_USER_PROMPT_TEMPLATE self)
             d w1.
Proof.
  intros d. unfold CSVComparisonAgentService._run_parallel_comparisons.
  cbv zeta. unfold bind at 1.
  destruct (comparison_collect_run self
              (CSVComparisonAgentService.gather self python_output_path
                 legacy_output_path task) w) as (w1 & -> & Htrace).
  exists w1. split; [exact Htrace|]. fold d.
  destruct (Nat.eqb (len d) 0); [reflexivity|].
  destruct (Nat.eqb (len d) 1); reflexivity.
Qed.

Lemma reorder_fan_out_run (self : ReorderService.service)
    source_file_path legacy_output_path w :
  let d := kept (zip (ReorderService.model_deployments self)
                   (ReorderService.gather self source_file_path
                      legacy_output_path)) [] in
  exists w1,
    trace w1 = trace w /\
    ReorderService.reorder_csv_files self source_file_path legacy_output_path w
    = if Nat.eqb (len d) 0
      then (Raise ReorderService.all_models_failed, w1)
      else if Nat.eqb (len d) 1
      then (model_name <- first (keys d) ;;
            content <- getitem d model_name ;;
            ret (content, model_name)) w1
      else (best_model <- ReorderService._select_best_reordering self
                            source_file_path d ;;
            content <- getitem d best_model ;;
            ret (content, best_model)) w1.
Proof.
  intros d. unfold ReorderService.reorder_csv_files,
    ReorderService._run_parallel_reordering. unfold bind at 1.
  destruct (reorder_collect_run self
              (ReorderService.gather self source_file_path legacy_output_path) w)
    as (w1 & -> & Htrace).
  exists w1. split; [exact Htrace|]. fold d.
  destruct (Nat.eqb (len d) 0); [reflexivity|].
  destruct (Nat.eqb (len d) 1); reflexivity.
Qed.

(** When exactly one gathered result passes the test of the collection
    step (it is a string that does not start with [Error:]), the
    success mapping has exactly one entry: the comparison fan-out
    returns that result unchanged and the reorder fan-out returns it
    with its model name; neither makes a request, so the arbiter is not
    called.  The selector itself returns the only entry of a
    one-entry mapping without a request. *)
Lemma lone_kept_result_is_returned :
  (forall (self : CSVComparisonAgentService.service)
          (python_output_path legacy_output_path task : string) (w : world)
          (pre post : list (string * outcome string)) (m s : string),
      zip (CSVComparisonAgentService.model_deployments self)
          (CSVComparisonAgentService.gather self python_output_path
             legacy_output_path task)
      = (pre ++ (m, Return s) :: post)%list ->
      Forall (fun p => failed (snd p) = true) pre ->
      Forall (fun p => failed (snd p) = true) post ->
      failed (Return s) = false ->
      exists w',
        CSVComparisonAgentService._run_parallel_comparisons self
          python_output_path legacy_output_path task w = (Return s, w') /\
        trace w' = trace w) /\
  (forall (client : Env) (config : OpenAIService.LegacyEtlMcpConfig)
          (strip : string -> string) (int : string -> option Z)
          (template : string -> nat -> string) (m s : string) (w : world),
      OpenAIService.select_best_csv_output client config strip int template
        [(m, s)] w = (Return s, w)) /\
  (forall (self : ReorderService.service)
          (source_file_path legacy_output_path : string) (w : world)
          (pre post : list (string * outcome string)) (m s : string),
      zip (ReorderService.model_deployments self)
          (ReorderService.gather self source_file_path legacy_output_path)
      = (pre ++ (m, Return s) :: post)%list ->
      Forall (fun p => failed (snd p) = true) pre ->
      Forall (fun p => failed (snd p) = true) post ->
      failed (Return s) = false ->
      exists w',
        ReorderService.reorder_csv_files self source_file_path
          legacy_output_path w = (Return (s, m), w') /\
        trace w' = trace w).
Proof.
  split; [|split].
  - intros self p l t w pre post m s Hzip Hpre Hpost Hs.
    destruct (comparison_fan_out_run self p l t w) as (w1 & Htrace & ->).
    rewrite Hzip, (@kept_single pre m s post Hpre Hpost Hs). simpl.
    exists w1. split; [reflexivity | exact Htrace].
  - reflexivity.
  - intros self src l w pre post m s Hzip Hpre Hpost Hs.
    destruct (reorder_fan_out_run self src l w) as (w1 & Htrace & ->).
    rewrite Hzip, (@kept_single pre m s post Hpre Hpost Hs). simpl.
    unfold bind, getitem. simpl. rewrite String.eqb_refl.
    exists w1. split; [reflexivity | exact Htrace].
Qed.

(** Of two tasks the first succeeds and the second cannot be handed to
    the pool. *)
Lemma lone_kept_result_is_returned_at_work :
  exists w',
    CSVComparisonAgentService._run_parallel_comparisons one_succeeds
      "/data/out_PY.csv" "/data/out.csv" "compare" empty_world
    = (Return ("# Row Location" ++ nl ++ "332" ++ nl ++ nl), w') /\
    trace w' = [].
Proof.
  refine (proj1 lone_kept_result_is_returned one_succeeds
            "/data/out_PY.csv" "/data/out.csv" "compare" empty_world
            [] [("gpt-4o", Raise pool_is_shut_down)] "gpt-4" _
            eq_refl _ _ eq_refl).
  - constructor.
  - repeat constructor.
Defined.

Lemma enumerate_length {A} (xs : list A) : forall k,
  length (enumerate xs k) = length xs.
Proof. induction xs as [|x xs IH]; intros k; simpl; auto. Qed.

Lemma Forall_zip_snd {A B} (P : B -> Prop) (xs : list A) : forall ys : list B,
  length xs = length ys ->
  (Forall (fun p => P (snd p)) (zip xs ys) <-> Forall P ys).
Proof.
  unfold zip. induction xs as [|x xs IH]; intros [|y ys] Hlen;
    simpl in *; try discriminate.
  - split; constructor.
  - injection Hlen as Hlen. specialize (IH ys Hlen).
    split; intros H; inversion H; subst; constructor; simpl in *;
      try assumption; now apply IH.
Qed.

Lemma comparison_gather_length (self : CSVComparisonAgentService.service) p l t :
  length (CSVComparisonAgentService.model_deployments self)
  = length (CSVComparisonAgentService.gather self p l t).
Proof.
  unfold CSVComparisonAgentService.gather.
  now rewrite length_map, enumerate_length.
Qed.

Lemma reorder_gather_length (self : ReorderService.service) p l :
  length (ReorderService.model_deployments self)
  = length (ReorderService.gather self p l).
Proof.
  unfold ReorderService.gather. now rewrite length_map, enumerate_length.
Qed.

Lemma kept_not_prefixed pairs v :
  In v (values (kept pairs [])) -> startswith v "Error:" = false.
Proof.
  intros Hin.
  assert (H : Forall (fun v => startswith v "Error:" = false)
                (values (kept pairs []))) by (apply kept_values; constructor).
  rewrite Forall_forall in H. now apply H.
Qed.

(** When every gathered result fails the test of the collection step
    (it is an exception or a string that starts with [Error:]) the
    comparison fan-out returns its all-models-failed value and the
    reorder fan-out raises [ReorderServiceError], without a request.
    The comparison fan-out returns that value only then (in particular
    it differs from the empty result of a success), and the reorder
    fan-out raises only then, and only that error. *)
Lemma empty_mapping_is_signalled :
  (forall (self : CSVComparisonAgentService.service)
          (python_output_path legacy_output_path task : string) (w : world),
      Forall (fun r => failed r = true)
        (CSVComparisonAgentService.gather self python_output_path
           legacy_output_path task) ->
      exists w',
        CSVComparisonAgentService._run_parallel_comparisons self
          python_output_path legacy_output_path task w
        = (Return CSVComparisonAgentService.all_models_failed, w') /\
        trace w' = trace w) /\
  (forall (self : ReorderService.service)
          (source_file_path legacy_output_path : string) (w : world),
      Forall (fun r => failed r = true)
        (ReorderService.gather self source_file_path legacy_output_path) ->
      exists w',
        ReorderService.reorder_csv_files self source_file_path
          legacy_output_path w
        = (Raise ReorderService.all_models_failed, w') /\
        trace w' = trace w) /\
  CSVComparisonAgentService.all_models_failed <> "" /\
  (forall (self : CSVComparisonAgentService.service)
          (python_output_path legacy_output_path task : string) (w : world),
      fst (CSVComparisonAgentService._run_parallel_comparisons self
             python_output_path legacy_output_path task w)
      = Return CSVComparisonAgentService.all_models_failed ->
      Forall (fun r => failed r = true)
        (CSVComparisonAgentService.gather self python_output_path
           legacy_output_path task)) /\
  (forall (self : ReorderService.service)
          (source_file_path legacy_output_path : string) (w : world) (e : exn),
      fst (ReorderService.reorder_csv_files self source_file_path
             legacy_output_path w) = Raise e ->
      e = ReorderService.all_models_failed /\
      Forall (fun r => failed r = true)
        (ReorderService.gather self source_file_path legacy_output_path)).
Proof.
  split; [|split; [|split; [|split]]].
  - intros self p l t w Hall.
    apply (proj2 (@Forall_zip_snd _ _ (fun r => failed r = true) _ _
                    (comparison_gather_length self p l t))) in Hall.
    destruct (comparison_fan_out_run self p l t w) as (w1 & Htrace & ->).
    rewrite (@kept_failed _ [] Hall). simpl. eauto.
  - intros self src l w Hall.
    apply (proj2 (@Forall_zip_snd _ _ (fun r => failed r = true) _ _
                    (reorder_gather_length self src l))) in Hall.
    destruct (reorder_fan_out_run self src l w) as (w1 & Htrace & ->).
    rewrite (@kept_failed _ [] Hall). simpl. eauto.
  - discriminate.
  - intros self p l t w Hres.
    apply (proj1 (@Forall_zip_snd _ _ (fun r => failed r = true) _ _
                    (comparison_gather_length self p l t))).
    destruct (comparison_fan_out_run self p l t w) as (w1 & Htrace & Hrun).
    rewrite Hrun in Hres. clear Hrun.
    set (pairs := zip _ _) in *.
    destruct (kept pairs []) as [|[m0 v0] d] eqn:Hkept.
    + eapply kept_nil; eassumption.
    + exfalso.
      assert (Hv : forall v, In v (values ((m0, v0) :: d)) ->
                             v <> CSVComparisonAgentService.all_models_failed).
      { intros v Hin ->. rewrite <- Hkept in Hin.
        apply kept_not_prefixed in Hin. discriminate. }
      destruct d as [|[m1 v1] d].
      * simpl in Hres. injection Hres as Hres. apply (Hv v0); [now left | exact Hres].
      * destruct (@select_in_values
                    (CSVComparisonAgentService.environment self)
                    (CSVComparisonAgentService.config self)
                    (CSVComparisonAgentService.strip self)
                    (CSVComparisonAgentService.int self)
                    (CSVComparisonAgentService.CSV_OUTPUT_SELECTION_USER_PROMPT_TEMPLATE self)
                    ((m0, v0) :: (m1, v1) :: d) w1) as (v & w' & Hsel & Hin).
        { simpl. lia. }
        change (Nat.eqb (len ((m0, v0) :: (m1, v1) :: d)) 0) with false in Hres.
        change (Nat.eqb (len ((m0, v0) :: (m1, v1) :: d)) 1) with false in Hres.
        cbv iota in Hres. rewrite Hsel in Hres. simpl in Hres.
        injection Hres as Hres. apply (Hv v Hin Hres).
  - intros self src l w e Hres.
    destruct (reorder_fan_out_run self src l w) as (w1 & Htrace & Hrun).
    rewrite Hrun in Hres. clear Hrun.
    set (pairs := zip _ _) in *.
    destruct (kept pairs []) as [|[m0 v0] d] eqn:Hkept.
    + simpl in Hres. injection Hres as <-. split; [reflexivity|].
      apply (proj1 (@Forall_zip_snd _ _ (fun r => failed r = true) _ _
                      (reorder_gather_length self src l))).
      eapply kept_nil; eassumption.
    + exfalso. destruct d as [|[m1 v1] d].
      * simpl in Hres. unfold bind, getitem in Hres. simpl in Hres.
        rewrite String.eqb_refl in Hres. discriminate.
      * change (Nat.eqb (len ((m0, v0) :: (m1, v1) :: d)) 0) with false in Hres.
        change (Nat.eqb (len ((m0, v0) :: (m1, v1) :: d)) 1) with false in Hres.
        cbv iota in Hres. unfold bind at 1 in Hres.
        destruct (@select_reordering_run self src ((m0, v0) :: (m1, v1) :: d) w1)
          as (m & w' & Hsel & Hmem & _); [simpl; lia|].
        rewrite Hsel in Hres. unfold bind, getitem in Hres.
        unfold mem in Hmem.
        destruct (get ((m0, v0) :: (m1, v1) :: d) m); discriminate.
Qed.

(** No task can be handed to the pool. *)
Lemma empty_mapping_is_signalled_at_work :
  exists w',
    CSVComparisonAgentService._run_parallel_comparisons none_succeeds
      "/data/out_PY.csv" "/data/out.csv" "compare" empty_world
    = (Return "Error: All models failed to process the files", w') /\
    trace w' = [].
Proof.
  refine (proj1 empty_mapping_is_signalled none_succeeds
            "/data/out_PY.csv" "/data/out.csv" "compare" empty_world _).
  repeat constructor.
Defined.

(** ** Failure results of the comparison task *)

(** C1 fails on the comparison service.  Three tasks end in an upload
    failure, a failed run and exhausted attempts; each returns a string
    that does not start with [Error:], so the collection step keeps all
    three, and the fan-out hands them to the arbiter and returns one of
    them as the best comparison. *)
Theorem comparison_failures_reach_the_mapping :
  CSVComparisonAgentService.gather all_in_trouble
    "/data/out_PY.csv" "/data/out.csv" "compare"
  = [Return "An error occurred during agent processing with model gpt-4: upload refused";
     Return "Run failed: rate_limit_exceeded";
     Return "Maximum attempts reached without task completion for model gpt-4o"]
  /\
  fst (CSVComparisonAgentService._collect_successful_outputs all_in_trouble
         (CSVComparisonAgentService.gather all_in_trouble
            "/data/out_PY.csv" "/data/out.csv" "compare") empty_world)
  = Return
      [("gpt-4",
        "An error occurred during agent processing with model gpt-4: upload refused");
       ("gpt-4.1", "Run failed: rate_limit_exceeded");
       ("gpt-4o",
        "Maximum attempts reached without task completion for model gpt-4o")]
  /\
  fst (CSVComparisonAgentService._run_parallel_comparisons all_in_trouble
         "/data/out_PY.csv" "/data/out.csv" "compare" empty_world)
  = Return "An error occurred during agent processing with model gpt-4: upload refused".
Proof. repeat split. Qed.

(** ** Staging paths *)

(** C9 fails on the comparison service.  The deployments [gpt-4.1] and
    [gpt-4_1] are distinct, yet both tasks stage their uploads at the
    same two paths: the task for one copies a source file to the very
    path the task for the other removes. *)
Theorem comparison_staging_paths_collide :
  "gpt-4.1" <> "gpt-4_1" /\
  CSVComparisonAgentService.tmp_python "gpt-4.1"
  = CSVComparisonAgentService.tmp_python "gpt-4_1" /\
  CSVComparisonAgentService.tmp_legacy "gpt-4.1"
  = CSVComparisonAgentService.tmp_legacy "gpt-4_1" /\
  In (shutil_copy2 "/data/out_PY.csv" "/tmp/ported_python_output_gpt-4_1.csv")
     (trace (snd (CSVComparisonAgentService._run_comparison_sync agreeable
                    "/data/out_PY.csv" "/data/out.csv" "compare" "gpt-4.1"
                    empty_world))) /\
  In (os_remove "/tmp/ported_python_output_gpt-4_1.csv")
     (trace (snd (CSVComparisonAgentService._run_comparison_sync agreeable
                    "/data/out_PY.csv" "/data/out.csv" "compare" "gpt-4_1"
                    empty_world))).
Proof.
  split; [discriminate|]. split; [reflexivity|]. split; [reflexivity|].
  split; vm_compute; tauto.
Qed.

(** ** Further properties of the fan-out *)

Lemma kept_keys pairs m : forall acc,
  In m (keys (kept pairs acc)) -> In m (keys acc) \/ In m (map fst pairs).
Proof.
  induction pairs as [|[m' [s|e]] pairs IH]; intros acc Hin; simpl in *; auto.
  - destruct (negb (startswith s "Error:")).
    + apply IH in Hin as [Hin|Hin]; [|tauto].
      rewrite keys_setitem in Hin. destruct (mem acc m'); [tauto|].
      apply in_app_or in Hin as [Hin|[<-|[]]]; tauto.
    + apply IH in Hin. tauto.
  - apply IH in Hin. tauto.
Qed.

(** The success mapping of either fan-out holds no value that starts
    with [Error:], at most one entry per model name, and only names of
    configured deployments; building it makes no request and never
    raises. *)
Theorem success_mapping_invariant :
  (forall (self : CSVComparisonAgentService.service)
          (results : list (outcome string)) (w : world),
      exists d w',
        CSVComparisonAgentService._collect_successful_outputs self results w
        = (Return d, w') /\
        trace w' = trace w /\
        NoDup (keys d) /\
        Forall (fun v => startswith v "Error:" = false) (values d) /\
        (forall m, In m (keys d) ->
                   In m (CSVComparisonAgentService.model_deployments self))) /\
  (forall (self : ReorderService.service)
          (results : list (outcome string)) (w : world),
      exists d w',
        ReorderService.collect self results w = (Return d, w') /\
        trace w' = trace w /\
        NoDup (keys d) /\
        Forall (fun v => startswith v "Error:" = false) (values d) /\
        (forall m, In m (keys d) ->
                   In m (ReorderService.model_deployments self))).
Proof.
  split; intros self results w.
  - destruct (comparison_collect_run self results w) as (w' & Hrun & Htrace).
    eexists. exists w'. split; [exact Hrun|]. split; [exact Htrace|].
    split; [apply kept_keys_NoDup; constructor|].
    split; [apply kept_values; constructor|].
    intros m Hin. apply kept_keys in Hin as [[]|Hin].
    apply in_map_iff in Hin as ((m', r) & <- & Hin).
    now apply in_combine_l in Hin.
  - destruct (reorder_collect_run self results w) as (w' & Hrun & Htrace).
    eexists. exists w'. split; [exact Hrun|]. split; [exact Htrace|].
    split; [apply kept_keys_NoDup; constructor|].
    split; [apply kept_values; constructor|].
    intros m Hin. apply kept_keys in Hin as [[]|Hin].
    apply in_map_iff in Hin as ((m', r) & <- & Hin).
    now apply in_combine_l in Hin.
Qed.

(** With a single configured deployment (or a configuration without
    the deployments attribute) the comparison service bypasses the
    fan-out: it awaits the one task and hands on what the task returns
    or raises, without a request of its own. *)
Theorem single_model_bypasses_fan_out :
  forall (self : CSVComparisonAgentService.service)
         (python_output_path legacy_output_path task : string) (w : world),
    length (CSVComparisonAgentService.model_deployments self) = 1 ->
    CSVComparisonAgentService.compare_csv_files self python_output_path
      legacy_output_path task w
    = (CSVComparisonAgentService._run_single_comparison self 0
         python_output_path legacy_output_path task
         (CSVComparisonAgentService.model_name_ self), w).
Proof.
  intros self p l t w Hone.
  unfold CSVComparisonAgentService.compare_csv_files,
    CSVComparisonAgentService._is_single_model_mode.
  rewrite Hone.
  now destruct (OpenAIService.model_deployments
                  (CSVComparisonAgentService.config self)).
Qed.

(** The bypass at work: the configuration lists one deployment. *)
Lemma single_model_bypasses_fan_out_witness :
  CSVComparisonAgentService.compare_csv_files lone_deployment
    "/data/out_PY.csv" "/data/out.csv" "compare" empty_world
  = (Return ("# Row Location" ++ nl ++ "332" ++ nl ++ nl), empty_world).
Proof.
  exact (single_model_bypasses_fan_out lone_deployment
           "/data/out_PY.csv" "/data/out.csv" "compare" empty_world eq_refl).
Defined.

(** With two or more successes the comparison fan-out asks the arbiter
    exactly once, about exactly the kept outputs, and returns one of
    them. *)
Theorem several_successes_ask_the_judge_once :
  forall (self : CSVComparisonAgentService.service)
         (python_output_path legacy_output_path task : string) (w : world),
    let d := kept (zip (CSVComparisonAgentService.model_deployments self)
                     (CSVComparisonAgentService.gather self python_output_path
                        legacy_output_path task)) [] in
    2 <= len d ->
    exists v w',
      CSVComparisonAgentService._run_parallel_comparisons self
        python_output_path legacy_output_path task w = (Return v, w') /\
      In v (values d) /\
      trace w'
      = (trace w
         ++ [judge_request (CSVComparisonAgentService.config self)
               (CSVComparisonAgentService.CSV_OUTPUT_SELECTION_USER_PROMPT_TEMPLATE
                  self) d])%list /\
      length (OpenAIService._prepare_numbered_outputs d) = len d.
Proof.
  intros self p l t w d Hlen.
  destruct (comparison_fan_out_run self p l t w) as (w1 & Htrace & Hrun).
  fold d in Hrun. rewrite Hrun. clear Hrun.
  replace (Nat.eqb (len d) 0) with false by (symmetry; apply Nat.eqb_neq; lia).
  replace (Nat.eqb (len d) 1) with false by (symmetry; apply Nat.eqb_neq; lia).
  destruct (@select_run (CSVComparisonAgentService.environment self)
              (CSVComparisonAgentService.config self)
              (CSVComparisonAgentService.strip self)
              (CSVComparisonAgentService.int self)
              (CSVComparisonAgentService.CSV_OUTPUT_SELECTION_USER_PROMPT_TEMPLATE self)
              d w1 Hlen) as (v & w' & Hsel & Htr & Hv).
  exists v, w'. split; [exact Hsel|]. split; [|split].
  - destruct (arbiter_choice _ _ _ _ _) as [n|].
    + destruct ((1 <=? n) && (n <=? Z.of_nat (len d)))%Z.
      * eapply nth_error_In; eassumption.
      * destruct (values d); [discriminate|]. injection Hv as ->. now left.
    + destruct (values d); [discriminate|]. injection Hv as ->. now left.
  - now rewrite Htr, Htrace.
  - unfold OpenAIService._prepare_numbered_outputs.
    now rewrite length_map, enumerate_length.
Qed.

(** Two successes at work. *)
Lemma several_successes_ask_the_judge_once_witness :
  exists v w',
    CSVComparisonAgentService._run_parallel_comparisons both_succeed
      "/data/out_PY.csv" "/data/out.csv" "compare" empty_world = (Return v, w') /\
    length (trace w') = 1.
Proof.
  destruct (several_successes_ask_the_judge_once both_succeed
              "/data/out_PY.csv" "/data/out.csv" "compare" empty_world (le_n 2))
    as (v & w' & Hrun & _ & Htrace & _).
  exists v, w'. split; [exact Hrun|]. now rewrite Htrace.
Defined.

(** ** The task runners *)

Lemma bind_Return_inv {S A B} (c : M S A) (k : A -> M S B) s b s' :
  bind c k s = (Return b, s') ->
  exists a s1, c s = (Return a, s1) /\ k a s1 = (Return b, s').
Proof.
  unfold bind. destruct (c s) as [[a|e] s1]; [eauto | discriminate].
Qed.

Lemma reorder_release_run (client : Env) (context : ReorderService.ReorderContext) w :
  exists w',
    ReorderService._cleanup_reorder_resources client (context, w)
    = (Return tt, (context, w')) /\
    filter is_deletion (trace w')
    = (filter is_deletion (trace w)
       ++ deletions (ReorderService.thread_id context)
            (ReorderService.agent_id context)
            (Some (ReorderService.file_ids context)))%list.
Proof.
  unfold ReorderService._cleanup_reorder_resources.
  unfold bind at 1, get_context, lift; cbn [fst snd].
  erewrite bind_Return by apply release_run.
  match goal with
  | |- context [file_utils.cleanup_temp_files client ?ps ?w0] =>
      destruct (cleanup_temp_files_run client ps w0) as (w' & Hrun & Hdel)
  end.
  rewrite Hrun. exists w'. split; [reflexivity|].
  rewrite Hdel. simpl. rewrite filter_app, deletions_are_deletions. reflexivity.
Qed.

Lemma process_shape (client : Env) context legacy_path w s w' :
  ReorderService._process_reorder_results client context legacy_path w
  = (Return s, w') ->
  s = ReorderService.no_output \/
  exists content,
    content <> [] /\ s = ReorderService._format_reorder_results content.
Proof.
  unfold ReorderService._process_reorder_results. intros H.
  apply bind_Return_inv in H as (messages & w1 & _ & H).
  apply bind_Return_inv in H as (content & w2 & _ & H).
  destruct content as [|item content]; simpl in H; injection H as <- _.
  - now left.
  - right. exists (item :: content). split; [discriminate | reflexivity].
Qed.

Lemma format_not_prefixed (content : dict string) :
  failed (Return (ReorderService._format_reorder_results content)) = false.
Proof.
  unfold ReorderService._format_reorder_results, join, failed.
  cbn [String.concat]. now destruct (flat_map _ content).
Qed.

(** Neither task runner raises: whatever the environment does, the
    runner returns a string.  The reorder runner returns a string that
    starts with [Error:], which the collection step drops, unless the
    agent produced files; it then returns their formatted contents. *)
Theorem runners_never_raise :
  (forall (client : Env)
          (python_output_path legacy_output_path task model_name : string)
          (w : world),
      exists s w',
        CSVComparisonAgentService._run_comparison_sync client
          python_output_path legacy_output_path task model_name w
        = (Return s, w')) /\
  (forall (client : Env) (source_path legacy_path model_name : string)
          (model_index : nat) (w : world),
      exists s w',
        ReorderService._run_reorder_sync client source_path legacy_path
          model_name model_index w = (Return s, w') /\
        (failed (Return s) = true \/
         exists content,
           content <> [] /\
           s = ReorderService._format_reorder_results content /\
           failed (Return s) = false)).
Proof.
  split.
  - intros client p l t m w.
    unfold CSVComparisonAgentService._run_comparison_sync, with_context,
      try_finally.
    match goal with
    | |- context [try_except ?c ?h ?s0] =>
        destruct (@try_except_total _ _ c h) with (s := s0)
          as (s & [context w1] & ->)
    end.
    { intros e [context w1]. unfold bind, lift, logger, ret. simpl. eauto. }
    destruct (context_release_run client context w1) as (w2 & -> & _).
    simpl. eauto.
  - intros client src l m i w.
    unfold ReorderService._run_reorder_sync, with_context, try_finally,
      try_except.
    match goal with
    | |- context [let (_, _) := (match ?body ?s0 with _ => _ end) in _] =>
        destruct (body s0) as [[s|e] [context w1]] eqn:Hbody
    end.
    + destruct (reorder_release_run client context w1) as (w2 & -> & _).
      exists s, w2. split; [reflexivity|].
      apply bind_Return_inv in Hbody as ([] & st1 & _ & Hbody).
      apply bind_Return_inv in Hbody as ([] & st2 & _ & Hbody).
      apply bind_Return_inv in Hbody as ([] & [c3 w3] & _ & Hbody).
      rewrite execute_reorder_task_run in Hbody. cbv zeta in Hbody.
      destruct (on_effect client (trace w3) (reorder_post c3)); [discriminate|].
      destruct (on_run client _ (reorder_run c3)) as [e|run]; [discriminate|].
      destruct (status run =? "failed").
      * injection Hbody as <- _ _. now left.
      * destruct (ReorderService._process_reorder_results client c3 l _)
          as [[s'|e] w4] eqn:Hproc; [|discriminate].
        simpl in Hbody. injection Hbody as <- _ _.
        apply process_shape in Hproc as [->|(content & Hne & ->)].
        -- now left.
        -- right. exists content. split; [exact Hne|]. split; [reflexivity|].
           apply format_not_prefixed.
    + unfold bind at 1, lift, logger. cbn [fst snd]. unfold ret at 1.
      destruct (reorder_release_run client context
                  {| trace := trace w1;
                     log := log w1
                            ++ [(ERROR, "Error during reordering with model "
                                        ++ m ++ ": " ++ str_exn e)] |})
        as (w2 & -> & _).
      do 2 eexists. split; [reflexivity|]. now left.
Qed.

(** ** Staging paths of the reorder service *)



Lemma str_int_inj (i j : nat) : str_int i = str_int j -> i = j.
Proof.
  unfold str_int. intros H.
  apply (f_equal NilEmpty.uint_of_string) in H.
  rewrite !NilEmpty.usu in H. injection H as H.
  apply (f_equal Nat.of_uint) in H.
  now rewrite !DecimalNat.Unsigned.of_to in H.
Qed.



(** ** Release on every path *)

Section Released.
Variable client : Env.

Lemma tracked_weaken h delta : forall ds ds',
  (forall d, In d ds -> In d ds') ->
  tracked client h delta ds -> tracked client h delta ds'.
Proof.
  revert h. induction delta as [|r delta IH]; intros h ds ds' Hsub H; simpl in *.
  - exact I.
  - destruct H as [Hr Hrest]. split; [|eapply IH; eassumption].
    intros id d Hid Hd. eapply Hsub, Hr; eassumption.
Qed.

Lemma tracked_app h d1 : forall d2 ds,
  tracked client h d1 ds -> tracked client (h ++ d1) d2 ds ->
  tracked client h (d1 ++ d2) ds.
Proof.
  revert h. induction d1 as [|r d1 IH]; intros h d2 ds H1 H2; simpl in *.
  - now rewrite app_nil_r in H2.
  - destruct H1 as [Hr H1]. split; [exact Hr|].
    apply IH; [exact H1|]. now rewrite <- app_assoc.
Qed.

Lemma tracked_silent h delta ds :
  filter is_acquire delta = [] -> tracked client h delta ds.
Proof.
  revert h. induction delta as [|r delta IH]; intros h Hq; simpl in *.
  - exact I.
  - destruct (is_acquire r) eqn:Hr; [discriminate|].
    split; [|now apply IH].
    intros id d _ Hd. destruct r; simpl in Hr, Hd; discriminate.
Qed.

Lemma released_silent h delta :
  filter is_acquire delta = [] -> all_released client h delta.
Proof.
  revert h. induction delta as [|r delta IH]; intros h Hq; simpl in *.
  - exact I.
  - destruct (is_acquire r) eqn:Hr; [discriminate|].
    split; [|now apply IH].
    intros id d _ Hd. destruct r; simpl in Hr, Hd; discriminate.
Qed.

(** What was tracked is released once the deletions follow. *)
Lemma tracked_released h delta : forall ds rest,
  tracked client h delta ds ->
  (forall d, In d ds -> In d rest) ->
  filter is_acquire rest = [] ->
  all_released client h (delta ++ rest).
Proof.
  revert h. induction delta as [|r delta IH]; intros h ds rest H Hsub Hq;
    simpl in *.
  - now apply released_silent.
  - destruct H as [Hr H]. split; [|eapply IH; eassumption].
    intros id d Hid Hd. apply in_or_app. right. eapply Hsub, Hr; eassumption.
Qed.

End Released.

Section Comparison_release.
Import BaseAgentService CSVComparisonAgentService.
Variable client : Env.

Lemma copy_silent files : forall temp_files,
  silent is_acquire (file_utils.copy_files_to_temp_loop client files temp_files).
Proof.
  induction files as [|[source temp] files IH]; intros temp_files;
    cbn [file_utils.copy_files_to_temp_loop].
  - apply silent_ret.
  - apply silent_bind; [apply silent_request; reflexivity | intros found].
    destruct (negb found); [apply silent_raise|].
    apply silent_bind; [apply silent_request; reflexivity | intros _; apply IH].
Qed.

Lemma temps_silent paths :
  silent is_acquire (file_utils.cleanup_temp_files client paths).
Proof.
  unfold file_utils.cleanup_temp_files.
  apply silent_for_each. intros path.
  apply silent_try_except; [|intros e; apply silent_logger].
  apply silent_bind; [apply silent_request; reflexivity | intros found].
  destruct found; [apply silent_request; reflexivity | apply silent_ret].
Qed.

Lemma extract_acquires_nothing thread model :
  silent is_acquire (_extract_csv_results client thread model).
Proof.
  unfold _extract_csv_results, call_messages.
  apply silent_bind; [apply silent_request; reflexivity | intros messages].
  apply silent_bind; [|silence].
  apply silent_for_fold. intros parts msg.
  destruct (file_path_annotations msg) as [annotations|]; [|apply silent_raise].
  apply silent_for_fold. intros parts' annotation.
  apply silent_bind.
  - unfold _download_and_read_csv, call_effect, call_text. silence.
  - intros [content|]; [destruct (truthy content)|]; apply silent_ret.
Qed.

Lemma attempts_acquire_nothing context range :
  silent is_acquire (attempts client context range).
Proof.
  induction range as [|attempt range IH]; cbn [attempts].
  - apply silent_ret.
  - apply silent_bind; [apply silent_request; reflexivity | intros run].
    destruct (status run =? "failed"); [silence|].
    apply silent_bind; [apply silent_request; reflexivity | intros m].
    destruct (_is_task_completed m); [apply extract_acquires_nothing|].
    apply silent_bind; [|intros _; exact IH].
    destruct (Nat.ltb attempt MAX_ATTEMPTS);
      [apply silent_request; reflexivity | apply silent_ret].
Qed.

Lemma due_files_grow context fid x :
  In x (due context) ->
  In x (due {| model_name := model_name context;
               file_ids := file_ids context ++ [fid];
               agent_id := agent_id context;
               thread_id := thread_id context;
               tmp_files := tmp_files context |}).
Proof.
  unfold due, deletions. cbn [file_ids agent_id thread_id].
  rewrite map_app, !in_app_iff. tauto.
Qed.

Lemma due_new_file context fid :
  In (files_delete fid)
     (due {| model_name := model_name context;
             file_ids := file_ids context ++ [fid];
             agent_id := agent_id context;
             thread_id := thread_id context;
             tmp_files := tmp_files context |}).
Proof.
  unfold due, deletions. cbn [file_ids agent_id thread_id].
  rewrite map_app, !in_app_iff. simpl. tauto.
Qed.

Lemma prepare_stage p l m context w r st' :
  _prepare_comparison_files client p l m (context, w) = (r, st') ->
  file_ids (fst st') = file_ids context /\
  agent_id (fst st') = agent_id context /\
  thread_id (fst st') = thread_id context /\
  exists d,
    trace (snd st') = (trace w ++ d)%list /\ filter is_acquire d = [].
Proof.
  unfold _prepare_comparison_files, bind, lift, modify_context,
    file_utils.copy_files_to_temp. cbn [fst snd].
  match goal with
  | |- context [file_utils.copy_files_to_temp_loop client ?fs ?acc w] =>
      destruct (copy_silent fs acc w) as (d & Td & Fd);
      destruct (file_utils.copy_files_to_temp_loop client fs acc w)
        as [[copied|e] w1]
  end; cbn [fst snd] in *; intros [= <- <-]; cbn [fst snd file_ids agent_id thread_id];
    repeat split; eauto.
Qed.

Lemma upload_stage paths : forall context w r st',
  for_each paths (fun file_path =>
    file <- lift (call_text client (files_upload_and_poll file_path None)) ;;
    modify_context (fun c : AgentContext =>
      {| model_name := model_name c;
         file_ids := file_ids c ++ [file]; agent_id := agent_id c;
         thread_id := thread_id c; tmp_files := tmp_files c |}))
    (context, w) = (r, st') ->
  agent_id (fst st') = agent_id context /\
  thread_id (fst st') = thread_id context /\
  (forall x, In x (due context) -> In x (due (fst st'))) /\
  exists d,
    trace (snd st') = (trace w ++ d)%list /\
    tracked client (trace w) d (due (fst st')).
Proof.
  induction paths as [|path paths IH]; intros context w r st'; cbn [for_each].
  - unfold ret. intros [= <- <-]. cbn [fst snd].
    repeat split; auto. exists []. split; [now rewrite app_nil_r | exact I].
  - unfold bind at 1, bind at 1, lift at 1, call_text at 1. cbn [fst snd].
    destruct (on_text client (trace w) (files_upload_and_poll path None))
      as [e|fid] eqn:Hans; cbn [of_answer].
    + intros [= <- <-]. cbn [fst snd record trace].
      repeat split; auto. exists [files_upload_and_poll path None].
      split; [reflexivity|]. split; [|exact I].
      intros id d Hid. rewrite Hans in Hid. discriminate.
    + unfold modify_context at 1. cbn [fst snd]. intros Hrest.
      apply IH in Hrest as (Ha & Ht & Hmono & d & Td & Tr).
      cbn [agent_id thread_id record trace] in *.
      repeat split; auto.
      * intros x Hx. apply Hmono. now apply due_files_grow.
      * exists (files_upload_and_poll path None :: d).
        rewrite Td, <- app_assoc. split; [reflexivity|].
        split; [|exact Tr].
        intros id d0 Hid Hd0. rewrite Hans in Hid. injection Hid as <-.
        injection Hd0 as <-. apply Hmono. apply due_new_file.
Qed.

Lemma create_stage m context w r st' :
  agent_id context = None -> thread_id context = None ->
  _create_and_configure_agent client m (context, w) = (r, st') ->
  exists d,
    trace (snd st') = (trace w ++ d)%list /\
    tracked client (trace w) d (due (fst st')) /\
    (forall x, In x (due context) -> In x (due (fst st'))).
Proof.
  intros Hagent Hthread.
  unfold _create_and_configure_agent.
  unfold bind at 1, get_context. cbn [fst snd].
  unfold bind at 1, lift at 1, call_text at 1. cbn [fst snd].
  set (req := create_agent m _ _ _).
  destruct (on_text client (trace w) req) as [e|agent] eqn:Hans;
    cbn [of_answer].
  { intros [= <- <-]. cbn [fst snd record trace]. exists [req].
    split; [reflexivity|]. split; [|auto]. split; [|exact I].
    intros id d Hid. rewrite Hans in Hid. discriminate. }
  unfold bind at 1, modify_context at 1. cbn [fst snd].
  unfold bind at 1, lift at 1, call_text at 1. cbn [fst snd record trace log].
  assert (Hdel : forall t d,
             release_of req agent = Some d ->
             In d (deletions t (Some agent) (Some (file_ids context)))).
  { intros t d. subst req. cbn [release_of]. unfold deletions.
    destruct (truthy agent); [|discriminate]. intros [= <-].
    rewrite !in_app_iff. simpl. tauto. }
  assert (Hmono : forall t a x,
             In x (due context) ->
             In x (deletions t a (Some (file_ids context)))).
  { intros t a x. unfold due, deletions. rewrite Hagent, Hthread.
    rewrite !in_app_iff. simpl. tauto. }
  destruct (on_text client (trace w ++ [req]) threads_create) as [e|thread]
    eqn:Hans2; cbn [of_answer].
  { intros [= <- <-]. cbn [fst snd record trace]. exists [req; threads_create].
    rewrite <- app_assoc. split; [reflexivity|]. unfold due.
    cbn [file_ids agent_id thread_id]. split; [|apply Hmono]. split.
    - intros id d Hid. rewrite Hans in Hid. injection Hid as <-. apply Hdel.
    - split; [|exact I]. intros id d Hid. rewrite Hans2 in Hid. discriminate. }
  unfold modify_context. intros [= <- <-]. cbn [fst snd record trace].
  exists [req; threads_create]. rewrite <- app_assoc. split; [reflexivity|].
  unfold due. cbn [file_ids agent_id thread_id]. split; [|apply Hmono]. split.
  - intros id d Hid. rewrite Hans in Hid. injection Hid as <-. apply Hdel.
  - split; [|exact I]. intros id d Hid. rewrite Hans2 in Hid.
    injection Hid as <-. cbn [release_of]. unfold deletions.
    destruct (truthy thread); [|discriminate]. intros [= <-]. now left.
Qed.

Lemma execute_stage task context w r st' :
  _execute_agent_task client task (context, w) = (r, st') ->
  fst st' = context /\
  exists d,
    trace (snd st') = (trace w ++ d)%list /\ filter is_acquire d = [].
Proof.
  intros H. rewrite execute_agent_task_run in H. cbv zeta in H.
  destruct (on_effect client (trace w) _);
    match type of H with
    | (_, ?s) = _ => assert (Hst : st' = s) by congruence
    end; rewrite Hst; clear H Hst; cbn [fst snd]; (split; [reflexivity|]).
  - cbn [record trace]. eexists. split; reflexivity.
  - match goal with
    | |- context [attempts client context ?rg ?w0] =>
        destruct (attempts_acquire_nothing context rg w0) as (d & Td & Fd)
    end.
    rewrite Td. cbn [record trace]. rewrite <- app_assoc.
    eexists. split; [reflexivity|]. simpl. exact Fd.
Qed.

Lemma body_stage p l t m w r st' :
  (_prepare_comparison_files client p l m ;;
   _upload_files_to_agent client ;;
   _create_and_configure_agent client m ;;
   _execute_agent_task client t) (new_context m, w) = (r, st') ->
  exists d,
    trace (snd st') = (trace w ++ d)%list /\
    tracked client (trace w) d (due (fst st')).
Proof.
  unfold bind at 1.
  destruct (_prepare_comparison_files client p l m (new_context m, w))
    as [[[]|e] [c1 w1]] eqn:H1;
    apply prepare_stage in H1 as (Hf1 & Ha1 & Ht1 & d1 & T1 & F1);
    cbn [fst snd] in *.
  2:{ intros [= <- <-]; cbn [fst snd]. exists d1. split; [exact T1|]. now apply tracked_silent. }
  unfold bind at 1.
  destruct (_upload_files_to_agent client (c1, w1)) as [[[]|e] [c2 w2]] eqn:H2;
    unfold _upload_files_to_agent, bind at 1, get_context in H2;
    cbn [fst snd] in H2;
    apply upload_stage in H2 as (Ha2 & Ht2 & M2 & d2 & T2 & R2);
    cbn [fst snd] in *.
  2:{ intros [= <- <-]; cbn [fst snd]. exists (d1 ++ d2)%list. rewrite T2, T1, app_assoc.
      split; [reflexivity|].
      apply tracked_app; [now apply tracked_silent | now rewrite <- T1]. }
  unfold bind at 1.
  destruct (_create_and_configure_agent client m (c2, w2))
    as [[[]|e] [c3 w3]] eqn:H3;
    apply create_stage in H3 as (d3 & T3 & R3 & M3);
    try (rewrite ?Ha2, ?Ht2, ?Ha1, ?Ht1; reflexivity);
    cbn [fst snd] in *.
  2:{ intros [= <- <-]; cbn [fst snd]. exists (d1 ++ d2 ++ d3)%list.
      rewrite T3, T2, T1, <- !app_assoc. split; [reflexivity|].
      apply tracked_app; [now apply tracked_silent|].
      apply tracked_app.
      - rewrite <- T1. eapply tracked_weaken; [exact M3 | exact R2].
      - rewrite <- T1, <- T2. exact R3. }
  intros H4. apply execute_stage in H4 as (Hc & d4 & T4 & F4).
  exists (d1 ++ d2 ++ d3 ++ d4)%list.
  rewrite T4, T3, T2, T1, <- !app_assoc. split; [reflexivity|]. rewrite Hc.
  apply tracked_app; [now apply tracked_silent|].
  apply tracked_app.
  - rewrite <- T1. eapply tracked_weaken; [exact M3 | exact R2].
  - apply tracked_app.
    + rewrite <- T1, <- T2. exact R3.
    + now apply tracked_silent.
Qed.

Lemma release_exact (context : AgentContext) w :
  exists temps,
    CSVComparisonAgentService._cleanup_agent_resources client (context, w)
    = (Return tt,
       (context,
        snd (snd (CSVComparisonAgentService._cleanup_agent_resources client
                    (context, w))))) /\
    trace (snd (snd (CSVComparisonAgentService._cleanup_agent_resources client
                       (context, w))))
    = (trace w ++ due context ++ temps)%list /\
    filter is_acquire temps = [].
Proof.
  unfold CSVComparisonAgentService._cleanup_agent_resources.
  unfold bind at 1 3 5, get_context, lift; cbn [fst snd].
  erewrite !bind_Return by apply release_run.
  match goal with
  | |- context [file_utils.cleanup_temp_files client ?ps ?w0] =>
      destruct (temps_silent ps w0) as (temps & Tt & Ft);
      destruct (cleanup_temp_files_run client ps w0) as (w' & Hrun & _)
  end.
  rewrite Hrun in *. cbn [fst snd trace] in *.
  exists temps. split; [reflexivity|]. split; [|exact Ft].
  rewrite Tt. unfold due. now rewrite <- app_assoc.
Qed.

End Comparison_release.

Lemma due_acquires_nothing context : filter is_acquire (due context) = [].
Proof.
  unfold due, deletions. rewrite !filter_app.
  replace (filter is_acquire
             (map files_delete (BaseAgentService.file_ids context)))
    with (@nil request)
    by (induction (BaseAgentService.file_ids context); simpl; auto).
  destruct (BaseAgentService.thread_id context) as [t|];
    [destruct (truthy t)|];
    (destruct (BaseAgentService.agent_id context) as [a|];
     [destruct (truthy a)|]); reflexivity.
Qed.

(** The comparison runner leaks nothing: on every path it takes,
    whatever the service answers, each file it uploaded, the agent and
    the thread it created (when their identifier is not empty) is
    followed, later in the same run, by a request to delete it. *)
Theorem acquired_resources_are_released client p l t m w :
  exists delta,
    trace (snd (CSVComparisonAgentService._run_comparison_sync
                  client p l t m w))
    = (trace w ++ delta)%list /\
    all_released client (trace w) delta.
Proof.
  unfold CSVComparisonAgentService._run_comparison_sync, with_context,
    try_finally, try_except.
  match goal with
  | |- context [bind ?a ?b (?c0, w)] =>
      destruct (bind a b (c0, w)) as [[s|e] [c1 w1]] eqn:Hbody
  end;
    apply body_stage in Hbody as (d1 & T1 & R1); cbn [fst snd] in *.
  - destruct (release_exact client c1 w1) as (temps & Hrun & Ttr & Ft).
    rewrite Hrun. cbn [snd]. rewrite Ttr, T1.
    exists (d1 ++ due c1 ++ temps)%list.
    split; [rewrite <- !app_assoc; reflexivity|].
    apply tracked_released with (ds := due c1); [exact R1 | |].
    + intros d Hd. apply in_or_app. now left.
    + rewrite filter_app, due_acquires_nothing. exact Ft.
  - unfold bind at 1, lift at 1, logger at 1, ret at 1. cbn [fst snd].
    match goal with
    | |- context [CSVComparisonAgentService._cleanup_agent_resources client
                    (c1, ?w2)] =>
        destruct (release_exact client c1 w2) as (temps & Hrun & Ttr & Ft)
    end.
    rewrite Hrun. cbn [snd]. rewrite Ttr. cbn [trace]. rewrite T1.
    exists (d1 ++ due c1 ++ temps)%list.
    split; [rewrite <- !app_assoc; reflexivity|].
    apply tracked_released with (ds := due c1); [exact R1 | |].
    + intros d Hd. apply in_or_app. now left.
    + rewrite filter_app, due_acquires_nothing. exact Ft.
Qed.

Section Reorder_release.
Import ReorderService.
Variable client : Env.

Lemma single_file_acquires_nothing annotation context target_dir reordered :
  silent is_acquire
    (_process_single_reordered_file client annotation context target_dir
       reordered).
Proof.
  unfold _process_single_reordered_file. cbv zeta.
  apply silent_bind; [apply silent_request; reflexivity | intros _].
  apply silent_bind.
  - destruct (negb _); [apply silent_request; reflexivity | apply silent_ret].
  - intros _. apply silent_bind; [apply silent_request; reflexivity|].
    intros content. apply silent_ret.
Qed.

Lemma process_acquires_nothing context legacy_path :
  silent is_acquire (_process_reorder_results client context legacy_path).
Proof.
  unfold _process_reorder_results.
  apply silent_bind; [apply silent_request; reflexivity | intros messages].
  cbv zeta. apply silent_bind.
  - apply silent_for_fold. intros reordered msg.
    destruct (role msg); [apply silent_ret|].
    destruct (file_path_annotations msg) as [annotations|]; [|apply silent_ret].
    apply silent_for_fold. intros reordered' annotation.
    apply single_file_acquires_nothing.
  - intros reordered. destruct (Nat.eqb _ _); apply silent_ret.
Qed.

Lemma reorder_due_files_grow context fid x :
  In x (reorder_due context) ->
  In x (reorder_due
          {| model_name := model_name context;
             model_index := model_index context;
             file_ids := file_ids context ++ [fid];
             agent_id := agent_id context;
             thread_id := thread_id context;
             tmp_files := tmp_files context |}).
Proof.
  unfold reorder_due, deletions. cbn [file_ids agent_id thread_id].
  rewrite map_app, !in_app_iff. tauto.
Qed.

Lemma reorder_due_new_file context fid :
  In (files_delete fid)
     (reorder_due
        {| model_name := model_name context;
           model_index := model_index context;
           file_ids := file_ids context ++ [fid];
           agent_id := agent_id context;
           thread_id := thread_id context;
           tmp_files := tmp_files context |}).
Proof.
  unfold reorder_due, deletions. cbn [file_ids agent_id thread_id].
  rewrite map_app, !in_app_iff. simpl. tauto.
Qed.

Lemma reorder_prepare_stage s l context w r st' :
  _prepare_reorder_files client s l (context, w) = (r, st') ->
  file_ids (fst st') = file_ids context /\
  agent_id (fst st') = agent_id context /\
  thread_id (fst st') = thread_id context /\
  exists d,
    trace (snd st') = (trace w ++ d)%list /\ filter is_acquire d = [].
Proof.
  unfold _prepare_reorder_files.
  unfold bind at 1, get_context. cbn [fst snd].
  unfold bind, lift, modify_context, file_utils.copy_files_to_temp.
  cbn [fst snd].
  match goal with
  | |- context [file_utils.copy_files_to_temp_loop client ?fs ?acc w] =>
      destruct (copy_silent client fs acc w) as (d & Td & Fd);
      destruct (file_utils.copy_files_to_temp_loop client fs acc w)
        as [[copied|e] w1]
  end; cbn [fst snd] in *; intros [= <- <-];
    cbn [fst snd file_ids agent_id thread_id]; repeat split; eauto.
Qed.

Lemma reorder_upload_stage paths : forall context w r st',
  for_each paths (fun file_path =>
    let file_name := basename file_path in
    file <- lift (call_text client
                    (files_upload_and_poll file_path (Some file_name))) ;;
    modify_context (fun c : ReorderContext =>
      {| model_name := model_name c; model_index := model_index c;
         file_ids := file_ids c ++ [file]; agent_id := agent_id c;
         thread_id := thread_id c; tmp_files := tmp_files c |}))
    (context, w) = (r, st') ->
  agent_id (fst st') = agent_id context /\
  thread_id (fst st') = thread_id context /\
  (forall x, In x (reorder_due context) -> In x (reorder_due (fst st'))) /\
  exists d,
    trace (snd st') = (trace w ++ d)%list /\
    tracked client (trace w) d (reorder_due (fst st')).
Proof.
  induction paths as [|path paths IH]; intros context w r st'; cbn [for_each].
  - unfold ret. intros [= <- <-]. cbn [fst snd].
    repeat split; auto. exists []. split; [now rewrite app_nil_r | exact I].
  - cbv zeta.
    unfold bind at 1, bind at 1, lift at 1, call_text at 1. cbn [fst snd].
    set (req := files_upload_and_poll path (Some (basename path))).
    destruct (on_text client (trace w) req) as [e|fid] eqn:Hans;
      cbn [of_answer].
    + intros [= <- <-]. cbn [fst snd record trace].
      repeat split; auto. exists [req].
      split; [reflexivity|]. split; [|exact I].
      intros id d Hid. rewrite Hans in Hid. discriminate.
    + unfold modify_context at 1. cbn [fst snd]. intros Hrest.
      apply IH in Hrest as (Ha & Ht & Hmono & d & Td & Tr).
      cbn [agent_id thread_id record trace] in *.
      repeat split; auto.
      * intros x Hx. apply Hmono. now apply reorder_due_files_grow.
      * exists (req :: d).
        rewrite Td, <- app_assoc. split; [reflexivity|].
        split; [|exact Tr].
        intros id d0 Hid Hd0. rewrite Hans in Hid. injection Hid as <-.
        injection Hd0 as <-. apply Hmono. apply reorder_due_new_file.
Qed.

Lemma reorder_create_stage context w r st' :
  agent_id context = None -> thread_id context = None ->
  _create_reorder_agent client (context, w) = (r, st') ->
  exists d,
    trace (snd st') = (trace w ++ d)%list /\
    tracked client (trace w) d (reorder_due (fst st')) /\
    (forall x, In x (reorder_due context) -> In x (reorder_due (fst st'))).
Proof.
  intros Hagent Hthread.
  unfold _create_reorder_agent.
  unfold bind at 1, get_context. cbn [fst snd].
  unfold bind at 1, lift at 1, call_text at 1. cbn [fst snd].
  set (req := create_agent _ _ _ _).
  destruct (on_text client (trace w) req) as [e|agent] eqn:Hans;
    cbn [of_answer].
  { intros [= <- <-]. cbn [fst snd record trace]. exists [req].
    split; [reflexivity|]. split; [|auto]. split; [|exact I].
    intros id d Hid. rewrite Hans in Hid. discriminate. }
  unfold bind at 1, modify_context at 1. cbn [fst snd].
  unfold bind at 1, lift at 1, call_text at 1. cbn [fst snd record trace log].
  assert (Hdel : forall t d,
             release_of req agent = Some d ->
             In d (deletions t (Some agent) (Some (file_ids context)))).
  { intros t d. subst req. cbn [release_of]. unfold deletions.
    destruct (truthy agent); [|discriminate]. intros [= <-].
    rewrite !in_app_iff. simpl. tauto. }
  assert (Hmono : forall t a x,
             In x (reorder_due context) ->
             In x (deletions t a (Some (file_ids context)))).
  { intros t a x. unfold reorder_due, deletions. rewrite Hagent, Hthread.
    rewrite !in_app_iff. simpl. tauto. }
  destruct (on_text client (trace w ++ [req]) threads_create) as [e|thread]
    eqn:Hans2; cbn [of_answer].
  { intros [= <- <-]. cbn [fst snd record trace]. exists [req; threads_create].
    rewrite <- app_assoc. split; [reflexivity|]. unfold reorder_due.
    cbn [file_ids agent_id thread_id]. split; [|apply Hmono]. split.
    - intros id d Hid. rewrite Hans in Hid. injection Hid as <-. apply Hdel.
    - split; [|exact I]. intros id d Hid. rewrite Hans2 in Hid. discriminate. }
  unfold modify_context. intros [= <- <-]. cbn [fst snd record trace].
  exists [req; threads_create]. rewrite <- app_assoc. split; [reflexivity|].
  unfold reorder_due. cbn [file_ids agent_id thread_id].
  split; [|apply Hmono]. split.
  - intros id d Hid. rewrite Hans in Hid. injection Hid as <-. apply Hdel.
  - split; [|exact I]. intros id d Hid. rewrite Hans2 in Hid.
    injection Hid as <-. cbn [release_of]. unfold deletions.
    destruct (truthy thread); [|discriminate]. intros [= <-]. now left.
Qed.

Lemma reorder_execute_stage l context w r st' :
  _execute_reorder_task client l (context, w) = (r, st') ->
  fst st' = context /\
  exists d,
    trace (snd st') = (trace w ++ d)%list /\ filter is_acquire d = [].
Proof.
  unfold _execute_reorder_task.
  unfold bind at 1, get_context, lift. cbn [fst snd].
  match goal with
  | |- context [bind ?a ?k w] =>
      assert (Hs : silent is_acquire (bind a k))
  end.
  { apply silent_bind; [apply silent_request; reflexivity | intros _].
    apply silent_bind; [apply silent_request; reflexivity | intros run].
    destruct (status run =? "failed"); [silence|].
    apply process_acquires_nothing. }
  destruct (Hs w) as (d & Td & Fd).
  match goal with
  | |- context [bind ?a ?k w] => destruct (bind a k w) as [res w1]
  end.
  cbn [snd] in Td. intros H.
  assert (Hst : st' = (context, w1)) by congruence. rewrite Hst.
  cbn [fst snd]. eauto.
Qed.

Lemma reorder_body_stage s l m i w r st' :
  (_prepare_reorder_files client s l ;;
   _upload_files_for_reordering client ;;
   _create_reorder_agent client ;;
   _execute_reorder_task client l) (new_context m i, w) = (r, st') ->
  exists d,
    trace (snd st') = (trace w ++ d)%list /\
    tracked client (trace w) d (reorder_due (fst st')).
Proof.
  unfold bind at 1.
  destruct (_prepare_reorder_files client s l (new_context m i, w))
    as [[[]|e] [c1 w1]] eqn:H1;
    apply reorder_prepare_stage in H1 as (Hf1 & Ha1 & Ht1 & d1 & T1 & F1);
    cbn [fst snd] in *.
  2:{ intros [= <- <-]; cbn [fst snd]. exists d1. split; [exact T1|].
      now apply tracked_silent. }
  unfold bind at 1.
  destruct (_upload_files_for_reordering client (c1, w1))
    as [[[]|e] [c2 w2]] eqn:H2;
    unfold _upload_files_for_reordering, bind at 1, get_context in H2;
    cbn [fst snd] in H2;
    apply reorder_upload_stage in H2 as (Ha2 & Ht2 & M2 & d2 & T2 & R2);
    cbn [fst snd] in *.
  2:{ intros [= <- <-]; cbn [fst snd]. exists (d1 ++ d2)%list.
      rewrite T2, T1, app_assoc. split; [reflexivity|].
      apply tracked_app; [now apply tracked_silent | now rewrite <- T1]. }
  unfold bind at 1.
  destruct (_create_reorder_agent client (c2, w2))
    as [[[]|e] [c3 w3]] eqn:H3;
    apply reorder_create_stage in H3 as (d3 & T3 & R3 & M3);
    try (rewrite ?Ha2, ?Ht2, ?Ha1, ?Ht1; reflexivity);
    cbn [fst snd] in *.
  2:{ intros [= <- <-]; cbn [fst snd]. exists (d1 ++ d2 ++ d3)%list.
      rewrite T3, T2, T1, <- !app_assoc. split; [reflexivity|].
      apply tracked_app; [now apply tracked_silent|].
      apply tracked_app.
      - rewrite <- T1. eapply tracked_weaken; [exact M3 | exact R2].
      - rewrite <- T1, <- T2. exact R3. }
  intros H4. apply reorder_execute_stage in H4 as (Hc & d4 & T4 & F4).
  exists (d1 ++ d2 ++ d3 ++ d4)%list.
  rewrite T4, T3, T2, T1, <- !app_assoc. split; [reflexivity|]. rewrite Hc.
  apply tracked_app; [now apply tracked_silent|].
  apply tracked_app.
  - rewrite <- T1. eapply tracked_weaken; [exact M3 | exact R2].
  - apply tracked_app.
    + rewrite <- T1, <- T2. exact R3.
    + now apply tracked_silent.
Qed.

Lemma reorder_release_exact (context : ReorderContext) w :
  exists temps,
    _cleanup_reorder_resources client (context, w)
    = (Return tt,
       (context,
        snd (snd (_cleanup_reorder_resources client (context, w))))) /\
    trace (snd (snd (_cleanup_reorder_resources client (context, w))))
    = (trace w ++ reorder_due context ++ temps)%list /\
    filter is_acquire temps = [].
Proof.
  unfold _cleanup_reorder_resources.
  unfold bind at 1 3 5, get_context, lift; cbn [fst snd].
  erewrite !bind_Return by apply release_run.
  match goal with
  | |- context [file_utils.cleanup_temp_files client ?ps ?w0] =>
      destruct (temps_silent client ps w0) as (temps & Tt & Ft);
      destruct (cleanup_temp_files_run client ps w0) as (w' & Hrun & _)
  end.
  rewrite Hrun in *. cbn [fst snd trace] in *.
  exists temps. split; [reflexivity|]. split; [|exact Ft].
  rewrite Tt. unfold reorder_due. now rewrite <- app_assoc.
Qed.

Lemma reorder_due_acquires_nothing context :
  filter is_acquire (reorder_due context) = [].
Proof.
  unfold reorder_due, deletions. rewrite !filter_app.
  replace (filter is_acquire (map files_delete (file_ids context)))
    with (@nil request)
    by (induction (file_ids context); simpl; auto).
  destruct (thread_id context) as [t|]; [destruct (truthy t)|];
    (destruct (agent_id context) as [a|]; [destruct (truthy a)|]);
    reflexivity.
Qed.

End Reorder_release.

(** The reorder runner leaks nothing: on every path it takes, whatever
    the service answers, each file it uploaded, the agent and the
    thread it created (when their identifier is not empty) is followed,
    later in the same run, by a request to delete it. *)
Theorem reorder_resources_are_released client s l m i w :
  exists delta,
    trace (snd (ReorderService._run_reorder_sync client s l m i w))
    = (trace w ++ delta)%list /\
    all_released client (trace w) delta.
Proof.
  unfold ReorderService._run_reorder_sync, with_context, try_finally,
    try_except.
  match goal with
  | |- context [bind ?a ?b (?c0, w)] =>
      destruct (bind a b (c0, w)) as [[res|e] [c1 w1]] eqn:Hbody
  end;
    apply reorder_body_stage in Hbody as (d1 & T1 & R1); cbn [fst snd] in *.
  - destruct (reorder_release_exact client c1 w1) as (temps & Hrun & Ttr & Ft).
    rewrite Hrun. cbn [snd]. rewrite Ttr, T1.
    exists (d1 ++ reorder_due c1 ++ temps)%list.
    split; [rewrite <- !app_assoc; reflexivity|].
    apply tracked_released with (ds := reorder_due c1); [exact R1 | |].
    + intros d Hd. apply in_or_app. now left.
    + rewrite filter_app, reorder_due_acquires_nothing. exact Ft.
  - unfold bind at 1, lift at 1, logger at 1, ret at 1. cbn [fst snd].
    match goal with
    | |- context [ReorderService._cleanup_reorder_resources client
                    (c1, ?w2)] =>
        destruct (reorder_release_exact client c1 w2)
          as (temps & Hrun & Ttr & Ft)
    end.
    rewrite Hrun. cbn [snd]. rewrite Ttr. cbn [trace]. rewrite T1.
    exists (d1 ++ reorder_due c1 ++ temps)%list.
    split; [rewrite <- !app_assoc; reflexivity|].
    apply tracked_released with (ds := reorder_due c1); [exact R1 | |].
    + intros d Hd. apply in_or_app. now left.
    + rewrite filter_app, reorder_due_acquires_nothing. exact Ft.
Qed.

(** ** Computations inside a task *)

Section Silent_in.
Variable C : Type.
Variable Q : request -> bool.

Lemma silent_in_ret {A} (P : C -> Prop) (a : A) :
  silent_in Q P P (@ret (C * world) A a).
Proof. intros s HP. exists []. simpl. now rewrite app_nil_r. Qed.

Lemma silent_in_weaken {A} (P P' R R' : C -> Prop) (c : M (C * world) A) :
  (forall c0, P' c0 -> P c0) -> (forall c0, R c0 -> R' c0) ->
  silent_in Q P R c -> silent_in Q P' R' c.
Proof.
  intros HP HR Hc s Hs. destruct (Hc s (HP _ Hs)) as (d & T & F & H).
  exists d. auto.
Qed.

Lemma silent_in_modify (P R : C -> Prop) (f : C -> C) :
  (forall c0, P c0 -> R (f c0)) -> silent_in Q P R (modify_context f).
Proof.
  intros Hf s HP. exists []. simpl. rewrite app_nil_r. auto.
Qed.

Lemma silent_in_lift {A} (P : C -> Prop) (c : M world A) :
  silent Q c -> silent_in Q P P (@lift C A c).
Proof.
  intros Hc [c0 w] HP. unfold lift. cbn [fst snd] in *.
  destruct (Hc w) as (d & T & F). destruct (c w) as [r w']. cbn [fst snd] in *.
  eauto.
Qed.

Lemma silent_in_bind {A B} (P R1 R : C -> Prop)
    (c : M (C * world) A) (k : A -> M (C * world) B) :
  silent_in Q P R1 c -> (forall a, silent_in Q R1 R (k a)) ->
  (forall c0, R1 c0 -> R c0) ->
  silent_in Q P R (bind c k).
Proof.
  intros Hc Hk HR s HP. unfold bind.
  destruct (Hc s HP) as (d1 & T1 & F1 & H1).
  destruct (c s) as [[a|e] s1]; cbn [fst snd] in *.
  - destruct (Hk a s1 H1) as (d2 & T2 & F2 & H2).
    exists (d1 ++ d2)%list. rewrite T2, T1, app_assoc, filter_app, F1, F2.
    auto.
  - exists d1. auto.
Qed.

Lemma silent_in_get {B} (P R : C -> Prop) (k : C -> M (C * world) B) :
  (forall c0, P c0 -> silent_in Q (fun c1 => c1 = c0) R (k c0)) ->
  silent_in Q P R (bind get_context k).
Proof.
  intros Hk s HP. unfold bind, get_context.
  exact (Hk (fst s) HP s eq_refl).
Qed.

Lemma silent_in_try_except {A} (P R1 R : C -> Prop) (c : M (C * world) A) h :
  silent_in Q P R1 c -> (forall e, silent_in Q R1 R (h e)) ->
  (forall c0, R1 c0 -> R c0) ->
  silent_in Q P R (try_except c h).
Proof.
  intros Hc Hh HR s HP. unfold try_except.
  destruct (Hc s HP) as (d1 & T1 & F1 & H1).
  destruct (c s) as [[a|e] s1]; cbn [fst snd] in *.
  - exists d1. auto.
  - destruct (Hh e s1 H1) as (d2 & T2 & F2 & H2).
    exists (d1 ++ d2)%list. rewrite T2, T1, app_assoc, filter_app, F1, F2.
    auto.
Qed.

Lemma silent_in_try_finally {A} (P R1 R : C -> Prop) (c : M (C * world) A) f :
  silent_in Q P R1 c -> silent_in Q R1 R f ->
  silent_in Q P R (try_finally c f).
Proof.
  intros Hc Hf s HP. unfold try_finally.
  destruct (Hc s HP) as (d1 & T1 & F1 & H1).
  destruct (c s) as [r s1]. cbn [fst snd] in *.
  destruct (Hf s1 H1) as (d2 & T2 & F2 & H2).
  exists (d1 ++ d2)%list.
  destruct (f s1) as [[[]|e] s2]; cbn [fst snd] in *;
    rewrite T2, T1, app_assoc, filter_app, F1, F2; auto.
Qed.

Lemma silent_in_for_each {A} (I : C -> Prop) (xs : list A)
    (body : A -> M (C * world) unit) :
  (forall x, silent_in Q I I (body x)) -> silent_in Q I I (for_each xs body).
Proof.
  intros Hbody. induction xs as [|x xs IH]; simpl.
  - apply silent_in_ret.
  - eapply silent_in_bind; [apply Hbody | intros _; apply IH | auto].
Qed.

Lemma silent_with_context {A} (P R : C -> Prop) (c0 : C)
    (body : M (C * world) A) :
  P c0 -> silent_in Q P R body -> silent Q (with_context c0 body).
Proof.
  intros H0 Hb w. unfold with_context.
  destruct (Hb (c0, w) H0) as (d & T & F & _).
  destruct (body (c0, w)) as [r s']. cbn [snd] in *. eauto.
Qed.

Lemma since_silent {A} (c : M world A) w :
  silent Q c -> filter Q (since w (snd (c w))) = [].
Proof.
  intros Hc. destruct (Hc w) as (d & T & F). unfold since.
  rewrite T, skipn_app, skipn_all, Nat.sub_diag. exact F.
Qed.
End Silent_in.

(** ** The names of the reordered files *)

Lemma prefix_split (p s : string) :
  String.prefix p s = true -> exists rest, s = p ++ rest.
Proof.
  revert s. induction p as [|c p IH]; intros s H.
  - now exists s.
  - destruct s as [|c' s]; [discriminate|]. simpl in H.
    destruct (Ascii.ascii_dec c c') as [<-|]; [|discriminate].
    destruct (IH s H) as [rest ->]. now exists rest.
Qed.

Lemma prefix_append (p rest : string) : String.prefix p (p ++ rest) = true.
Proof.
  induction p as [|c p IH]; simpl; [now destruct rest|].
  destruct (Ascii.ascii_dec c c); [exact IH | contradiction].
Qed.

Lemma append_assoc (a b c : string) : (a ++ b) ++ c = a ++ b ++ c.
Proof. induction a as [|x a IH]; simpl; [reflexivity | now rewrite IH]. Qed.

Lemma string_of_uint_digits (u : Decimal.uint) :
  all_digits (NilEmpty.string_of_uint u) = true.
Proof. induction u; simpl; auto. Qed.

Lemma digits_then_stop (a : string) : forall (b : string) c d r1 r2,
  all_digits a = true -> all_digits b = true ->
  is_digit c = false -> is_digit d = false ->
  a ++ String c r1 = b ++ String d r2 -> a = b.
Proof.
  induction a as [|x a IH]; intros [|y b] c d r1 r2 Ha Hb Hc Hd H;
    cbn [append all_digits] in *.
  - reflexivity.
  - injection H as -> _. apply andb_prop in Hb as [Hy _]. congruence.
  - injection H as <- _. apply andb_prop in Ha as [Hx _]. congruence.
  - injection H as -> H. apply andb_prop in Ha as [_ Ha].
    apply andb_prop in Hb as [_ Hb]. f_equal.
    exact (IH b c d r1 r2 Ha Hb Hc Hd H).
Qed.

Lemma model_prefix_free (i j : nat) (s : string) :
  startswith s (model_prefix i) = true ->
  startswith s (model_prefix j) = true -> i = j.
Proof.
  unfold startswith, model_prefix. intros Hi Hj.
  apply prefix_split in Hi as [r1 H1]. apply prefix_split in Hj as [r2 H2].
  rewrite H1 in H2. simpl in H2. injection H2 as H2.
  rewrite !append_assoc in H2. simpl in H2.
  apply str_int_inj.
  eapply digits_then_stop; [| | | | exact H2];
    first [apply string_of_uint_digits | reflexivity].
Qed.

Section Reorder_saves.
Import ReorderService.
Variable client : Env.

Lemma copy_saves_nothing i files : forall temp_files,
  silent (saves_outside i)
    (file_utils.copy_files_to_temp_loop client files temp_files).
Proof.
  induction files as [|[source temp] files IH]; intros temp_files;
    cbn [file_utils.copy_files_to_temp_loop].
  - apply silent_ret.
  - apply silent_bind; [apply silent_request; reflexivity | intros found].
    destruct (negb found); [apply silent_raise|].
    apply silent_bind; [apply silent_request; reflexivity | intros _; apply IH].
Qed.

Lemma temps_save_nothing i paths :
  silent (saves_outside i) (file_utils.cleanup_temp_files client paths).
Proof.
  unfold file_utils.cleanup_temp_files.
  apply silent_for_each. intros path.
  apply silent_try_except; [|intros e; apply silent_logger].
  apply silent_bind; [apply silent_request; reflexivity | intros found].
  destruct found; [apply silent_request; reflexivity | apply silent_ret].
Qed.

Lemma release_saves_nothing i thread agent files m :
  silent (saves_outside i)
    (BaseAgentService._cleanup_agent_resources (Some client) thread agent
       files m).
Proof.
  intros w. rewrite release_run. cbn [snd trace].
  exists (deletions thread agent files). split; [reflexivity|].
  unfold deletions. rewrite !filter_app.
  replace (filter (saves_outside i)
             match files with Some fs => map files_delete fs | None => [] end)
    with (@nil request)
    by (destruct files as [fs|]; [induction fs; simpl; auto | reflexivity]).
  destruct thread as [t|]; [destruct (truthy t)|];
    (destruct agent as [a|]; [destruct (truthy a)|]); reflexivity.
Qed.

Lemma process_saves_inside context legacy_path :
  silent (saves_outside (model_index context))
    (_process_reorder_results client context legacy_path).
Proof.
  unfold _process_reorder_results.
  apply silent_bind; [apply silent_request; reflexivity | intros messages].
  cbv zeta. apply silent_bind.
  - apply silent_for_fold. intros reordered msg.
    destruct (role msg); [apply silent_ret|].
    destruct (file_path_annotations msg) as [annotations|]; [|apply silent_ret].
    apply silent_for_fold. intros reordered' annotation.
    unfold _process_single_reordered_file. cbv zeta.
    apply silent_bind.
    + apply silent_request. cbn [saves_outside]. unfold startswith.
      change ("model_" ++ str_int (model_index context) ++ "_" ++ ?b)
        with ("model_" ++ str_int (model_index context) ++ "_" ++ b).
      replace ("model_" ++ str_int (model_index context) ++ "_"
               ++ last_segment (lower_str (annotation_text annotation)) "/")
        with (model_prefix (model_index context)
              ++ last_segment (lower_str (annotation_text annotation)) "/")
        by (unfold model_prefix; now rewrite !append_assoc).
      now rewrite prefix_append.
    + intros _. apply silent_bind.
      * destruct (negb _); [apply silent_request; reflexivity | apply silent_ret].
      * intros _. apply silent_bind; [apply silent_request; reflexivity|].
        intros content. apply silent_ret.
  - intros reordered. destruct (Nat.eqb _ _); apply silent_ret.
Qed.

Lemma runner_saves_inside s l m i :
  silent (saves_outside i) (_run_reorder_sync client s l m i).
Proof.
  unfold _run_reorder_sync.
  set (I := fun c : ReorderContext => model_index c = i).
  apply silent_with_context with (P := I) (R := I); [reflexivity|].
  apply silent_in_try_finally with (R1 := I).
  - apply silent_in_try_except with (R1 := I); [| |auto].
    2:{ intros e. eapply silent_in_bind;
          [apply silent_in_lift, silent_logger
          | intros _; apply silent_in_ret | auto]. }
    eapply silent_in_bind with (R1 := I); [| |auto].
    { unfold _prepare_reorder_files. apply silent_in_get. intros c0 H0.
      eapply silent_in_bind;
        [apply silent_in_lift, copy_saves_nothing | | ].
      - intros copied. apply silent_in_modify. now intros c1 ->.
      - now intros c1 ->. }
    intros _. eapply silent_in_bind with (R1 := I); [| |auto].
    { unfold _upload_files_for_reordering. apply silent_in_get. intros c0 H0.
      apply silent_in_weaken with (P := I) (R := I); [now intros c1 -> | auto|].
      apply silent_in_for_each. intros path. cbv zeta.
      eapply silent_in_bind;
        [apply silent_in_lift, silent_request; reflexivity | | auto].
      intros file. apply silent_in_modify. auto. }
    intros _. eapply silent_in_bind with (R1 := I); [| |auto].
    { unfold _create_reorder_agent. apply silent_in_get. intros c0 H0.
      apply silent_in_weaken with (P := I) (R := I); [now intros c1 -> | auto|].
      eapply silent_in_bind;
        [apply silent_in_lift, silent_request; reflexivity | | auto].
      intros agent. eapply silent_in_bind;
        [apply silent_in_modify with (R := I); auto | | auto].
      intros _. eapply silent_in_bind;
        [apply silent_in_lift, silent_request; reflexivity | | auto].
      intros thread. apply silent_in_modify. auto. }
    intros _. unfold _execute_reorder_task. apply silent_in_get.
    intros c0 H0.
    apply silent_in_weaken with (P := I) (R := I); [now intros c1 -> | auto|].
    apply silent_in_lift.
    apply silent_bind; [apply silent_request; reflexivity | intros _].
    apply silent_bind; [apply silent_request; reflexivity | intros run].
    destruct (status run =? "failed"); [silence|].
    rewrite <- H0. apply process_saves_inside.
  - unfold _cleanup_reorder_resources. apply silent_in_get. intros c0 H0.
    apply silent_in_weaken with (P := I) (R := I); [now intros c1 -> | auto|].
    apply silent_in_lift.
    apply silent_bind; [apply release_saves_nothing | intros _].
    apply temps_save_nothing.
Qed.
End Reorder_saves.

Lemma saved_names_inside i delta n :
  filter (saves_outside i) delta = [] ->
  In n (saved_names delta) -> startswith n (model_prefix i) = true.
Proof.
  induction delta as [|r delta IH]; [intros _ []|].
  cbn [filter saved_names flat_map].
  destruct (saves_outside i r) eqn:Hr; [discriminate|].
  intros Hf Hin. apply in_app_or in Hin as [Hin|Hin]; [|now apply IH].
  destruct r; try contradiction. destruct Hin as [<-|[]].
  cbn [saves_outside] in Hr. now apply negb_false_iff in Hr.
Qed.

(** Two reorder tasks with different model indices never save a
    downloaded file under the same name: the task with index [i] saves
    every file under a name that starts with [model_i_], and no name
    starts with the prefixes of two indices. *)
Theorem reordered_files_never_clash :
  forall (client client' : Env) (s l m s' l' m' : string) (i j : nat)
         (w w' : world) (n : string),
    i <> j ->
    In n (saved_names
            (since w (snd (ReorderService._run_reorder_sync client s l m i w)))) ->
    startswith n (model_prefix i) = true /\
    ~ In n (saved_names
              (since w' (snd (ReorderService._run_reorder_sync client' s' l' m'
                                j w')))).
Proof.
  intros client client' s l m s' l' m' i j w w' n Hne Hin.
  assert (Hi : startswith n (model_prefix i) = true).
  { eapply saved_names_inside; [|exact Hin].
    apply since_silent, runner_saves_inside. }
  split; [exact Hi|]. intros Hin'.
  apply Hne, (@model_prefix_free i j n Hi).
  eapply saved_names_inside; [|exact Hin'].
  apply since_silent, runner_saves_inside.
Qed.

Lemma reordered_files_never_clash_witness :
  In "model_1_row_location.csv"
     (saved_names
        (since empty_world
           (snd (ReorderService._run_reorder_sync productive "/data/s.csv"
                   "/data/l.csv" "gpt-4" 1 empty_world)))) /\
  startswith "model_1_row_location.csv" (model_prefix 1) = true /\
  ~ In "model_1_row_location.csv"
      (saved_names
         (since empty_world
            (snd (ReorderService._run_reorder_sync productive "/data/s.csv"
                    "/data/l.csv" "gpt-4.1" 2 empty_world)))).
Proof.
  assert (H : In "model_1_row_location.csv"
     (saved_names
        (since empty_world
           (snd (ReorderService._run_reorder_sync productive "/data/s.csv"
                   "/data/l.csv" "gpt-4" 1 empty_world)))))
    by (vm_compute; auto).
  split; [exact H|].
  apply (@reordered_files_never_clash productive productive "/data/s.csv"
           "/data/l.csv" "gpt-4" "/data/s.csv" "/data/l.csv" "gpt-4.1" 1 2
           empty_world empty_world "model_1_row_location.csv");
    [discriminate | exact H].
Defined.

(** ** Removing the files of the models that lost *)

Lemma since_app (w w' : world) delta :
  trace w' = (trace w ++ delta)%list -> since w w' = delta.
Proof.
  intros H. unfold since. now rewrite H, skipn_app, skipn_all, Nat.sub_diag.
Qed.

Ltac flatten_trace :=
  repeat match goal with
         | w := record _ _ |- _ => subst w
         end;
  cbn [fst snd record trace]; rewrite <- ?app_assoc.

Ltac settle :=
  repeat (apply Forall_cons;
          [first [left; reflexivity | right; left; reflexivity
                 | right; right; reflexivity]|]);
  apply Forall_nil.

Section Cleanup_non_winning.
Import ReorderService.
Variable self : service.
Variable target_dir : string.
Variable prefix : string.

Let discard (file_name : string) : M world unit :=
  if negb (startswith file_name prefix)
  then
    try_except
      (call_effect (environment self)
         (os_remove (path_join target_dir file_name)))
      (fun e =>
         logger ERROR ("Error removing file " ++ file_name ++ ": "
                       ++ str_exn e))
  else ret tt.

Let promote (file_name : string) : M world unit :=
  let old_path := path_join target_dir file_name in
  let new_name := replace_str file_name prefix "" in
  let new_path := path_join target_dir new_name in
  found <- call_test (environment self) (os_path_exists new_path) ;;
  (if found then call_effect (environment self) (os_remove new_path)
   else ret tt) ;;
  call_effect (environment self) (os_rename old_path new_path).

Lemma discard_loop files : forall w,
  exists w',
    for_each files discard w = (Return tt, w') /\
    trace w'
    = (trace w
       ++ map (discarded target_dir)
            (filter (fun f => negb (startswith f prefix)) files))%list.
Proof.
  induction files as [|f files IH]; intros w; cbn [for_each filter map].
  - exists w. split; [reflexivity | now rewrite app_nil_r].
  - unfold bind at 1, discard at 1.
    destruct (negb (startswith f prefix)).
    + unfold try_except, call_effect, logger.
      destruct (on_effect (environment self) (trace w) _);
        match goal with
        | |- context [for_each files discard ?w1] =>
            destruct (IH w1) as (w' & Hrun & Ht)
        end;
        exists w'; rewrite Hrun, Ht; cbn [record trace map];
        now rewrite <- app_assoc.
    + unfold ret. destruct (IH w) as (w' & Hrun & Ht). exists w'.
      now rewrite Hrun, Ht.
Qed.

Lemma promote_loop files : forall w r w',
  for_each files promote w = (r, w') ->
  exists rest,
    trace w' = (trace w ++ rest)%list /\
    (r = Return tt ->
     filter is_rename rest = map (promoted target_dir prefix) files) /\
    (forall q, In q rest ->
       exists f, In f files /\
         (q = promoted target_dir prefix f \/
          q = os_remove (path_join target_dir (replace_str f prefix "")) \/
          q = os_path_exists
                (path_join target_dir (replace_str f prefix "")))).
Proof.
  induction files as [|f files IH]; intros w r w'; cbn [for_each].
  - unfold ret. intros [= <- <-]. exists []. cbn. rewrite app_nil_r.
    repeat split; auto. intros q [].
  - unfold bind at 1, promote at 1. cbv zeta.
    unfold bind at 1, call_test at 1. cbn [fst snd].
    set (new_path := path_join target_dir (replace_str f prefix "")).
    set (old_path := path_join target_dir f).
    set (w1 := record (os_path_exists new_path) w).
    assert (Hin : forall (q : request) (rs : list request),
               Forall (fun q => q = promoted target_dir prefix f \/
                                q = os_remove new_path \/
                                q = os_path_exists new_path) rs ->
               forall rest,
               (forall q, In q rest ->
                  exists f0, In f0 files /\
                    (q = promoted target_dir prefix f0 \/
                     q = os_remove
                           (path_join target_dir (replace_str f0 prefix "")) \/
                     q = os_path_exists
                           (path_join target_dir (replace_str f0 prefix "")))) ->
               In q (rs ++ rest)%list ->
               exists f0, In f0 (f :: files) /\
                 (q = promoted target_dir prefix f0 \/
                  q = os_remove
                        (path_join target_dir (replace_str f0 prefix "")) \/
                  q = os_path_exists
                        (path_join target_dir (replace_str f0 prefix "")))).
    { intros q rs Hrs rest Hrest Hq. apply in_app_or in Hq as [Hq|Hq].
      - rewrite Forall_forall in Hrs. exists f. split; [now left|].
        now apply Hrs.
      - destruct (Hrest q Hq) as (f0 & Hf0 & H). exists f0.
        split; [now right | exact H]. }
    destruct (on_test (environment self) (trace w) (os_path_exists new_path)).
    + unfold bind at 1, call_effect at 1. cbn [fst snd].
      destruct (on_effect (environment self) (trace w1) (os_remove new_path)).
      { intros [= <- <-].
        exists [os_path_exists new_path; os_remove new_path].
        flatten_trace.
        split; [reflexivity|]. split; [discriminate|].
        intros q Hq. apply (Hin q [os_path_exists new_path; os_remove new_path]) with (rest := []);
          [settle | intros ? [] | rewrite app_nil_r; exact Hq]. }
      cbv beta iota. unfold call_effect at 1.
      set (w2 := record (os_remove new_path) w1).
      destruct (on_effect (environment self) (trace w2)
                  (os_rename old_path new_path)).
      { intros [= <- <-].
        exists [os_path_exists new_path; os_remove new_path;
                os_rename old_path new_path].
        flatten_trace.
        split; [reflexivity|]. split; [discriminate|].
        intros q Hq. apply (Hin q [os_path_exists new_path; os_remove new_path;
                os_rename old_path new_path]) with (rest := []);
          [settle | intros ? [] | rewrite app_nil_r; exact Hq]. }
      intros H. apply IH in H as (rest & Ht & Hret & Hall).
      exists ([os_path_exists new_path; os_remove new_path;
               os_rename old_path new_path]
              ++ rest)%list.
      rewrite Ht. flatten_trace.
      split; [reflexivity|]. split.
      * intros Hr. cbn [app filter is_rename map]. now rewrite (Hret Hr).
      * intros q Hq. apply (Hin q [os_path_exists new_path; os_remove new_path;
               os_rename old_path new_path]) with (rest := rest);
          [settle | assumption | exact Hq].
    + unfold bind at 1, ret at 1. cbn [fst snd].
      unfold call_effect at 1.
      destruct (on_effect (environment self) (trace w1)
                  (os_rename old_path new_path)).
      { intros [= <- <-].
        exists [os_path_exists new_path; os_rename old_path new_path].
        flatten_trace.
        split; [reflexivity|]. split; [discriminate|].
        intros q Hq. apply (Hin q [os_path_exists new_path; os_rename old_path new_path]) with (rest := []);
          [settle | intros ? [] | rewrite app_nil_r; exact Hq]. }
      intros H. apply IH in H as (rest & Ht & Hret & Hall).
      exists ([os_path_exists new_path; os_rename old_path new_path]
              ++ rest)%list.
      rewrite Ht. flatten_trace.
      split; [reflexivity|]. split.
      * intros Hr. cbn [app filter is_rename map]. now rewrite (Hret Hr).
      * intros q Hq. apply (Hin q [os_path_exists new_path; os_rename old_path new_path]) with (rest := rest);
          [settle | assumption | exact Hq].
Qed.
End Cleanup_non_winning.

(** [_cleanup_non_winning_files], once the directory is listed: of the
    listed files that look like a model's ([model_*.csv]), every one
    without the winner's prefix is asked to be removed, in listing
    order, whether or not a removal fails; after that only the
    winner's files are touched: a cleanup that returns has renamed each
    of them, in listing order, to its name without the prefix, and the
    only other requests are the test for, and the removal of, a file
    already at such a new name. *)
Theorem losers_are_removed_and_winners_renamed :
  forall (self : ReorderService.service) (source_path winning_model : string)
         (position : nat) (listing : list string) (w : world),
    index (ReorderService.model_deployments self) winning_model
    = Some position ->
    on_lines (ReorderService.environment self) (trace w)
      (os_listdir (dirname source_path)) = inr listing ->
    let target_dir := dirname source_path in
    let prefix := model_prefix (position + 1) in
    let model_files := filter is_model_file listing in
    let losers := filter (fun f => negb (startswith f prefix)) model_files in
    let winners := filter (fun f => startswith f prefix) model_files in
    let run := ReorderService._cleanup_non_winning_files self source_path
                 winning_model w in
    exists rest,
      since w (snd run)
      = (os_listdir target_dir :: map (discarded target_dir) losers ++ rest)%list
      /\ (fst run = Return tt ->
          filter is_rename rest = map (promoted target_dir prefix) winners)
      /\ (forall r, In r rest ->
            exists f, In f winners /\
              (r = promoted target_dir prefix f \/
               r = os_remove (path_join target_dir (replace_str f prefix "")) \/
               r = os_path_exists
                     (path_join target_dir (replace_str f prefix "")))).
Proof.
  intros self source_path winning_model position listing w Hindex Hlist.
  cbv zeta.
  destruct (ReorderService._cleanup_non_winning_files self source_path
              winning_model w) as [r w'] eqn:Hrun.
  cbn [fst snd]. revert Hrun.
  unfold ReorderService._cleanup_non_winning_files.
  rewrite Hindex. cbv zeta.
  unfold bind at 1, call_lines at 1. rewrite Hlist. cbn [of_answer fst snd].
  unfold bind at 1.
  match goal with
  | |- context [for_each ?fs ?body (record ?q w)] =>
      destruct (@discard_loop self (dirname source_path)
                  (model_prefix (position + 1)) fs (record q w))
        as (w1 & Hrun & Ht)
  end.
  unfold model_prefix in *. cbv zeta in Hrun. rewrite Hrun.
  intros H.
  apply (@promote_loop self (dirname source_path)
           ("model_" ++ str_int (position + 1) ++ "_")) in H
    as (rest & Ht2 & Hret & Hall).
  exists rest. split; [|split].
  - apply since_app. rewrite Ht2, Ht. cbn [record trace].
    now rewrite <- !app_assoc.
  - exact Hret.
  - exact Hall.
Qed.

Lemma losers_are_removed_and_winners_renamed_witness :
  exists rest,
    since empty_world
      (snd (ReorderService._cleanup_non_winning_files reorder_over_crowded
              "/data/source.csv" "gpt-4o" empty_world))
    = (os_listdir "/data"
       :: [os_remove "/data/model_1_source_data_reordered.csv";
           os_remove "/data/model_10_source_data_reordered.csv"] ++ rest)%list
    /\ filter is_rename rest
       = [os_rename "/data/model_2_source_data_reordered.csv"
            "/data/source_data_reordered.csv";
          os_rename "/data/model_2_legacy_etl_output_reordered.csv"
            "/data/legacy_etl_output_reordered.csv"].
Proof.
  destruct (@losers_are_removed_and_winners_renamed reorder_over_crowded
              "/data/source.csv" "gpt-4o" 1
              ["model_1_source_data_reordered.csv";
               "model_2_source_data_reordered.csv";
               "notes.txt";
               "model_2_legacy_etl_output_reordered.csv";
               "model_10_source_data_reordered.csv"]
              empty_world eq_refl eq_refl) as (rest & Hs & Hr & _).
  exists rest. split; [exact Hs | exact (Hr eq_refl)].
Defined.

(** ** The prefix of the winner's files *)

Lemma replace_after_match (p b old new : string) : forall n,
  String.length p = n ->
  replace_str_from (p ++ b) old new n = replace_str_from b old new 0.
Proof.
  induction p as [|c p IH]; intros n Hn; cbn in Hn; subst n.
  - reflexivity.
  - cbn [append replace_str_from]. now apply IH.
Qed.

Lemma replace_without_occurrence (b old new : string) :
  contains b old = false -> replace_str_from b old new 0 = b.
Proof.
  induction b as [|c b IH]; intros H; [reflexivity|].
  cbn [contains] in H. apply orb_false_iff in H as [Hp Hc].
  cbn [replace_str_from]. rewrite Hp. now rewrite (IH Hc).
Qed.

(** Naming a downloaded file for the task with index [i] and renaming
    it when that task wins are inverse to each other: a file saved as
    [model_i_] followed by [base] is renamed to [base], provided
    [base] does not itself contain [model_i_]. *)
Theorem winner_gets_its_plain_name :
  forall (target_dir base : string) (i : nat),
    contains base (model_prefix i) = false ->
    promoted target_dir (model_prefix i) (model_prefix i ++ base)
    = os_rename (path_join target_dir (model_prefix i ++ base))
        (path_join target_dir base).
Proof.
  intros target_dir base i H. unfold promoted. f_equal. f_equal.
  unfold replace_str.
  assert (Hp : exists c p, model_prefix i = String c p)
    by (unfold model_prefix; simpl; eauto).
  destruct Hp as (c & p & Hp).
  pose proof (prefix_append (model_prefix i) base) as Hpre.
  rewrite Hp in *. cbn [append replace_str_from]. cbn [append] in Hpre.
  rewrite Hpre. cbn [String.length].
  rewrite (Nat.sub_succ (String.length p) 0), Nat.sub_0_r.
  rewrite replace_after_match by reflexivity.
  now apply replace_without_occurrence.
Qed.

Lemma winner_gets_its_plain_name_witness :
  contains "source_data_reordered.csv" (model_prefix 2) = false /\
  promoted "/data" (model_prefix 2)
    (model_prefix 2 ++ "source_data_reordered.csv")
  = os_rename "/data/model_2_source_data_reordered.csv"
      "/data/source_data_reordered.csv".
Proof.
  split; [reflexivity|].
  exact (@winner_gets_its_plain_name "/data" "source_data_reordered.csv" 2
           eq_refl).
Defined.

(** ** The samples shown to the reorder arbiter *)

Section Samples.
Import ReorderService.
Variable self : service.

Lemma read_file_sample_run file_path num_lines w :
  exists s w',
    _read_file_sample self file_path num_lines w = (Return s, w') /\
    trace w' = (trace w ++ [read_first_lines file_path num_lines])%list.
Proof.
  unfold _read_file_sample, bind at 1, file_utils.read_file_lines,
    try_except, bind at 1, call_lines.
  destruct (on_lines (environment self) (trace w) _) as [e|lines];
    cbn [of_answer].
  - unfold bind, logger, ret. cbn. eauto.
  - unfold ret at 1. destruct (map (strip self) lines); unfold ret; eauto.
Qed.

Lemma samples_loop target_dir (items : dict string) : forall start parts w,
  exists parts' w',
    for_fold (enumerate items start) parts
      (fun parts '(i, (model, _)) =>
         let parts :=
           app parts [nl ++ "=== MODEL " ++ str_int i ++ " (" ++ model ++ ") ==="] in
         let source_file :=
           path_join target_dir
             ("model_" ++ str_int i ++ "_source_data_reordered.csv") in
         let legacy_file :=
           path_join target_dir
             ("model_" ++ str_int i ++ "_legacy_etl_output_reordered.csv") in
         try_except
           (source_sample <- _read_file_sample self source_file CSV_SAMPLE_LINES ;;
            legacy_sample <- _read_file_sample self legacy_file CSV_SAMPLE_LINES ;;
            ret (app parts
                   [nl ++ "SOURCE REORDERED:" ++ nl ++ source_sample ++ nl;
                    "LEGACY ETL OUTPUT REORDERED:" ++ nl ++ legacy_sample ++ nl]))
           (fun e =>
              logger ERROR ("Error reading reordered files for model " ++ model
                            ++ ": " ++ str_exn e) ;;
              ret (app parts [" ERROR READING FILES" ++ nl]))) w
    = (Return parts', w') /\
    trace w'
    = (trace w
       ++ flat_map (sample_reads target_dir) (seq start (length items)))%list.
Proof.
  induction items as [|[model v] items IH]; intros start parts w;
    cbn [enumerate for_fold length seq flat_map].
  - unfold ret. do 2 eexists. split; [reflexivity | now rewrite app_nil_r].
  - unfold bind at 1. cbv zeta. unfold try_except at 1, bind at 1.
    destruct (read_file_sample_run
                (path_join target_dir
                   ("model_" ++ str_int start ++ "_source_data_reordered.csv"))
                CSV_SAMPLE_LINES w) as (s1 & w1 & -> & T1).
    unfold bind at 1.
    destruct (read_file_sample_run
                (path_join target_dir
                   ("model_" ++ str_int start
                    ++ "_legacy_etl_output_reordered.csv"))
                CSV_SAMPLE_LINES w1) as (s2 & w2 & -> & T2).
    unfold ret at 1.
    match goal with
    | |- context [for_fold _ ?acc _ w2] =>
        destruct (IH (S start) acc w2) as (parts' & w' & Hrun & T)
    end.
    exists parts', w'. split; [exact Hrun|].
    rewrite T, T2, T1. unfold sample_reads at 2. cbn [app].
    now rewrite <- !app_assoc.
Qed.
End Samples.

(** [_build_comparison_data] never raises, and the only requests it
    makes are the reads of two sample files per kept output: for the
    output at rank [i] of the mapping (counted from 1) it reads
    [model_i_source_data_reordered.csv] and
    [model_i_legacy_etl_output_reordered.csv] in the directory of the
    source file, whatever the deployment the output came from. *)
Theorem samples_are_numbered_by_rank :
  forall (self : ReorderService.service) (source_path source_head : string)
         (model_outputs : dict string) (w : world),
    exists data w',
      ReorderService._build_comparison_data self source_path source_head
        model_outputs w = (Return data, w') /\
      since w w'
      = flat_map (sample_reads (dirname source_path))
          (seq 1 (len model_outputs)).
Proof.
  intros self source_path source_head model_outputs w.
  pose proof (@samples_loop self (dirname source_path) model_outputs 1
                ["ORIGINAL SOURCE FILE (first "
                 ++ str_int ReorderService.CSV_HEAD_LINES ++ " lines):"
                 ++ nl ++ source_head ++ nl] w) as H.
  unfold ReorderService._build_comparison_data. cbv zeta in H |- *.
  destruct H as (parts' & w' & Hrun & T).
  unfold bind at 1. rewrite Hrun. unfold ret. do 2 eexists.
  split; [reflexivity|]. now apply since_app.
Qed.

(** ** The rank of a kept output *)

Lemma setitem_fresh {V} (d : dict V) k v :
  ~ In k (keys d) -> setitem d k v = (d ++ [(k, v)])%list.
Proof.
  induction d as [|[k' v'] d IH]; intros H; [reflexivity|].
  cbn [setitem]. destruct (k' =? k) eqn:E.
  - apply String.eqb_eq in E. subst. exfalso. apply H. now left.
  - cbn [app]. f_equal. apply IH. intros Hin. apply H. now right.
Qed.

Lemma kept_fresh pairs : forall acc,
  NoDup (map fst pairs) ->
  (forall k, In k (map fst pairs) -> ~ In k (keys acc)) ->
  kept pairs acc = (acc ++ successes pairs)%list.
Proof.
  induction pairs as [|[k res] pairs IH]; intros acc Hnd Hacc.
  - cbn. now rewrite app_nil_r.
  - inversion Hnd as [|? ? Hk Hnd']; subst.
    assert (Hrest : forall k0, In k0 (map fst pairs) -> ~ In k0 (keys acc))
      by (intros k0 H0; apply Hacc; now right).
    cbn [kept successes flat_map]. destruct res as [s|e].
    + cbn [failed]. destruct (startswith s "Error:"); cbn [negb].
      * now apply IH.
      * rewrite setitem_fresh by (apply Hacc; now left).
        rewrite IH; [now rewrite <- app_assoc | exact Hnd' |].
        intros k0 H0 Hin. unfold keys in Hin. rewrite map_app in Hin.
        apply in_app_or in Hin as [Hin|Hin]; [now apply (Hrest k0)|].
        cbn in Hin. destruct Hin as [<-|[]]. contradiction.
    + now apply IH.
Qed.

Lemma keys_successes_in (names : list string) :
  forall (results : list (outcome string)) m,
    In m (keys (successes (zip names results))) -> In m names.
Proof.
  induction names as [|n names IH]; intros [|res results] m H;
    cbn in H; try contradiction.
  unfold keys in H. rewrite map_app in H. apply in_app_or in H as [H|H].
  - left. destruct res as [s|e]; [|contradiction].
    destruct (failed (Return s)); [contradiction|].
    cbn in H. now destruct H.
  - right. now apply (IH results).
Qed.

Lemma rank_in_successes (names : list string) :
  forall (results : list (outcome string)) m r p,
    NoDup names ->
    nth_error (keys (successes (zip names results))) r = Some m ->
    index names m = Some p ->
    (r + length (filter failed (firstn p results)) = p)%nat.
Proof.
  induction names as [|n names IH]; intros results m r p Hnd Hr Hp.
  - discriminate.
  - destruct results as [|res results]; [now destruct r|].
    inversion Hnd as [|? ? Hn Hnd']; subst.
    cbn [zip combine successes flat_map] in Hr. cbn [index] in Hp.
    fold (zip names results) in Hr.
    change (flat_map _ (zip names results))
      with (successes (zip names results)) in Hr.
    unfold keys in Hr. rewrite map_app in Hr.
    fold (keys (successes (zip names results))) in Hr.
    destruct (n =? m) eqn:Enm.
    + apply String.eqb_eq in Enm. subst n. injection Hp as <-.
      cbn [firstn filter length]. rewrite Nat.add_0_r.
      assert (Hout : forall r0,
                 nth_error (keys (successes (zip names results))) r0
                 <> Some m).
      { intros r0 H0. apply Hn. eapply keys_successes_in, nth_error_In.
        exact H0. }
      destruct res as [s|e]; [destruct (failed (Return s))|];
        cbn [map app] in Hr.
      * now apply Hout in Hr.
      * destruct r as [|r]; [reflexivity|]. cbn in Hr. now apply Hout in Hr.
      * now apply Hout in Hr.
    + destruct (index names m) as [p'|] eqn:Hp'; [|discriminate].
      injection Hp as <-. cbn [firstn filter].
      apply String.eqb_neq in Enm.
      destruct res as [s|e]; [destruct (failed (Return s)) eqn:Hf|].
      * cbn [map app] in Hr. cbn [length].
        specialize (IH results m r p' Hnd' Hr Hp'). lia.
      * cbn [map app fst] in Hr. destruct r as [|r].
        { cbn in Hr. congruence. }
        cbn [nth_error] in Hr.
        specialize (IH results m r p' Hnd' Hr Hp'). lia.
      * cbn [map app failed] in Hr. cbn [failed length].
        specialize (IH results m r p' Hnd' Hr Hp'). lia.
Qed.

(** In the mapping the reorder fan-out builds, over deployments with
    pairwise distinct names, the rank of a kept model is its position
    among the deployments less the number of failed results before
    it.  So the number under which [_build_comparison_data] looks for
    the model's samples is the index its task saved them under exactly
    when no earlier deployment failed. *)
Theorem kept_rank_lags_behind_failures :
  forall (self : ReorderService.service) (results : list (outcome string))
         (w w' : world) (model_outputs : dict string) (m : string)
         (r p : nat),
    NoDup (ReorderService.model_deployments self) ->
    ReorderService.collect self results w = (Return model_outputs, w') ->
    nth_error (keys model_outputs) r = Some m ->
    index (ReorderService.model_deployments self) m = Some p ->
    (r + length (filter failed (firstn p results)) = p)%nat.
Proof.
  intros self results w w' d m r p Hnd Hrun Hr Hp.
  destruct (reorder_collect_run self results w) as (w1 & Hrun1 & _).
  rewrite Hrun1 in Hrun. injection Hrun as <- _.
  rewrite kept_fresh in Hr.
  - cbn [app] in Hr. eapply rank_in_successes; eassumption.
  - now apply zip_names_NoDup.
  - intros k _ [].
Qed.

Lemma kept_rank_lags_behind_failures_witness :
  (0 + length (filter failed
                 (firstn 1 [Raise pool_is_shut_down; Return "reordered"]))
   = 1)%nat.
Proof.
  apply (@kept_rank_lags_behind_failures undecided_judge
           [Raise pool_is_shut_down; Return "reordered"]
           empty_world
           (snd (ReorderService.collect undecided_judge
                   [Raise pool_is_shut_down; Return "reordered"] empty_world))
           [("gpt-4o", "reordered")] "gpt-4o" 0 1).
  - repeat constructor; simpl; intuition discriminate.
  - reflexivity.
  - reflexivity.
  - reflexivity.
Defined.

(** ** A fallback leaves the files as they are *)

Section Fallback.
Import ReorderService.
Variable self : service.

Lemma read_file_sample_mutates_nothing file_path num_lines :
  silent is_mutation (_read_file_sample self file_path num_lines).
Proof.
  intros w. destruct (read_file_sample_run self file_path num_lines w)
    as (s & w' & Hrun & T).
  rewrite Hrun. cbn [snd]. eexists. split; [exact T | reflexivity].
Qed.

Lemma read_csv_head_mutates_nothing file_path num_lines :
  silent is_mutation (_read_csv_head self file_path num_lines).
Proof.
  unfold _read_csv_head. apply silent_try_except.
  - apply read_file_sample_mutates_nothing.
  - intros e. silence.
Qed.

Lemma build_comparison_data_mutates_nothing source_path source_head d :
  silent is_mutation (_build_comparison_data self source_path source_head d).
Proof.
  unfold _build_comparison_data. cbv zeta.
  apply silent_bind; [|intros parts; apply silent_ret].
  apply silent_for_fold. intros parts [i [model v]].
  apply silent_try_except; [|intros e; silence].
  apply silent_bind; [apply read_file_sample_mutates_nothing | intros s1].
  apply silent_bind; [apply read_file_sample_mutates_nothing | intros s2].
  apply silent_ret.
Qed.

Lemma fallback_run source_file_path (d : dict string) (w : world) :
  1 <= len d ->
  let setup := reorder_judge_setup self source_file_path d w in
  match first_content
          (on_completion (environment self) (trace (snd setup))
             (reorder_judge_request self (fst setup))) with
  | Some content => mem d (strip self content) = false
  | None => True
  end ->
  exists m w',
    _select_best_reordering self source_file_path d w = (Return m, w') /\
    hd_error (keys d) = Some m /\
    filter is_mutation (since w w') = [].
Proof.
  intros Hlen setup.
  destruct d as [|[m0 v0] d]; [simpl in Hlen; lia|].
  assert (Hfirst : forall w0 : world,
             first (keys ((m0, v0) :: d)) w0 = (Return m0, w0))
    by (intros; reflexivity).
  subst setup. unfold reorder_judge_setup, _select_best_reordering.
  unfold bind at 1.
  destruct (read_csv_head_mutates_nothing source_file_path CSV_HEAD_LINES w)
    as (d1 & T1 & F1).
  destruct (read_csv_head_total self source_file_path CSV_HEAD_LINES w)
    as (head & w1 & Hhead).
  rewrite Hhead in *. cbn [fst snd returned] in *. unfold bind at 1.
  destruct (build_comparison_data_mutates_nothing source_file_path head
              ((m0, v0) :: d) w1) as (d2 & T2 & F2).
  destruct (build_comparison_data_total self source_file_path head
              ((m0, v0) :: d) w1) as (data & w2 & Hdata).
  rewrite Hdata in *. cbn [fst snd returned] in *.
  unfold try_except, bind at 1, _get_model_selection, bind at 1,
    call_completion at 1.
  fold (reorder_judge_request self
          (prompts.REORDER_SELECTION_PROMPT_TEMPLATE data
             (join ", " (map (fun model => "'" ++ model ++ "'")
                           (model_deployments self))))).
  set (judge := reorder_judge_request self _).
  assert (Hsince : forall w' : world,
             trace w' = (trace w2 ++ [judge])%list ->
             filter is_mutation (since w w') = []).
  { intros w' Hw'. rewrite (@since_app w w' (d1 ++ d2 ++ [judge])%list).
    - rewrite !filter_app, F1, F2. reflexivity.
    - rewrite Hw', T2, T1. now rewrite <- !app_assoc. }
  unfold first_content.
  destruct (on_completion (environment self) (trace w2) judge)
    as [e|[[|[content|] others]]]; cbn [of_answer choices]; intros Hpick.
  - unfold bind, logger. rewrite Hfirst. do 2 eexists.
    split; [reflexivity|]. split; [reflexivity|]. now apply Hsince.
  - unfold bind at 1, first, raise, bind, logger. cbn [choices].
    rewrite Hfirst. do 2 eexists.
    split; [reflexivity|]. split; [reflexivity|]. now apply Hsince.
  - unfold bind at 1, first. cbn [choices]. unfold ret at 1, ret at 1.
    rewrite Hpick.
    unfold bind at 1. rewrite Hfirst. unfold bind, logger, ret.
    do 2 eexists. split; [reflexivity|]. split; [reflexivity|].
    now apply Hsince.
  - unfold bind at 1, first. cbn [choices]. unfold ret at 1.
    unfold raise, bind, logger. rewrite Hfirst. do 2 eexists.
    split; [reflexivity|]. split; [reflexivity|]. now apply Hsince.
Qed.
End Fallback.

(** When the reorder arbiter gives no usable pick (its call raises,
    its answer is empty or has no content, or it names no kept model),
    [_select_best_reordering] returns the first kept model and removes
    and renames no file: the files of every model stay in the
    directory under their prefixed names. *)
Theorem fallback_touches_no_file :
  forall (self : ReorderService.service) (source_file_path : string)
         (model_outputs : dict string) (w : world),
    1 <= len model_outputs ->
    let setup := reorder_judge_setup self source_file_path model_outputs w in
    match first_content
            (on_completion (ReorderService.environment self)
               (trace (snd setup))
               (reorder_judge_request self (fst setup))) with
    | Some content =>
        mem model_outputs (ReorderService.strip self content) = false
    | None => True
    end ->
    exists m w',
      ReorderService._select_best_reordering self source_file_path
        model_outputs w = (Return m, w') /\
      hd_error (keys model_outputs) = Some m /\
      filter is_mutation (since w w') = [].
Proof. intros self. apply fallback_run. Qed.

Lemma fallback_touches_no_file_witness :
  exists m w',
    ReorderService._select_best_reordering undecided_judge "/data/source.csv"
      two_outputs empty_world = (Return m, w') /\
    hd_error (keys two_outputs) = Some m /\
    filter is_mutation (since empty_world w') = [].
Proof.
  apply (@fallback_touches_no_file undecided_judge "/data/source.csv"
           two_outputs empty_world).
  - simpl. lia.
  - reflexivity.
Defined.

(** ** Completions *)

Section Completions.
Import OpenAIService.
Variable client : Env.
Variable config : LegacyEtlMcpConfig.
Variable strip : string -> string.

Lemma api_call_run model system_prompt user_prompt tokens w :
  let req := chat_completions_create model system_prompt user_prompt tokens in
  exists w',
    _make_api_call client model system_prompt user_prompt tokens w
    = (of_answer (on_completion client (trace w) req), w') /\
    trace w' = (trace w ++ [req])%list /\
    (forall response,
        on_completion client (trace w) req = inr response -> log w' = log w).
Proof.
  cbv zeta. unfold _make_api_call, try_except, call_completion.
  destruct (on_completion client (trace w) _) as [e|response];
    cbn [of_answer].
  - unfold bind, raise.
    destruct (exn_class e =? "OpenAIError"); unfold logger; cbn;
      eexists; (split; [reflexivity|]); (split; [reflexivity|]);
      intros ? [=].
  - eexists. split; [reflexivity|]. split; [reflexivity|]. reflexivity.
Qed.

Lemma extract_run response (w : world) :
  _extract_response_content strip response w
  = (match choices response with
     | [] => Raise IndexError
     | None :: _ => Raise (OpenAIServiceError "Response content is None")
     | Some c :: _ => Return (strip c)
     end, w).
Proof.
  unfold _extract_response_content, bind, first.
  destruct (choices response) as [|[c|] rest]; reflexivity.
Qed.
End Completions.

(** [get_completion] makes exactly one request, a chat completion in
    which the default system prompt and the configured deployment
    stand in for a missing or empty argument; it returns the stripped
    content of the first choice, and whatever goes wrong (the call
    raises, there is no choice, the content is missing) reaches the
    caller as an [OpenAIServiceError] whose message starts with
    [Failed to get completion]. *)
Theorem get_completion_wraps_every_failure :
  forall (client : Env) (config : OpenAIService.LegacyEtlMcpConfig)
         (strip : string -> string) (prompt : string)
         (system_prompt model_name : option string) (max_tokens : option nat)
         (w : world),
    let req :=
      chat_completions_create
        (OpenAIService.or_default model_name
           (OpenAIService.azure_openai_deployment_name config))
        (OpenAIService.or_default system_prompt prompts.DEFAULT_SYSTEM_PROMPT)
        prompt
        match max_tokens with
        | Some (S n) => S n
        | _ => OpenAIService.DEFAULT_MAX_TOKENS
        end in
    let run :=
      OpenAIService.get_completion client config strip prompt system_prompt
        model_name max_tokens w in
    since w (snd run) = [req] /\
    (forall s, fst run = Return s ->
       exists c rest,
         on_completion client (trace w) req
         = inr {| choices := Some c :: rest |} /\ s = strip c) /\
    (forall e, fst run = Raise e ->
       exists reason,
         e = OpenAIService.OpenAIServiceError
               ("Failed to get completion: " ++ reason)).
Proof.
  intros client config strip prompt system_prompt model_name max_tokens w.
  cbv zeta.
  destruct (OpenAIService.get_completion client config strip prompt
              system_prompt model_name max_tokens w) as [r w1] eqn:E.
  cbn [fst snd]. revert E.
  unfold OpenAIService.get_completion. cbv zeta.
  unfold try_except, bind at 1.
  match goal with
  | |- context [OpenAIService._make_api_call client ?m ?s ?u ?t w] =>
      destruct (api_call_run client m s u t w) as (w' & Hrun & T & _)
  end.
  rewrite Hrun.
  destruct (on_completion client (trace w) _) as [e|[cs]];
    cbn [of_answer].
  - unfold raise. intros [= <- <-]. split; [now apply since_app|].
    split; [discriminate|]. intros e' [= <-]. eexists; reflexivity.
  - rewrite extract_run. cbn [choices].
    destruct cs as [|[c|] rest]; unfold raise; intros [= <- <-];
      (split; [now apply since_app|]); split;
      try discriminate; try (intros ? [= <-]; eexists; reflexivity);
      try (intros ? [= <-]; do 2 eexists; split; reflexivity).
Qed.

Section Safe_reads.
Variable env : Env.

Lemma read_file_safely_run file_path w :
  exists r w',
    file_utils.read_file_safely env file_path w = (Return r, w') /\
    trace w'
    = (trace w
       ++ os_path_exists file_path
          :: (if on_test env (trace w) (os_path_exists file_path)
              then [open_read file_path] else []))%list /\
    (forall content,
        r = Some content <->
        on_test env (trace w) (os_path_exists file_path) = true /\
        on_text env (trace w ++ [os_path_exists file_path])
          (open_read file_path) = inr content).
Proof.
  unfold file_utils.read_file_safely, bind at 1, call_test.
  destruct (on_test env (trace w) (os_path_exists file_path)); cbn [negb].
  - unfold try_except, bind at 1, call_text. cbn [record trace].
    destruct (on_text env (trace w ++ [os_path_exists file_path])
                (open_read file_path)) as [e|content]; cbn [of_answer].
    + unfold bind, logger, ret. do 2 eexists. split; [reflexivity|].
      flatten_trace. split; [reflexivity|].
      intros c. split; [discriminate | intros [_ [=]]].
    + unfold ret. do 2 eexists. split; [reflexivity|].
      flatten_trace. split; [reflexivity|].
      intros c. split; [intros [= <-]; auto | intros [_ [= <-]]; reflexivity].
  - unfold ret. do 2 eexists. split; [reflexivity|]. split; [reflexivity|].
    intros c. split; [discriminate | intros [[=] _]].
Qed.
End Safe_reads.

(** [read_file_safely] never raises.  It asks whether the file exists
    and opens it only if it does; it yields the content exactly when
    the file exists and the read succeeds, and [None] otherwise. *)
Theorem read_file_safely_never_raises :
  forall (env : Env) (file_path : string) (w : world),
    exists r w',
      file_utils.read_file_safely env file_path w = (Return r, w') /\
      since w w'
      = os_path_exists file_path
        :: (if on_test env (trace w) (os_path_exists file_path)
            then [open_read file_path] else []) /\
      (forall content,
          r = Some content <->
          on_test env (trace w) (os_path_exists file_path) = true /\
          on_text env (trace w ++ [os_path_exists file_path])
            (open_read file_path) = inr content).
Proof.
  intros env file_path w.
  destruct (read_file_safely_run env file_path w) as (r & w' & Hrun & T & H).
  exists r, w'. split; [exact Hrun|]. split; [now apply since_app | exact H].
Qed.

Lemma validate_file_paths_run (env : Env) (file_paths : list string) :
  forall w,
    let run := file_utils.validate_file_paths env file_paths w in
    let answer i path :=
      on_test env (trace w ++ map os_path_exists (firstn i file_paths))
        (os_path_exists path) in
    log (snd run) = log w /\
    ((fst run = Return tt /\
      trace (snd run) = (trace w ++ map os_path_exists file_paths)%list /\
      forall i path, nth_error file_paths i = Some path -> answer i path = true)
     \/
     exists k path,
       nth_error file_paths k = Some path /\
       answer k path = false /\
       (forall i p, i < k -> nth_error file_paths i = Some p ->
                    answer i p = true) /\
       fst run
       = Raise (file_utils.FileNotFoundError ("File not found: " ++ path)) /\
       trace (snd run)
       = (trace w ++ map os_path_exists (firstn (S k) file_paths))%list).
Proof.
  unfold file_utils.validate_file_paths.
  set (body := fun file_path : string => _).
  induction file_paths as [|p paths IH]; intros w; cbv zeta.
  - cbn [for_each]. unfold ret. cbn [fst snd map]. split; [reflexivity|]. left.
    split; [reflexivity|]. split; [now rewrite app_nil_r|].
    intros [|i] path; discriminate.
  - assert (Hstep :
      for_each (p :: paths) body w
      = if on_test env (trace w) (os_path_exists p)
        then for_each paths body (record (os_path_exists p) w)
        else (Raise (file_utils.FileNotFoundError ("File not found: " ++ p)),
              record (os_path_exists p) w)).
    { cbn [for_each]. unfold bind at 1. unfold body at 1.
      unfold bind at 1, call_test at 1. cbn [fst snd].
      now destruct (on_test env (trace w) (os_path_exists p)). }
    rewrite Hstep. clear Hstep.
    destruct (on_test env (trace w) (os_path_exists p)) eqn:Hp.
    + specialize (IH (record (os_path_exists p) w)). cbv zeta in IH.
      cbn [record trace log] in IH.
      destruct IH as (Hlog & [(Hret & Htrace & Hall)
                             |(k & path & Hk & Hno & Hyes & Hraise & Htrace)]).
      * split; [exact Hlog|]. left. split; [exact Hret|]. split.
        -- rewrite Htrace, <- app_assoc. reflexivity.
        -- intros [|i] path Hi; cbn [nth_error firstn map] in *.
           ++ injection Hi as <-. now rewrite app_nil_r.
           ++ specialize (Hall i path Hi).
              now rewrite <- app_assoc in Hall.
      * split; [exact Hlog|]. right. exists (S k), path.
        cbn [nth_error firstn map]. split; [exact Hk|]. split.
        -- now rewrite <- app_assoc in Hno.
        -- split; [|split; [exact Hraise|]].
           ++ intros [|i] q Hlt Hi; cbn [nth_error firstn map] in *.
              ** injection Hi as <-. now rewrite app_nil_r.
              ** specialize (Hyes i q (proj2 (Nat.succ_lt_mono i k) Hlt) Hi).
                 now rewrite <- app_assoc in Hyes.
           ++ rewrite Htrace, <- app_assoc. reflexivity.
    + cbn [fst snd record trace log]. split; [reflexivity|].
      right. exists 0, p. cbn [nth_error firstn map].
      split; [reflexivity|]. split; [now rewrite app_nil_r|].
      split; [intros i q Hlt; inversion Hlt|]. split; reflexivity.
Qed.

(** [validate_file_paths] asks [os.path.exists] for the paths in
    order and writes no log.  Either every path is answered to exist,
    and it returns after probing all of them; or some path is the
    first that is answered not to exist, and it raises
    [FileNotFoundError] naming that path right after probing it,
    leaving the paths behind it unprobed. *)
Theorem validate_file_paths_stops_at_first_missing :
  forall (env : Env) (file_paths : list string) (w : world),
    let run := file_utils.validate_file_paths env file_paths w in
    let answer i path :=
      on_test env (trace w ++ map os_path_exists (firstn i file_paths))
        (os_path_exists path) in
    log (snd run) = log w /\
    ((fst run = Return tt /\
      since w (snd run) = map os_path_exists file_paths /\
      forall i path, nth_error file_paths i = Some path -> answer i path = true)
     \/
     exists k path,
       nth_error file_paths k = Some path /\
       answer k path = false /\
       (forall i p, i < k -> nth_error file_paths i = Some p ->
                    answer i p = true) /\
       fst run
       = Raise (file_utils.FileNotFoundError ("File not found: " ++ path)) /\
       since w (snd run) = map os_path_exists (firstn (S k) file_paths)).
Proof.
  intros env file_paths w. cbv zeta.
  destruct (validate_file_paths_run env file_paths w)
    as (Hlog & [(Hret & Htrace & Hall)
               |(k & path & Hk & Hno & Hyes & Hraise & Htrace)]).
  - split; [exact Hlog|]. left. split; [exact Hret|].
    split; [now apply since_app | exact Hall].
  - split; [exact Hlog|]. right. exists k, path.
    split; [exact Hk|]. split; [exact Hno|]. split; [exact Hyes|].
    split; [exact Hraise | now apply since_app].
Qed.

Section Analysis.
Import OpenAIService.
Variable client : Env.
Variable config : LegacyEtlMcpConfig.
Variable strip : string -> string.
Variable legacy_etl_code_description : string.
Variable system_prompt_template : string.


End Analysis.


(** ** The row-level analyzer tool *)

Section Rowlevel.
Import RowlevelAnalyzerAgentTool.
Variable self : CSVComparisonAgentService.service.

Lemma analyze_csv_differences_run python_output_path legacy_output_path w :
  exists r w',
    _analyze_csv_differences self python_output_path legacy_output_path w
    = (Return r, w') /\
    (on_test (CSVComparisonAgentService.environment self) (trace w)
       (os_path_exists python_output_path) = false ->
     r = error ("File not found: " ++ python_output_path) /\
     trace w' = (trace w ++ [os_path_exists python_output_path])%list) /\
    (forall text, r = analysis text -> _is_error_response text = false).
Proof.
  unfold _analyze_csv_differences, try_except, bind at 1,
    _validate_file_paths, bind at 1, call_test at 1.
  cbn [fst snd].
  destruct (on_test (CSVComparisonAgentService.environment self) (trace w)
              (os_path_exists python_output_path)); cbn [negb].
  2:{ unfold raise, ret. cbn. do 2 eexists. split; [reflexivity|].
      split; [auto | discriminate]. }
  unfold bind at 1, call_test at 1. cbn [fst snd].
  destruct (on_test _ _ (os_path_exists legacy_output_path)); cbn [negb].
  2:{ unfold raise, ret. cbn. do 2 eexists. split; [reflexivity|].
      split; [discriminate | discriminate]. }
  unfold ret at 1. unfold bind at 1.
  destruct (CSVComparisonAgentService.compare_csv_files self
              python_output_path legacy_output_path
              prompts.CSV_DIFFERENCE_ANALYSIS_INSTRUCTIONS _)
    as [[text|e] w1].
  - destruct (_is_error_response text) eqn:Hflag.
    + unfold bind, logger, ret. do 2 eexists. split; [reflexivity|].
      split; [discriminate | discriminate].
    + unfold ret. do 2 eexists. split; [reflexivity|].
      split; [discriminate|]. now intros t [= <-].
  - destruct (exn_class e =? "FileNotFoundError");
      unfold bind, logger, ret; do 2 eexists;
      (split; [reflexivity|]); (split; [discriminate | discriminate]).
Qed.
End Rowlevel.

(** [_analyze_csv_differences] never raises.  When the Python output
    is missing it returns the error [File not found] with that path
    after this one probe, without turning to the comparison service;
    and what it returns as an analysis contains none of the error
    indicators. *)
Theorem analysis_never_raises :
  forall (self : CSVComparisonAgentService.service)
         (python_output_path legacy_output_path : string) (w : world),
    exists r w',
      RowlevelAnalyzerAgentTool._analyze_csv_differences self
        python_output_path legacy_output_path w = (Return r, w') /\
      (on_test (CSVComparisonAgentService.environment self) (trace w)
         (os_path_exists python_output_path) = false ->
       r = RowlevelAnalyzerAgentTool.error
             ("File not found: " ++ python_output_path) /\
       since w w' = [os_path_exists python_output_path]) /\
      (forall text,
          r = RowlevelAnalyzerAgentTool.analysis text ->
          contains text "Error:" = false /\
          contains text "Run failed:" = false).
Proof.
  intros self python_output_path legacy_output_path w.
  destruct (analyze_csv_differences_run self python_output_path
              legacy_output_path w) as (r & w' & Hrun & Hmiss & Hok).
  exists r, w'. split; [exact Hrun|]. split.
  - intros H. destruct (Hmiss H) as [-> T]. split; [reflexivity|].
    now apply since_app.
  - intros text Ht. specialize (Hok text Ht).
    unfold RowlevelAnalyzerAgentTool._is_error_response in Hok.
    cbn [existsb RowlevelAnalyzerAgentTool.ERROR_INDICATORS] in Hok.
    apply orb_false_iff in Hok as [H1 H2].
    apply orb_false_iff in H2 as [H2 _]. now split.
Qed.

(** Of the three strings with which the comparison runner reports a
    failure, the tool's error test always catches the failed run; it
    catches the exhausted attempts only if the model name contains an
    indicator, and the exception caught by the runner only if the
    model name followed by the exception text does. *)
Theorem tool_catches_failed_runs_only :
  (forall run : ThreadRun,
      RowlevelAnalyzerAgentTool._is_error_response
        (CSVComparisonAgentService.run_failed run) = true) /\
  (forall model_name : string,
      RowlevelAnalyzerAgentTool._is_error_response
        (CSVComparisonAgentService.max_attempts_reached model_name)
      = RowlevelAnalyzerAgentTool._is_error_response model_name) /\
  (forall (model_name : string) (e : exn),
      RowlevelAnalyzerAgentTool._is_error_response
        ("An error occurred during agent processing with model "
         ++ model_name ++ ": " ++ str_exn e)
      = RowlevelAnalyzerAgentTool._is_error_response
          (model_name ++ ": " ++ str_exn e)).
Proof.
  unfold RowlevelAnalyzerAgentTool._is_error_response,
    RowlevelAnalyzerAgentTool.ERROR_INDICATORS,
    CSVComparisonAgentService.run_failed,
    CSVComparisonAgentService.max_attempts_reached.
  split; [|split].
  - intros run. cbn [existsb]. apply orb_true_iff. right.
    apply orb_true_iff. left.
    change ("Run failed: " ++ last_error run)
      with ("Run failed:" ++ (" " ++ last_error run)).
    unfold contains at 1.
    destruct ("Run failed:" ++ " " ++ last_error run) eqn:E; [discriminate|].
    rewrite <- E. now rewrite prefix_append.
  - intros model_name. reflexivity.
  - intros model_name e. reflexivity.
Qed.

Section Rowlevel_agent.
Import RowlevelAnalyzerAgentTool.
Variable self : CSVComparisonAgentService.service.
Variable host : Host.
Hypothesis host_obliges : obliging host.

Lemma host_effect_run call (s : session) :
  host_effect host call s = (Return tt, ((fst s ++ [call])%list, snd s)).
Proof. unfold host_effect. now rewrite host_obliges. Qed.

Lemma rowlevel_agent_run data_path legacy_file python_file calls w :
  let python_path := path_join data_path python_file in
  let legacy_path := path_join data_path legacy_file in
  let inner := _analyze_csv_differences self python_path legacy_path w in
  exists r,
    fst inner = Return r /\
    rowlevel_analyzer_agent self host data_path legacy_file python_file
      (calls, w)
    = (Return r,
       ((calls
         ++ [ctx_info ("Analyzing row differences for " ++ data_path);
             ctx_info ("Running CSV difference analysis on Python output: "
                       ++ python_path);
             match r with
             | error message => ctx_error ("Analysis failed: " ++ message)
             | analysis _ =>
                 ctx_info "Row-level analysis completed successfully"
             end])%list,
        snd inner)).
Proof.
  cbv zeta.
  destruct (analyze_csv_differences_run self
              (path_join data_path python_file)
              (path_join data_path legacy_file) w) as (r & w' & Hrun & _).
  exists r. rewrite Hrun. cbn [fst snd]. split; [reflexivity|].
  unfold rowlevel_analyzer_agent, _build_file_path.
  unfold bind at 1. rewrite host_effect_run. cbn [fst snd].
  unfold try_except. cbv zeta.
  unfold bind at 1. rewrite host_effect_run. cbn [fst snd].
  unfold bind at 1, lift at 1. cbn [fst snd]. rewrite Hrun.
  unfold bind at 1.
  destruct r as [text|message]; rewrite host_effect_run; cbn [fst snd];
    unfold ret; rewrite <- !app_assoc; reflexivity.
Qed.
End Rowlevel_agent.

(** On a context whose calls do not raise, [rowlevel_analyzer_agent]
    never raises: it returns what [_analyze_csv_differences] returns
    for the two files of the data directory, and tells the context
    three things, the last of which is the error when the outcome is
    one and the completion otherwise. *)
Theorem rowlevel_agent_reports_the_outcome :
  forall (self : CSVComparisonAgentService.service) (host : Host)
         (data_path legacy_etl_output_file python_output_file : string)
         (calls : list host_call) (w : world),
    obliging host ->
    let python_path := path_join data_path python_output_file in
    let legacy_path := path_join data_path legacy_etl_output_file in
    let inner :=
      RowlevelAnalyzerAgentTool._analyze_csv_differences self python_path
        legacy_path w in
    exists r,
      fst inner = Return r /\
      RowlevelAnalyzerAgentTool.rowlevel_analyzer_agent self host data_path
        legacy_etl_output_file python_output_file (calls, w)
      = (Return r,
         ((calls
           ++ [ctx_info ("Analyzing row differences for " ++ data_path);
               ctx_info ("Running CSV difference analysis on Python output: "
                         ++ python_path);
               match r with
               | RowlevelAnalyzerAgentTool.error message =>
                   ctx_error ("Analysis failed: " ++ message)
               | RowlevelAnalyzerAgentTool.analysis _ =>
                   ctx_info "Row-level analysis completed successfully"
               end])%list,
          snd inner)).
Proof.
  intros self host data_path legacy_file python_file calls w Hhost.
  now apply rowlevel_agent_run.
Qed.

Lemma rowlevel_agent_reports_the_outcome_witness :
  exists r,
    fst (RowlevelAnalyzerAgentTool._analyze_csv_differences lone_deployment
           "/data/out_PY.csv" "/data/out.csv" empty_world) = Return r /\
    RowlevelAnalyzerAgentTool.rowlevel_analyzer_agent lone_deployment easy_host
      "/data" "out.csv" "out_PY.csv" ([], empty_world)
    = (Return r,
       ([ctx_info "Analyzing row differences for /data";
         ctx_info "Running CSV difference analysis on Python output: /data/out_PY.csv";
         match r with
         | RowlevelAnalyzerAgentTool.error message =>
             ctx_error ("Analysis failed: " ++ message)
         | RowlevelAnalyzerAgentTool.analysis _ =>
             ctx_info "Row-level analysis completed successfully"
         end],
        snd (RowlevelAnalyzerAgentTool._analyze_csv_differences lone_deployment
               "/data/out_PY.csv" "/data/out.csv" empty_world))).
Proof.
  apply (@rowlevel_agent_reports_the_outcome lone_deployment easy_host "/data"
           "out.csv" "out_PY.csv" [] empty_world).
  intros calls requests call. reflexivity.
Defined.

(** ** The order consistency tool *)

Section Order_agent.
Import OrderConsistencyAgentTool.
Variable self : ReorderService.service.
Variable host : Host.
Hypothesis host_obliges : obliging host.

Lemma FileNotFoundError_class msg :
  (exn_class (file_utils.FileNotFoundError msg) =? "FileNotFoundError") = true.
Proof. reflexivity. Qed.

Lemma handler_run (e : exn) (s : session) :
  exists r s',
    (if exn_class e =? "FileNotFoundError"
     then
       let error_msg := str_exn e in
       host_effect host (ctx_error error_msg) ;;
       ret ("Error: " ++ error_msg)
     else if exn_class e =? "ReorderServiceError"
     then
       let error_msg := "Reordering failed: " ++ str_exn e in
       lift (logger ERROR error_msg) ;;
       host_effect host (ctx_error error_msg) ;;
       ret ("Error: " ++ error_msg)
     else
       let error_msg := "Unexpected error during reordering: " ++ str_exn e in
       lift (logger ERROR error_msg) ;;
       host_effect host (ctx_error error_msg) ;;
       ret ("Error: " ++ str_exn e)) s = (Return r, s') /\
    startswith r "Error: " = true /\
    trace (snd s') = trace (snd s).
Proof.
  destruct (exn_class e =? "FileNotFoundError");
    [|destruct (exn_class e =? "ReorderServiceError")]; cbv zeta.
  - unfold bind at 1. rewrite (host_effect_run host_obliges). unfold ret.
    do 2 eexists. split; [reflexivity|].
    split; [apply prefix_append | reflexivity].
  - unfold bind at 1, lift, logger. cbn [fst snd].
    unfold bind at 1. rewrite (host_effect_run host_obliges). unfold ret.
    do 2 eexists. split; [reflexivity|].
    split; [apply prefix_append | reflexivity].
  - unfold bind at 1, lift, logger. cbn [fst snd].
    unfold bind at 1. rewrite (host_effect_run host_obliges). unfold ret.
    do 2 eexists. split; [reflexivity|].
    split; [apply prefix_append | reflexivity].
Qed.

Lemma order_agent_run data_path source_file legacy_file calls w :
  exists r s',
    order_consistency_agent self host data_path source_file legacy_file
      (calls, w) = (Return r, s') /\
    (startswith r "Error: " = true \/
     exists model_name, r = _format_success_message legacy_file model_name) /\
    (on_test (ReorderService.environment self) (trace w)
       (os_path_exists (path_join data_path source_file)) = false ->
     r = "Error: Source file not found: " ++ path_join data_path source_file /\
     trace (snd s')
     = (trace w ++ [os_path_exists (path_join data_path source_file)])%list).
Proof.
  unfold order_consistency_agent.
  unfold bind at 1. rewrite (host_effect_run host_obliges). cbn [fst snd].
  unfold try_except, _build_file_paths.
  unfold bind at 1, lift at 1, _validate_file_paths, bind at 1,
    call_test at 1.
  cbn [fst snd].
  destruct (on_test (ReorderService.environment self) (trace w)
              (os_path_exists (path_join data_path source_file))) eqn:Hsrc;
    cbn [negb].
  2:{ unfold raise. cbn [fst snd]. rewrite FileNotFoundError_class.
      cbv zeta. unfold bind at 1.
      rewrite (host_effect_run host_obliges). unfold ret.
      do 2 eexists. split; [reflexivity|].
      split; [left; apply prefix_append|].
      intros _. split; reflexivity. }
  unfold bind at 1, call_test at 1. cbn [fst snd].
  destruct (on_test (ReorderService.environment self) _
              (os_path_exists (path_join data_path legacy_file)));
    cbn [negb].
  2:{ unfold raise. cbn [fst snd]. rewrite FileNotFoundError_class.
      cbv zeta. unfold bind at 1.
      rewrite (host_effect_run host_obliges). unfold ret.
      do 2 eexists. split; [reflexivity|].
      split; [left; apply prefix_append|].
      discriminate. }
  unfold ret at 1. unfold bind at 1.
  rewrite (host_effect_run host_obliges). cbn [fst snd].
  unfold bind at 1, lift at 1. cbn [fst snd].
  destruct (ReorderService.reorder_csv_files self
              (path_join data_path source_file)
              (path_join data_path legacy_file) _) as [[[content model]|e] w1].
  - cbv zeta. cbn [snd]. unfold bind at 1.
    rewrite (host_effect_run host_obliges). unfold ret.
    do 2 eexists. split; [reflexivity|]. split; [right; eauto|].
    discriminate.
  - match goal with
    | |- context [(if exn_class e =? _ then _ else _) ?s0] =>
        destruct (handler_run e s0) as (r & s' & Hrun & Hr & _)
    end.
    exists r, s'. split; [exact Hrun|]. split; [now left|]. discriminate.
Qed.
End Order_agent.

(** On a context whose calls do not raise, [order_consistency_agent]
    never raises and answers in words: either with a string that
    starts with [Error:], or with the success message for the legacy
    file and some model, which does not start with [Error:].  When the
    source file is missing the answer names it, and the probe of the
    source file is the only request made. *)
Theorem order_agent_answers_in_words :
  forall (self : ReorderService.service) (host : Host)
         (data_path source_file legacy_etl_output_file : string)
         (calls : list host_call) (w : world),
    obliging host ->
    exists r s',
      OrderConsistencyAgentTool.order_consistency_agent self host data_path
        source_file legacy_etl_output_file (calls, w) = (Return r, s') /\
      (startswith r "Error: " = true \/
       exists model_name,
         r = OrderConsistencyAgentTool._format_success_message
               legacy_etl_output_file model_name /\
         startswith r "Error: " = false) /\
      (on_test (ReorderService.environment self) (trace w)
         (os_path_exists (path_join data_path source_file)) = false ->
       r = "Error: Source file not found: " ++ path_join data_path source_file
       /\ since w (snd s')
          = [os_path_exists (path_join data_path source_file)]).
Proof.
  intros self host data_path source_file legacy_file calls w Hhost.
  destruct (order_agent_run self Hhost data_path source_file legacy_file
              calls w) as (r & s' & Hrun & Hr & Hmiss).
  exists r, s'. split; [exact Hrun|]. split.
  - destruct Hr as [Hr|[m ->]]; [now left|]. right. exists m.
    split; reflexivity.
  - intros H. destruct (Hmiss H) as [-> T]. split; [reflexivity|].
    now apply since_app.
Qed.

Lemma order_agent_answers_in_words_witness :
  exists r s',
    OrderConsistencyAgentTool.order_consistency_agent second_succeeds
      easy_host "/data" "source.csv" "legacy.csv" ([], empty_world)
    = (Return r, s') /\
    (startswith r "Error: " = true \/
     exists model_name,
       r = OrderConsistencyAgentTool._format_success_message "legacy.csv"
             model_name /\
       startswith r "Error: " = false) /\
    (on_test (ReorderService.environment second_succeeds) (trace empty_world)
       (os_path_exists (path_join "/data" "source.csv")) = false ->
     r = "Error: Source file not found: " ++ path_join "/data" "source.csv"
     /\ since empty_world (snd s')
        = [os_path_exists (path_join "/data" "source.csv")]).
Proof.
  apply (@order_agent_answers_in_words second_succeeds easy_host "/data"
           "source.csv" "legacy.csv" [] empty_world).
  intros calls requests call. reflexivity.
Defined.

Lemma lone_entry_run (m content : string) (w1 : world) :
  (model_name <- first (keys [(m, content)]) ;;
   c <- getitem [(m, content)] model_name ;;
   ret (c, model_name)) w1 = (Return (content, m), w1).
Proof.
  unfold bind, first, getitem, ret, keys. cbn [map fst get].
  now rewrite String.eqb_refl.
Qed.

Section Lone_success.
Import OrderConsistencyAgentTool.
Variable self : ReorderService.service.
Variable host : Host.
Hypothesis host_obliges : obliging host.

Lemma lone_success_run data_path source_file legacy_file calls w m content :
  let source_path := path_join data_path source_file in
  let legacy_path := path_join data_path legacy_file in
  on_test (ReorderService.environment self) (trace w)
    (os_path_exists source_path) = true ->
  on_test (ReorderService.environment self)
    (trace w ++ [os_path_exists source_path])
    (os_path_exists legacy_path) = true ->
  kept (zip (ReorderService.model_deployments self)
          (ReorderService.gather self source_path legacy_path)) []
  = [(m, content)] ->
  exists s',
    order_consistency_agent self host data_path source_file legacy_file
      (calls, w)
    = (Return (_format_success_message legacy_file m), s') /\
    trace (snd s')
    = (trace w ++ [os_path_exists source_path; os_path_exists legacy_path])%list.
Proof.
  cbv zeta. intros Hsrc Hleg Hkept.
  unfold order_consistency_agent.
  unfold bind at 1. rewrite (host_effect_run host_obliges). cbn [fst snd].
  unfold try_except, _build_file_paths.
  unfold bind at 1, lift at 1, _validate_file_paths, bind at 1,
    call_test at 1.
  cbn [fst snd]. rewrite Hsrc. cbn [negb].
  unfold bind at 1, call_test at 1. cbn [fst snd record trace].
  rewrite Hleg. cbn [negb].
  unfold ret at 1. unfold bind at 1.
  rewrite (host_effect_run host_obliges). cbn [fst snd].
  unfold bind at 1, lift at 1. cbn [fst snd].
  match goal with
  | |- context [ReorderService.reorder_csv_files self ?s ?l ?w0] =>
      destruct (reorder_fan_out_run self s l w0) as (w1 & T1 & Hrun)
  end.
  cbv zeta in Hrun. rewrite Hkept in Hrun. cbn [len length Nat.eqb] in Hrun.
  rewrite lone_entry_run in Hrun. rewrite Hrun. cbv zeta. cbn [snd]. unfold bind at 1.
  rewrite (host_effect_run host_obliges). unfold ret.
  eexists. split; [reflexivity|]. cbn [snd]. rewrite T1.
  flatten_trace. reflexivity.
Qed.
End Lone_success.

(** When both files exist and exactly one reorder task succeeds, the
    tool (on a context whose calls do not raise) returns the success
    message naming that model, and the coroutine asks for nothing but
    the two existence probes: in particular no file is renamed to the
    names the message announces. *)
Theorem lone_success_is_announced_without_renaming :
  forall (self : ReorderService.service) (host : Host)
         (data_path source_file legacy_etl_output_file : string)
         (calls : list host_call) (w : world) (m content : string),
    obliging host ->
    let source_path := path_join data_path source_file in
    let legacy_path := path_join data_path legacy_etl_output_file in
    on_test (ReorderService.environment self) (trace w)
      (os_path_exists source_path) = true ->
    on_test (ReorderService.environment self)
      (trace w ++ [os_path_exists source_path])
      (os_path_exists legacy_path) = true ->
    kept (zip (ReorderService.model_deployments self)
            (ReorderService.gather self source_path legacy_path)) []
    = [(m, content)] ->
    exists s',
      OrderConsistencyAgentTool.order_consistency_agent self host data_path
        source_file legacy_etl_output_file (calls, w)
      = (Return (OrderConsistencyAgentTool._format_success_message
                   legacy_etl_output_file m), s') /\
      since w (snd s')
      = [os_path_exists source_path; os_path_exists legacy_path] /\
      filter is_mutation (since w (snd s')) = [].
Proof.
  intros self host data_path source_file legacy_file calls w m content Hhost.
  cbv zeta. intros Hsrc Hleg Hkept.
  destruct (lone_success_run self Hhost data_path source_file legacy_file
              calls w Hsrc Hleg Hkept) as (s' & Hrun & T).
  exists s'. split; [exact Hrun|].
  rewrite (@since_app w (snd s') _ T). split; reflexivity.
Qed.

Lemma lone_success_is_announced_without_renaming_witness :
  exists s',
    OrderConsistencyAgentTool.order_consistency_agent second_succeeds
      easy_host "/data" "source.csv" "legacy.csv" ([], empty_world)
    = (Return (OrderConsistencyAgentTool._format_success_message "legacy.csv"
                 "gpt-4o"), s') /\
    since empty_world (snd s')
    = [os_path_exists "/data/source.csv"; os_path_exists "/data/legacy.csv"] /\
    filter is_mutation (since empty_world (snd s')) = [].
Proof.
  eapply (@lone_success_is_announced_without_renaming second_succeeds
            easy_host "/data" "source.csv" "legacy.csv" [] empty_world
            "gpt-4o").
  - intros calls requests call. reflexivity.
  - reflexivity.
  - reflexivity.
  - vm_compute. reflexivity.
Defined.

(** ** Lines of a sample *)

Section Split.
Import file_utils_for_tools.
Variable sep : ascii.

Lemma append_nil_r (s : string) : s ++ "" = s.
Proof. induction s as [|c s IH]; simpl; [reflexivity | now rewrite IH]. Qed.

Lemma split_from_nonempty s : forall cur, split_from s sep cur <> [].
Proof.
  induction s as [|c s IH]; intros cur; cbn [split_from]; [discriminate|].
  destruct (Ascii.eqb c sep); [discriminate | apply IH].
Qed.

Lemma concat_cons (x : string) (l : list string) :
  l <> [] ->
  String.concat (String sep "") (x :: l)
  = x ++ String sep "" ++ String.concat (String sep "") l.
Proof. destruct l; [contradiction | reflexivity]. Qed.

Lemma join_split_from s : forall cur,
  join (String sep "") (split_from s sep cur) = cur ++ s.
Proof.
  unfold join. induction s as [|c s IH]; intros cur; cbn [split_from].
  - cbn [String.concat]. now rewrite append_nil_r.
  - destruct (Ascii.eqb c sep) eqn:E.
    + apply Ascii.eqb_eq in E. subst c.
      rewrite concat_cons by apply split_from_nonempty.
      now rewrite IH.
    + rewrite IH, append_assoc. reflexivity.
Qed.

Lemma firstn_nonempty {A} n (l : list A) : l <> [] -> firstn (S n) l <> [].
Proof. destruct l; [contradiction | discriminate]. Qed.

Lemma join_firstn_split_from s : forall n cur,
  exists rest,
    cur ++ s
    = join (String sep "") (firstn (S n) (split_from s sep cur)) ++ rest.
Proof.
  unfold join. induction s as [|c s IH]; intros n cur; cbn [split_from].
  - exists "". cbn [firstn]. rewrite firstn_nil. reflexivity.
  - destruct (Ascii.eqb c sep) eqn:E.
    + apply Ascii.eqb_eq in E. subst c. cbn [firstn].
      destruct n as [|n].
      * exists (String sep s). reflexivity.
      * rewrite concat_cons
          by (apply firstn_nonempty, split_from_nonempty).
        destruct (IH n "") as [rest Hrest]. exists rest.
        cbn [append] in Hrest. rewrite !append_assoc. cbn [append].
        do 2 f_equal. exact Hrest.
    + destruct (IH n (cur ++ String c "")) as [rest Hrest]. exists rest.
      rewrite <- Hrest, append_assoc. reflexivity.
Qed.
End Split.

(** Splitting a text at a character and joining the pieces with that
    character gives the text back.  So the sample
    [build_csv_context] shows, the first
    [CSV_CONTEXT_SAMPLE_DATA_LINE_LIMIT] lines joined again, is a
    prefix of the sample data, and is the sample data itself when
    that has no more lines than the limit. *)
Theorem shown_sample_is_a_prefix :
  forall sample_data : string,
    let lines := file_utils_for_tools.split sample_data (ascii_of_nat 10) in
    let shown :=
      join nl
        (firstn file_utils_for_tools.CSV_CONTEXT_SAMPLE_DATA_LINE_LIMIT lines) in
    join nl lines = sample_data /\
    startswith sample_data shown = true /\
    (length lines <= file_utils_for_tools.CSV_CONTEXT_SAMPLE_DATA_LINE_LIMIT ->
     shown = sample_data).
Proof.
  intros sample_data. cbv zeta.
  unfold file_utils_for_tools.split,
    file_utils_for_tools.CSV_CONTEXT_SAMPLE_DATA_LINE_LIMIT, nl.
  split; [apply (join_split_from (ascii_of_nat 10) sample_data "")|].
  split.
  - destruct (join_firstn_split_from (ascii_of_nat 10) sample_data 14 "")
      as [rest Hrest].
    cbn [append] in Hrest. unfold startswith.
    set (shown := join _ _) in *. clearbody shown. subst sample_data.
    apply prefix_append.
  - intros Hlen. rewrite firstn_all2 by exact Hlen.
    apply (join_split_from (ascii_of_nat 10) sample_data "").
Qed.

(** ** Scanning a directory *)

Lemma get_Some_of_key {V} (d : dict V) k :
  In k (keys d) -> exists v, get d k = Some v.
Proof.
  induction d as [|[k' v'] d IH]; intros H; [contradiction|].
  cbn [get]. destruct (k' =? k) eqn:E; [eauto|].
  apply IH. destruct H as [H|H]; [|exact H].
  cbn in H. subst. now rewrite String.eqb_refl in E.
Qed.

Lemma mem_of_key {V} (d : dict V) k : In k (keys d) -> mem d k = true.
Proof.
  intros H. unfold mem. now destruct (get_Some_of_key d k H) as [v ->].
Qed.

Lemma key_of_mem {V} (d : dict V) k : mem d k = true -> In k (keys d).
Proof.
  unfold mem. induction d as [|[k' v'] d IH]; [discriminate|].
  cbn [get keys map fst]. destruct (k' =? k) eqn:E.
  - apply String.eqb_eq in E. now left.
  - intros H. right. now apply IH.
Qed.

Lemma filed_setitem (d : dict (list string)) k files files' :
  get d k = Some files ->
  filed (setitem d k files') + length files = filed d + length files'.
Proof.
  unfold filed. induction d as [|[k' v'] d IH]; [discriminate|].
  cbn [get setitem]. destruct (k' =? k).
  - intros [= ->]. unfold list_sum in *; cbn [map fold_right snd] in *; lia.
  - intros H. specialize (IH H). unfold list_sum in *; cbn [map fold_right snd] in *; lia.
Qed.

Lemma bucket_setitem (d : dict (list string)) k files ext :
  bucket (setitem d k files) ext = if k =? ext then files else bucket d ext.
Proof.
  unfold bucket. destruct (k =? ext) eqn:E.
  - apply String.eqb_eq in E. subst. now rewrite get_setitem_same.
  - apply String.eqb_neq in E. rewrite get_setitem_other; [reflexivity|].
    congruence.
Qed.

Lemma empty_buckets (extensions : list string) :
  forall d : dict (list string),
    NoDup (keys d) -> Forall (fun v => v = []) (values d) ->
    let r := fold_left (fun d ext => setitem d ext []) extensions d in
    NoDup (keys r) /\
    (forall ext, In ext (keys r) <-> In ext (keys d) \/ In ext extensions) /\
    Forall (fun v => v = []) (values r).
Proof.
  induction extensions as [|e extensions IH]; intros d Hnd Hv; cbn [fold_left].
  - split; [exact Hnd|]. split; [|exact Hv]. intros ext. cbn [In]. tauto.
  - destruct (IH (setitem d e [])) as (H1 & H2 & H3).
    + now apply setitem_keys_NoDup.
    + now apply values_setitem.
    + split; [exact H1|]. split; [|exact H3].
      intros ext. rewrite H2, keys_setitem.
      destruct (mem d e) eqn:Hm.
      * cbn [In]. split; [intros [H|H]; auto | intros [H|[H|H]]; auto].
        subst. left. now apply key_of_mem.
      * rewrite in_app_iff. cbn [In]. tauto.
Qed.

Lemma filed_empty (d : dict (list string)) :
  Forall (fun v => v = []) (values d) ->
  filed d = 0 /\ forall ext, bucket d ext = [].
Proof.
  unfold filed, bucket. induction d as [|[k v] d IH]; intros H.
  - split; reflexivity.
  - inversion H as [|? ? Hv Hrest]. cbn [snd] in Hv. subst.
    destruct (IH Hrest) as [IH1 IH2]. unfold list_sum in *; cbn [map fold_right snd length get] in *.
    split; [exact IH1|]. intros ext. destruct (k =? ext); [reflexivity|apply IH2].
Qed.

Section Scan.
Import file_utils_for_tools.
Variable env : Env.
Variable host : Host.
Variable directory : string.
Variable extensions : list string.

Lemma scan_loop (listing : list string) :
  forall (results : dict (list string)) (calls : list host_call) (w : world),
    (forall ext, In ext extensions -> In ext (keys results)) ->
    exists results',
      for_fold listing results (fun results item =>
        let item_path := path_join directory item in
        is_file <- host_test host (os_path_isfile item_path) ;;
        if is_file
        then
          match find (fun ext => endswith (lower_str item) ext) extensions with
          | Some ext =>
              files <- getitem results ext ;;
              ret (setitem results ext (app files [item_path]))
          | None => ret results
          end
        else ret results) (calls, w)
      = (Return results',
         ((calls ++ map (fun item => os_path_isfile (path_join directory item))
                      listing)%list, w)) /\
      keys results' = keys results /\
      (forall ext path,
          In path (bucket results' ext) ->
          In path (bucket results ext) \/
          exists item,
            In item listing /\ path = path_join directory item /\
            find (fun e => endswith (lower_str item) e) extensions = Some ext) /\
      filed results' <= filed results + length listing.
Proof.
  induction listing as [|item listing IH]; intros results calls w Hkeys;
    cbn [for_fold map length].
  - exists results. unfold ret. rewrite app_nil_r.
    repeat split; auto. lia.
  - unfold bind at 1. cbv zeta. unfold bind at 1, host_test at 1.
    cbn [fst snd].
    assert (Hstep : forall results1,
               keys results1 = keys results ->
               (forall ext path,
                   In path (bucket results1 ext) ->
                   In path (bucket results ext) \/
                   (path = path_join directory item /\
                    find (fun e => endswith (lower_str item) e) extensions
                    = Some ext)) ->
               filed results1 <= filed results + 1 ->
               exists results',
                 for_fold listing results1 (fun results item =>
                   let item_path := path_join directory item in
                   is_file <- host_test host (os_path_isfile item_path) ;;
                   if is_file
                   then
                     match find (fun ext => endswith (lower_str item) ext)
                             extensions with
                     | Some ext =>
                         files <- getitem results ext ;;
                         ret (setitem results ext (app files [item_path]))
                     | None => ret results
                     end
                   else ret results)
                   ((calls ++ [os_path_isfile (path_join directory item)])%list,
                    w)
                 = (Return results',
                    ((calls
                      ++ os_path_isfile (path_join directory item)
                         :: map (fun item =>
                                   os_path_isfile (path_join directory item))
                              listing)%list, w)) /\
                 keys results' = keys results /\
                 (forall ext path,
                     In path (bucket results' ext) ->
                     In path (bucket results ext) \/
                     exists item0,
                       (item = item0 \/ In item0 listing) /\
                       path = path_join directory item0 /\
                       find (fun e => endswith (lower_str item0) e) extensions
                       = Some ext) /\
                 filed results' <= filed results + S (length listing)).
    { intros results1 Hk1 Hb1 Hf1.
      destruct (IH results1
                  (calls ++ [os_path_isfile (path_join directory item)])%list w)
        as (results' & Hrun & Hk & Hb & Hf).
      { intros ext Hext. rewrite Hk1. now apply Hkeys. }
      exists results'. rewrite <- app_assoc in Hrun.
      split; [exact Hrun|]. split; [congruence|]. split; [|lia].
      intros ext path Hin. destruct (Hb ext path Hin) as [H|(item0 & H1 & H2 & H3)].
      - destruct (Hb1 ext path H) as [H'|[H1 H2]]; [now left|].
        right. exists item. auto.
      - right. exists item0. auto. }
    destruct (on_probe host calls (trace w)
                (os_path_isfile (path_join directory item))).
    2:{ unfold ret at 1. apply Hstep; [reflexivity | auto | lia]. }
    destruct (find (fun ext => endswith (lower_str item) ext) extensions)
      as [ext|] eqn:Hfind.
    2:{ unfold ret at 1. apply Hstep; [reflexivity | auto | lia]. }
    assert (Hext : In ext extensions) by (apply find_some in Hfind; tauto).
    destruct (get_Some_of_key results ext (Hkeys ext Hext)) as [files Hget].
    unfold bind at 1, getitem. rewrite Hget. unfold ret at 1, ret at 1.
    apply Hstep.
    + rewrite keys_setitem, mem_of_key; [reflexivity | now apply Hkeys].
    + intros ext' path. rewrite bucket_setitem.
      destruct (ext =? ext') eqn:E; [|now left].
      apply String.eqb_eq in E. subst ext'. intros Hin.
      apply in_app_or in Hin as [Hin|[<-|[]]].
      * left. unfold bucket. now rewrite Hget.
      * right. split; reflexivity.
    + pose proof (filed_setitem results ext (files ++ [path_join directory item])
                    Hget) as H.
      rewrite length_app in H. cbn [length] in H. lia.
Qed.
End Scan.

(** [scan_directory_for_files]: a failing [os.listdir] is the only way
    to raise, and happens before any probe.  Otherwise the result has
    one key per extension given; every listed entry is probed once, in
    order; every path filed under an extension is the path of a listed
    entry whose lower-cased name ends with that extension and with
    none of the extensions given before it; and no more paths are
    filed than entries are listed. *)
Theorem scan_files_each_entry_under_its_first_extension :
  forall (env : Env) (host : Host) (directory : string)
         (extensions : list string) (calls : list host_call) (w : world),
    let run :=
      file_utils_for_tools.scan_directory_for_files env host directory
        extensions (calls, w) in
    match on_lines env (trace w) (os_listdir directory) with
    | inl e => fst run = Raise e /\ fst (snd run) = calls
    | inr listing =>
        exists results,
          fst run = Return results /\
          fst (snd run)
          = (calls ++ map (fun item => os_path_isfile (path_join directory item))
                        listing)%list /\
          NoDup (keys results) /\
          (forall ext, In ext (keys results) <-> In ext extensions) /\
          (forall ext path,
              In path (bucket results ext) ->
              exists item,
                In item listing /\ path = path_join directory item /\
                find (fun e => endswith (lower_str item) e) extensions
                = Some ext) /\
          filed results <= length listing
    end.
Proof.
  intros env host directory extensions calls w. cbv zeta.
  destruct (file_utils_for_tools.scan_directory_for_files env host directory
              extensions (calls, w)) as [r s'] eqn:E.
  cbn [fst snd]. revert E.
  unfold file_utils_for_tools.scan_directory_for_files. cbv zeta.
  unfold bind at 1, lift at 1, call_lines at 1. cbn [fst snd].
  destruct (on_lines env (trace w) (os_listdir directory)) as [e|listing];
    cbn [of_answer].
  - intros [= <- <-]. split; reflexivity.
  - destruct (@empty_buckets extensions [] (NoDup_nil _) (Forall_nil _))
      as (Hnd & Hkeys & Hempty). cbv zeta in Hnd, Hkeys, Hempty.
    destruct (filed_empty _ Hempty) as [Hfiled Hbuckets].
    destruct (@scan_loop host directory extensions listing
                (fold_left (fun d ext => setitem d ext []) extensions [])
                calls (record (os_listdir directory) w))
      as (results & Hrun & Hk & Hb & Hf).
    { intros ext Hext. apply Hkeys. now right. }
    cbv zeta in Hrun. rewrite Hrun. intros [= <- <-]. cbn [fst snd].
    exists results. split; [reflexivity|]. split; [reflexivity|].
    rewrite Hk. split; [exact Hnd|]. split.
    + intros ext. rewrite Hkeys. cbn [keys map In]. tauto.
    + split; [|lia]. intros ext path Hin.
      destruct (Hb ext path Hin) as [H|H]; [|exact H].
      rewrite Hbuckets in H. contradiction.
Qed.

(** ** The CSV context *)

Section Csv_context.
Import file_utils_for_tools.
Variable host : Host.

Let step := fun '(metadata, context_parts) csv_path =>
  file_metadata <- read_csv_metadata host csv_path 10 ;;
  match file_metadata with
  | sampled filename headers count sample_data =>
      @ret session _
        (app metadata [file_metadata],
         app context_parts
           [nl ++ "--- CSV File: " ++ filename ++ " ---";
            "Headers: " ++ join ", " headers;
            "Sample data (first " ++ str_int count ++ " rows):";
            join nl
              (firstn CSV_CONTEXT_SAMPLE_DATA_LINE_LIMIT
                 (split sample_data (ascii_of_nat 10)))])
  | unreadable filename error =>
      ret (metadata,
           app context_parts
             ["File: " ++ filename ++ " - Error: " ++ error])
  end.

End Csv_context.


(** ** The result cache *)

Section Cache.
Import CodeGenerationTool.

Lemma key_eqb_refl (key : cache_key) : key_eqb key key = true.
Proof.
  destruct key as [name items]. unfold key_eqb. cbn [fst snd].
  rewrite String.eqb_refl, Nat.eqb_refl. cbn [andb].
  induction items as [|[k v] items IH]; [reflexivity|].
  cbn [combine forallb fst snd]. now rewrite !String.eqb_refl, IH.
Qed.

Lemma cache_get_set (cache : Cache) key result :
  cache_get (cache_set cache key result) key = Some result.
Proof.
  induction cache as [|[key' result'] cache IH]; cbn [cache_set cache_get].
  - now rewrite key_eqb_refl.
  - destruct (key_eqb key' key) eqn:E; cbn [cache_get].
    + now rewrite key_eqb_refl.
    + now rewrite E.
Qed.

Variable cache_file : string.
Variable host : Host.

Lemma save_cache_keeps (s : tool_state) :
  exists session',
    _save_cache cache_file host s = (Return tt, (fst s, session')).
Proof.
  unfold _save_cache, bind, get_cache, try_except, in_session, host_effect,
    lift, logger.
  cbn [fst snd].
  destruct (on_call host _ _ _); cbn [fst snd]; eauto.
Qed.

Lemma cached_call_run name func arguments (s : tool_state) r s' :
  mcp_tool_cache cache_file host name func arguments s = (r, s') ->
  let key := (name, sorted arguments) in
  match cache_get (fst s) key with
  | Some result =>
      fst s' = fst s /\ forall v, r = Return v -> v = result
  | None =>
      (forall v, r = Return v -> fst (func arguments s) = Return v) /\
      (fst s' = fst (snd (func arguments s)) \/
       exists v,
         fst (func arguments s) = Return v /\
         _is_cacheable_result v = true /\
         fst s' = cache_set (fst (snd (func arguments s))) key v) /\
      (forall v, fst (func arguments s) = Return v ->
         _is_cacheable_result v = true ->
         fst s' = cache_set (fst (snd (func arguments s))) key v) /\
      (forall v, fst (func arguments s) = Return v ->
         _is_cacheable_result v = false ->
         fst s' = fst (snd (func arguments s)))
  end.
Proof.
  cbv zeta. unfold mcp_tool_cache. cbv zeta.
  unfold bind at 1, get_cache at 1. cbn [fst snd].
  destruct (cache_get (fst s) (name, sorted arguments)) as [result|].
  - unfold bind, in_session, host_effect, ret. cbn [fst snd].
    destruct (on_call host _ _ _); intros [= <- <-]; cbn [fst];
      (split; [reflexivity|]); [discriminate | now intros v [= <-]].
  - unfold bind at 1.
    destruct (func arguments s) as [[v|e] s1]; cbn [fst snd].
    2:{ intros [= <- <-]. cbn [fst]. split; [discriminate|].
        split; [now left|]. split; discriminate. }
    destruct (_is_cacheable_result v) eqn:Hc.
    2:{ unfold bind, ret. intros [= <- <-]. cbn [fst].
        split; [now intros v' [= <-]|]. split; [now left|].
        split; [intros v' [= <-]; congruence | reflexivity]. }
    unfold bind at 1, bind at 1, modify_cache at 1. cbn [fst snd].
    unfold bind at 1.
    destruct (save_cache_keeps
                (cache_set (fst s1) (name, sorted arguments) v, snd s1))
      as (session1 & Hsave).
    rewrite Hsave. cbn [fst snd].
    unfold in_session, host_effect, ret. cbn [fst snd].
    destruct (on_call host _ _ _); intros [= <- <-]; cbn [fst].
    + split; [discriminate|]. split; [right; eauto|].
      split; [now intros v' [= <-] | intros v' [= <-]; congruence].
    + split; [now intros v' [= <-]|]. split; [right; eauto|].
      split; [now intros v' [= <-] | intros v' [= <-]; congruence].
Qed.
End Cache.

(** A result the decorator has returned, unless it is an error
    dictionary, is returned again for the same function and keyword
    arguments as long as the cache is the same: the next call, on a
    context whose calls do not raise, does not run the function at
    all, and only tells the context that the result is cached. *)
Theorem a_cached_answer_is_repeated :
  forall (cache_file : string) (host : Host) (name : string)
         (func func' : CodeGenerationTool.kwargs ->
                       M CodeGenerationTool.tool_state
                         CodeGenerationTool.response)
         (arguments : CodeGenerationTool.kwargs)
         (s s' : CodeGenerationTool.tool_state)
         (result : CodeGenerationTool.response)
         (calls : list host_call) (w : world),
    CodeGenerationTool.mcp_tool_cache cache_file host name func arguments s
    = (Return result, s') ->
    CodeGenerationTool._is_cacheable_result result = true ->
    obliging host ->
    CodeGenerationTool.mcp_tool_cache cache_file host name func' arguments
      (fst s', (calls, w))
    = (Return result,
       (fst s',
        ((calls ++ [ctx_info ("Returning cached result for " ++ name)])%list,
         w))).
Proof.
  intros cache_file host name func func' arguments s s' result calls w
    Hrun Hc Hhost.
  assert (Hget : CodeGenerationTool.cache_get (fst s')
                   (name, CodeGenerationTool.sorted arguments) = Some result).
  { apply cached_call_run in Hrun. cbv zeta in Hrun.
    destruct (CodeGenerationTool.cache_get (fst s) _) as [cached|] eqn:Hhit.
    - destruct Hrun as [-> Hv]. now rewrite (Hv result eq_refl).
    - destruct Hrun as (Hret & _ & Hset & _).
      rewrite (Hset result (Hret result eq_refl) Hc).
      apply cache_get_set. }
  unfold CodeGenerationTool.mcp_tool_cache. cbv zeta.
  unfold bind at 1, CodeGenerationTool.get_cache at 1. cbn [fst snd].
  rewrite Hget.
  unfold bind, CodeGenerationTool.in_session, host_effect, ret.
  cbn [fst snd]. now rewrite Hhost.
Qed.

Lemma a_cached_answer_is_repeated_witness :
  CodeGenerationTool.mcp_tool_cache "/tmp/cache.pkl" easy_host "tool"
    (fun _ => raise pool_is_shut_down) [("input_dir", "/data")]
    (fst (snd (CodeGenerationTool.mcp_tool_cache "/tmp/cache.pkl" easy_host
                 "tool"
                 (fun _ => ret CodeGenerationTool._build_empty_response)
                 [("input_dir", "/data")] ([], ([], empty_world)))),
     ([], empty_world))
  = (Return CodeGenerationTool._build_empty_response,
     (fst (snd (CodeGenerationTool.mcp_tool_cache "/tmp/cache.pkl" easy_host
                  "tool"
                  (fun _ => ret CodeGenerationTool._build_empty_response)
                  [("input_dir", "/data")] ([], ([], empty_world)))),
      ([ctx_info "Returning cached result for tool"], empty_world))).
Proof.
  apply (@a_cached_answer_is_repeated "/tmp/cache.pkl" easy_host "tool"
           (fun _ => ret CodeGenerationTool._build_empty_response)
           (fun _ => raise pool_is_shut_down) [("input_dir", "/data")]
           ([], ([], empty_world))
           (snd (CodeGenerationTool.mcp_tool_cache "/tmp/cache.pkl" easy_host
                   "tool"
                   (fun _ => ret CodeGenerationTool._build_empty_response)
                   [("input_dir", "/data")] ([], ([], empty_world))))
           CodeGenerationTool._build_empty_response [] empty_world).
  - reflexivity.
  - reflexivity.
  - intros calls requests call. reflexivity.
Defined.

(** The decorator never caches an error dictionary.  For a function
    that leaves the cache alone, a call changes the cache only by
    storing, under the call's key, a result the function returned that
    is not an error dictionary; and a call that returns an error
    dictionary leaves the cache as it was. *)
Theorem errors_are_never_cached :
  forall (cache_file : string) (host : Host) (name : string)
         (func : CodeGenerationTool.kwargs ->
                 M CodeGenerationTool.tool_state CodeGenerationTool.response)
         (arguments : CodeGenerationTool.kwargs)
         (s : CodeGenerationTool.tool_state),
    (forall kw s0, fst (snd (func kw s0)) = fst s0) ->
    let run :=
      CodeGenerationTool.mcp_tool_cache cache_file host name func arguments s in
    (fst (snd run) = fst s \/
     exists result,
       CodeGenerationTool._is_cacheable_result result = true /\
       fst (func arguments s) = Return result /\
       fst (snd run)
       = CodeGenerationTool.cache_set (fst s)
           (name, CodeGenerationTool.sorted arguments) result) /\
    (forall message,
        fst run = Return (CodeGenerationTool.error message) ->
        fst (snd run) = fst s).
Proof.
  intros cache_file host name func arguments s Hfunc. cbv zeta.
  destruct (CodeGenerationTool.mcp_tool_cache cache_file host name func
              arguments s) as [r s'] eqn:Hrun.
  cbn [fst snd]. apply cached_call_run in Hrun. cbv zeta in Hrun.
  rewrite Hfunc in Hrun.
  destruct (CodeGenerationTool.cache_get (fst s) _) as [cached|].
  - destruct Hrun as [-> _]. split; [now left | reflexivity].
  - destruct Hrun as (Hret & Hcases & _ & Herr). split.
    + destruct Hcases as [H|(v & Hv & Hc & H)]; [now left|].
      right. exists v. auto.
    + intros message Hr. apply (Herr _ (Hret _ Hr)). reflexivity.
Qed.

Lemma errors_are_never_cached_witness :
  let run :=
    CodeGenerationTool.mcp_tool_cache "/tmp/cache.pkl" easy_host "tool"
      (fun _ => ret (CodeGenerationTool.error "Directory not found: /data"))
      [("input_dir", "/data")] ([], ([], empty_world)) in
  (fst (snd run) = [] \/
   exists result,
     CodeGenerationTool._is_cacheable_result result = true /\
     fst ((fun _ : CodeGenerationTool.kwargs =>
             @ret CodeGenerationTool.tool_state _
               (CodeGenerationTool.error "Directory not found: /data"))
            [("input_dir", "/data")] ([], ([], empty_world)))
     = Return result /\
     fst (snd run)
     = CodeGenerationTool.cache_set []
         ("tool", CodeGenerationTool.sorted [("input_dir", "/data")]) result) /\
  (forall message,
      fst run = Return (CodeGenerationTool.error message) ->
      fst (snd run) = []).
Proof.
  apply (@errors_are_never_cached "/tmp/cache.pkl" easy_host "tool"
           (fun _ => ret (CodeGenerationTool.error "Directory not found: /data"))
           [("input_dir", "/data")] ([], ([], empty_world))).
  intros kw s0. reflexivity.
Defined.

(** ** Gathering the legacy files *)

Section Gather.
Import BaseTool.
Variable env : Env.
Variable host : Host.
Variable with_ctx : bool.

Let step := fun '(legacy_files, legacy_contents) file_path =>
  content <- lift (file_utils.read_file_safely env file_path) ;;
  match content with
  | Some (String c rest) =>
      @ret session _
        (app legacy_files [basename file_path],
         app legacy_contents [String c rest])
  | _ =>
      (if with_ctx
       then host_effect host (ctx_warning ("Error reading " ++ file_path))
       else ret tt) ;;
      ret (legacy_files, legacy_contents)
  end.

Lemma gather_loop (paths : list string) :
  forall (legacy_files legacy_contents : list string) (s : session)
         legacy_files' legacy_contents' s',
    length legacy_files = length legacy_contents ->
    Forall (fun c => c <> "") legacy_contents ->
    for_fold paths (legacy_files, legacy_contents) step s
    = (Return (legacy_files', legacy_contents'), s') ->
    length legacy_files' = length legacy_contents' /\
    Forall (fun c => c <> "") legacy_contents'.
Proof.
  induction paths as [|p paths IH];
    intros legacy_files legacy_contents s files' contents' s' Hlen Hne;
    cbn [for_fold].
  - unfold ret. intros [= <- <- _]. now split.
  - unfold bind at 1, step at 1, bind at 1.
    destruct (lift (file_utils.read_file_safely env p) s)
      as [[[[|c rest]|]|e] s1]; try discriminate.
    + unfold bind at 1. destruct with_ctx.
      * unfold host_effect at 1.
        destruct (on_call host _ _ _); [discriminate|].
        unfold ret at 1. apply IH; assumption.
      * unfold ret at 1. unfold ret at 1. apply IH; assumption.
    + unfold ret at 1. apply IH.
      * rewrite !length_app. cbn [length]. lia.
      * apply Forall_app. split; [exact Hne|]. constructor; [discriminate|].
        constructor.
    + unfold bind at 1. destruct with_ctx.
      * unfold host_effect at 1.
        destruct (on_call host _ _ _); [discriminate|].
        unfold ret at 1. apply IH; assumption.
      * unfold ret at 1. unfold ret at 1. apply IH; assumption.
Qed.

Lemma format_is_empty filenames contents :
  length filenames = length contents ->
  (format_file_contents filenames contents = "" <-> filenames = []).
Proof.
  intros Hlen. unfold format_file_contents.
  destruct filenames as [|f filenames]; [tauto|].
  destruct contents as [|c contents]; [discriminate|].
  split; [|discriminate]. cbn [zip combine map]. unfold join.
  cbn [String.concat].
  destruct (map _ (combine filenames contents)); discriminate.
Qed.
End Gather.

(** What [gather_legacy_files] returns is consistent: it holds as many
    contents as file names, none of the contents is empty (a file that
    is missing, unreadable or empty is skipped), and the full code is
    empty exactly when no file was gathered. *)
Theorem gathered_files_match_their_contents :
  forall (env : Env) (host : Host) (directory legacy_extension : string)
         (with_ctx : bool) (s s' : session) (data : BaseTool.legacy_data),
    BaseTool.gather_legacy_files env host directory legacy_extension
      with_ctx s = (Return data, s') ->
    length (BaseTool.files data) = length (BaseTool.contents data) /\
    Forall (fun c => c <> "") (BaseTool.contents data) /\
    BaseTool.full_code data
    = BaseTool.format_file_contents (BaseTool.files data)
        (BaseTool.contents data) /\
    (BaseTool.full_code data = "" <-> BaseTool.files data = []).
Proof.
  intros env host directory legacy_extension with_ctx s s' data.
  unfold BaseTool.gather_legacy_files. unfold bind at 1.
  destruct (file_utils_for_tools.scan_directory_for_files env host directory
              [legacy_extension] s) as [[scanned|e] s1]; [|discriminate].
  unfold bind at 1.
  unfold getitem at 1.
  destruct (get scanned legacy_extension) as [paths|]; [|discriminate].
  unfold ret at 1.
  unfold bind at 1.
  match goal with
  | |- context [for_fold paths ?acc ?body s1] =>
      destruct (for_fold paths acc body s1) as [[[files' contents']|e] s3]
        eqn:Hloop; [|discriminate]
  end.
  apply (@gather_loop env host with_ctx paths [] [] s1 files' contents' s3
           eq_refl (Forall_nil _)) in Hloop as [Hlen Hne].
  unfold ret. intros [= <- _].
  cbn [BaseTool.files BaseTool.contents BaseTool.full_code].
  split; [exact Hlen|]. split; [exact Hne|]. split; [reflexivity|].
  now apply format_is_empty.
Qed.

Lemma gathered_files_match_their_contents_witness :
  exists data s',
    BaseTool.gather_legacy_files data_directory picky_host "/data" ".sql"
      true ([], empty_world) = (Return data, s') /\
    BaseTool.files data = ["legacy.sql"] /\
    length (BaseTool.files data) = length (BaseTool.contents data) /\
    Forall (fun c => c <> "") (BaseTool.contents data) /\
    BaseTool.full_code data
    = BaseTool.format_file_contents (BaseTool.files data)
        (BaseTool.contents data) /\
    (BaseTool.full_code data = "" <-> BaseTool.files data = []).
Proof.
  do 2 eexists. split; [vm_compute; reflexivity|]. split; [reflexivity|].
  eapply (@gathered_files_match_their_contents data_directory picky_host
            "/data" ".sql" true ([], empty_world)).
  vm_compute. reflexivity.
Defined.

(** ** Bootstrapping without files *)

Section Bootstrap.
Import CodeGenerationTool.
Variable client : Env.
Variable config : OpenAIService.LegacyEtlMcpConfig.
Variable legacy_etl_code_description : string.
Variable system_prompt_template : string.
Variable strip : string -> string.
Variable cache_file : string.
Variable host : Host.
Hypothesis host_obliges : obliging host.

Lemma bootstrap_missing_run input_dir (cache : Cache) calls w :
  cache_get cache ("code_bootstrap_agent", [("input_dir", input_dir)]) = None ->
  on_probe host
    (calls ++ [ctx_info ("Generating Python code from files in: "
                         ++ input_dir)])
    (trace w) (os_path_isdir input_dir) = false ->
  code_bootstrap_agent client config legacy_etl_code_description
    system_prompt_template strip cache_file host input_dir
    (cache, (calls, w))
  = (Return (error ("Directory not found: " ++ input_dir)),
     (cache,
      ((calls
        ++ [ctx_info ("Generating Python code from files in: " ++ input_dir);
            os_path_isdir input_dir;
            ctx_error ("Directory not found: " ++ input_dir)])%list,
       w))).
Proof.
  intros Hmiss Hdir.
  unfold code_bootstrap_agent, mcp_tool_cache. cbv zeta.
  change (sorted [("input_dir", input_dir)]) with [("input_dir", input_dir)].
  unfold bind at 1, get_cache at 1. cbn [fst snd].
  destruct (cache_get cache _) as [cached|] eqn:E;
    [discriminate|]. clear E.
  unfold bind at 1, code_bootstrap_agent_func.
  change ("input_dir" =? "input_dir") with true. cbv iota.
  unfold in_session at 1. cbn [fst snd].
  unfold code_bootstrap_agent_body.
  unfold bind at 1. rewrite (host_effect_run host_obliges). cbn [fst snd].
  unfold bind at 1, BaseTool.validate_directory, bind at 1, host_test at 1.
  cbn [fst snd]. rewrite Hdir. cbn [negb]. cbv zeta.
  unfold bind at 1. rewrite (host_effect_run host_obliges). cbn [fst snd].
  unfold ret at 1. unfold ret at 1. unfold build_error_response.
  cbn [_is_cacheable_result]. unfold bind, ret.
  rewrite <- !app_assoc. reflexivity.
Qed.
End Bootstrap.

(** [code_bootstrap_agent] on a path that is no directory, on a
    context whose calls do not raise and with nothing cached for the
    call: it returns the error dictionary [Directory not found], after
    telling the context of the start and of the error; it lists no
    directory, reads no file, asks no model, writes no log, and leaves
    the cache as it was. *)
Theorem bootstrap_of_a_missing_directory :
  forall (client : Env) (config : OpenAIService.LegacyEtlMcpConfig)
         (legacy_etl_code_description system_prompt_template : string)
         (strip : string -> string) (cache_file : string) (host : Host)
         (input_dir : string) (cache : CodeGenerationTool.Cache)
         (calls : list host_call) (w : world),
    obliging host ->
    CodeGenerationTool.cache_get cache
      ("code_bootstrap_agent",
       CodeGenerationTool.sorted [("input_dir", input_dir)]) = None ->
    on_probe host
      (calls ++ [ctx_info ("Generating Python code from files in: "
                           ++ input_dir)])
      (trace w) (os_path_isdir input_dir) = false ->
    CodeGenerationTool.code_bootstrap_agent client config
      legacy_etl_code_description system_prompt_template strip cache_file host
      input_dir (cache, (calls, w))
    = (Return (CodeGenerationTool.error ("Directory not found: " ++ input_dir)),
       (cache,
        ((calls
          ++ [ctx_info ("Generating Python code from files in: " ++ input_dir);
              os_path_isdir input_dir;
              ctx_error ("Directory not found: " ++ input_dir)])%list,
         w))).
Proof.
  intros client config description template strip cache_file host input_dir
    cache calls w Hhost Hmiss Hdir.
  now apply bootstrap_missing_run.
Qed.

Lemma bootstrap_of_a_missing_directory_witness :
  CodeGenerationTool.code_bootstrap_agent agreeable two_deployments "SQL"
    prompts.LEGACY_ETL_MIGRATION_SYSTEM_PROMPT unpadded "/tmp/cache.pkl"
    no_directory "/invalid/path" ([], ([], empty_world))
  = (Return (CodeGenerationTool.error "Directory not found: /invalid/path"),
     ([],
      ([ctx_info "Generating Python code from files in: /invalid/path";
        os_path_isdir "/invalid/path";
        ctx_error "Directory not found: /invalid/path"],
       empty_world))).
Proof.
  apply (@bootstrap_of_a_missing_directory agreeable two_deployments "SQL"
           prompts.LEGACY_ETL_MIGRATION_SYSTEM_PROMPT unpadded
           "/tmp/cache.pkl" no_directory "/invalid/path" [] [] empty_world).
  - intros calls requests call. reflexivity.
  - reflexivity.
  - reflexivity.
Defined.

(** ** A generation that fails *)

(** [code_bootstrap_agent] on a directory, with nothing cached for the
    call and a context whose calls do not raise: when [execute] raises
    [e], the tool does not raise; it returns the error dictionary of
    [str(e)], after logging [Error generating code: e] at level error
    and sending the same text to [ctx.error]; the cache is left as it
    was and is not saved. *)
Theorem a_failed_generation_is_reported_not_raised :
  forall (client : Env) (config : OpenAIService.LegacyEtlMcpConfig)
         (legacy_etl_code_description system_prompt_template : string)
         (strip : string -> string) (cache_file : string) (host : Host)
         (input_dir : string) (cache : CodeGenerationTool.Cache)
         (calls : list host_call) (w : world) (e : exn) (s1 : session),
    obliging host ->
    CodeGenerationTool.cache_get cache
      ("code_bootstrap_agent",
       CodeGenerationTool.sorted [("input_dir", input_dir)]) = None ->
    on_probe host
      (calls ++ [ctx_info ("Generating Python code from files in: "
                           ++ input_dir)])
      (trace w) (os_path_isdir input_dir) = true ->
    CodeGenerationTool.execute client config legacy_etl_code_description
      system_prompt_template strip host input_dir
      ((calls
        ++ [ctx_info ("Generating Python code from files in: " ++ input_dir);
            os_path_isdir input_dir])%list, w)
    = (Raise e, s1) ->
    CodeGenerationTool.code_bootstrap_agent client config
      legacy_etl_code_description system_prompt_template strip cache_file host
      input_dir (cache, (calls, w))
    = (Return (CodeGenerationTool.error (str_exn e)),
       (cache,
        ((fst s1
          ++ [ctx_error ("Error generating code: " ++ str_exn e)])%list,
         {| trace := trace (snd s1);
            log := (log (snd s1)
                    ++ [(ERROR, ("Error generating code: " ++ str_exn e)%string)])%list
         |}))).
Proof.
  intros client config description template strip cache_file host input_dir
    cache calls w e s1 Hhost Hmiss Hdir Hrun.
  unfold CodeGenerationTool.code_bootstrap_agent,
    CodeGenerationTool.mcp_tool_cache. cbv zeta.
  unfold bind at 1, CodeGenerationTool.get_cache at 1. cbn [fst snd].
  destruct (CodeGenerationTool.cache_get cache _) as [cached|];
    [discriminate|].
  unfold bind at 1, CodeGenerationTool.code_bootstrap_agent_func.
  change ("input_dir" =? "input_dir") with true. cbv iota.
  unfold CodeGenerationTool.in_session at 1. cbn [fst snd].
  unfold CodeGenerationTool.code_bootstrap_agent_body.
  unfold bind at 1. rewrite (host_effect_run Hhost). cbn [fst snd].
  unfold bind at 1, BaseTool.validate_directory, bind at 1, host_test at 1.
  cbn [fst snd]. rewrite Hdir. cbn [negb]. unfold ret at 1.
  unfold try_except at 1. rewrite <- app_assoc. cbn [app].
  rewrite Hrun. cbv zeta.
  unfold bind at 1, lift at 1, logger at 1. cbn [fst snd].
  destruct s1 as [calls1 w1]. cbn [fst snd].
  unfold bind at 1. rewrite (host_effect_run Hhost). cbn [fst snd].
  unfold ret at 1. unfold CodeGenerationTool.build_error_response.
  cbn [CodeGenerationTool._is_cacheable_result]. unfold bind, ret.
  reflexivity.
Qed.

Lemma a_failed_generation_is_reported_not_raised_witness :
  CodeGenerationTool.code_bootstrap_agent unlistable two_deployments "SQL"
    prompts.LEGACY_ETL_MIGRATION_SYSTEM_PROMPT unpadded "/tmp/cache.pkl"
    easy_host "/data" ([], ([], empty_world))
  = (Return (CodeGenerationTool.error "[Errno 13] Permission denied: '/data'"),
     ([],
      ([ctx_info "Generating Python code from files in: /data";
        os_path_isdir "/data";
        ctx_error "Error generating code: [Errno 13] Permission denied: '/data'"],
       {| trace := [os_listdir "/data"];
          log := [(ERROR, "Error generating code: [Errno 13] Permission denied: '/data'")] |}))).
Proof.
  apply (@a_failed_generation_is_reported_not_raised unlistable two_deployments
           "SQL" prompts.LEGACY_ETL_MIGRATION_SYSTEM_PROMPT unpadded
           "/tmp/cache.pkl" easy_host "/data" [] [] empty_world
           (Exn "PermissionError" "[Errno 13] Permission denied: '/data'")
           ([ctx_info "Generating Python code from files in: /data";
             os_path_isdir "/data"],
            {| trace := [os_listdir "/data"]; log := [] |})).
  - intros calls requests call. reflexivity.
  - reflexivity.
  - reflexivity.
  - vm_compute. reflexivity.
Defined.

(** ** What the comparison runner hands to the collection step *)

Lemma attempts_not_prefixed (client : Env)
    (context : CSVComparisonAgentService.AgentContext) range :
  forall w s w',
    CSVComparisonAgentService.attempts client context range w = (Return s, w') ->
    startswith s "Error:" = false.
Proof.
  induction range as [|attempt range IH]; intros w s w';
    cbn [CSVComparisonAgentService.attempts].
  - unfold ret. intros [= <- _]. reflexivity.
  - intros H. apply bind_Return_inv in H as (run & w1 & _ & H).
    destruct (status run =? "failed").
    + apply bind_Return_inv in H as ([] & w2 & _ & H).
      unfold ret in H. injection H as <- _. reflexivity.
    + apply bind_Return_inv in H as (m & w2 & _ & H).
      destruct (CSVComparisonAgentService._is_task_completed m).
      * apply extract_shape in H as [->|(rest & ->)]; reflexivity.
      * apply bind_Return_inv in H as ([] & w3 & _ & H). eapply IH, H.
Qed.

Lemma comparison_runner_not_prefixed (client : Env)
    (python_output_path legacy_output_path task model_name : string) (w : world) :
  exists s w',
    CSVComparisonAgentService._run_comparison_sync client python_output_path
      legacy_output_path task model_name w = (Return s, w') /\
    startswith s "Error:" = false.
Proof.
  unfold CSVComparisonAgentService._run_comparison_sync, with_context,
    try_finally, try_except.
  match goal with
  | |- context [let (_, _) := (match ?body ?s0 with _ => _ end) in _] =>
      destruct (body s0) as [[s|e] [context w1]] eqn:Hbody
  end.
  - destruct (context_release_run client context w1) as (w2 & -> & _).
    exists s, w2. split; [reflexivity|].
    apply bind_Return_inv in Hbody as ([] & st1 & _ & Hbody).
    apply bind_Return_inv in Hbody as ([] & st2 & _ & Hbody).
    apply bind_Return_inv in Hbody as ([] & [c3 w3] & _ & Hbody).
    rewrite execute_agent_task_run in Hbody. cbv zeta in Hbody.
    destruct (on_effect client (trace w3) _); [discriminate|].
    destruct (CSVComparisonAgentService.attempts client c3 _ _)
      as [[s'|e] w4] eqn:Hrun; [|discriminate].
    cbn [fst snd] in Hbody. injection Hbody as <- _ _.
    eapply attempts_not_prefixed, Hrun.
  - unfold bind at 1, lift, logger. cbn [fst snd]. unfold ret at 1.
    match goal with
    | |- context [CSVComparisonAgentService._cleanup_agent_resources client
                    (context, ?w0)] =>
        destruct (context_release_run client context w0) as (w2 & -> & _)
    end.
    do 2 eexists. split; reflexivity.
Qed.

(** A comparison task counts as failed for the collection step only
    when it could not be handed to the pool. *)
Lemma comparison_failed_by_hand_over (self : CSVComparisonAgentService.service)
    position python_output_path legacy_output_path task model_name :
  failed (CSVComparisonAgentService._run_single_comparison self position
            python_output_path legacy_output_path task model_name)
  = match submit_error (CSVComparisonAgentService._executor self position) with
    | Some _ => true
    | None => false
    end.
Proof.
  unfold CSVComparisonAgentService._run_single_comparison, run_in_executor.
  destruct (submit_error _); [reflexivity|].
  destruct (comparison_runner_not_prefixed
              (meets (CSVComparisonAgentService._executor self position))
              python_output_path legacy_output_path task model_name empty_world)
    as (s & w' & -> & Hs).
  exact Hs.
Qed.

Lemma gather_failed_from (self : CSVComparisonAgentService.service)
    python_output_path legacy_output_path task (names : list string) :
  forall start,
    Forall (fun r => failed r = true)
      (map (fun '(position, model) =>
              CSVComparisonAgentService._run_single_comparison self position
                python_output_path legacy_output_path task model)
           (enumerate names start))
    <-> forall i,
          i < length names ->
          submit_error (CSVComparisonAgentService._executor self (start + i))
          <> None.
Proof.
  induction names as [|name names IH]; intros start; cbn [enumerate map length].
  - split; [intros _ i Hi; inversion Hi | constructor].
  - rewrite Forall_cons_iff, comparison_failed_by_hand_over, (IH (S start)).
    split.
    + intros [Hhere Hrest] [|i] Hi.
      * rewrite Nat.add_0_r. now destruct (submit_error _).
      * rewrite Nat.add_succ_r. apply Hrest. lia.
    + intros H. split.
      * specialize (H 0 (Nat.lt_0_succ _)). rewrite Nat.add_0_r in H.
        now destruct (submit_error _).
      * intros i Hi. specialize (H (S i) (proj1 (Nat.succ_lt_mono _ _) Hi)).
        now rewrite Nat.add_succ_r in H.
Qed.

Lemma comparison_gather_failed (self : CSVComparisonAgentService.service)
    python_output_path legacy_output_path task :
  Forall (fun r => failed r = true)
    (CSVComparisonAgentService.gather self python_output_path
       legacy_output_path task)
  <-> forall position,
        position < length (CSVComparisonAgentService.model_deployments self) ->
        submit_error (CSVComparisonAgentService._executor self position)
        <> None.
Proof.
  unfold CSVComparisonAgentService.gather. apply gather_failed_from.
Qed.

(** ** Failed comparisons and the fan-out *)

(** C7 fails on the comparison service.  Its fan-out returns the
    all-models-failed value exactly when no task could be handed to the
    pool: a task that ran and failed returns a text that does not start
    with [Error:], which the collection step keeps.  Of three models
    one meets a refused upload, one a failed run and one exhausts its
    attempts: every model fails, yet the fan-out asks the arbiter to
    choose among the three failure texts and returns the first as the
    comparison.  The reorder fan-out over tasks in the same troubles
    raises [ReorderServiceError]. *)
Theorem failed_comparisons_are_not_signalled :
  (forall (self : CSVComparisonAgentService.service)
          (python_output_path legacy_output_path task : string) (w : world),
      fst (CSVComparisonAgentService._run_parallel_comparisons self
             python_output_path legacy_output_path task w)
      = Return CSVComparisonAgentService.all_models_failed
      <-> forall position,
            position
            < length (CSVComparisonAgentService.model_deployments self) ->
            submit_error (CSVComparisonAgentService._executor self position)
            <> None) /\
  CSVComparisonAgentService.gather all_in_trouble
    "/data/out_PY.csv" "/data/out.csv" "compare"
  = [Return "An error occurred during agent processing with model gpt-4: upload refused";
     Return "Run failed: rate_limit_exceeded";
     Return "Maximum attempts reached without task completion for model gpt-4o"]
  /\
  CSVComparisonAgentService._run_parallel_comparisons all_in_trouble
    "/data/out_PY.csv" "/data/out.csv" "compare" empty_world
  = (Return "An error occurred during agent processing with model gpt-4: upload refused",
     {| trace :=
          [judge_request three_deployments plain_template
             [("gpt-4",
               "An error occurred during agent processing with model gpt-4: upload refused");
              ("gpt-4.1", "Run failed: rate_limit_exceeded");
              ("gpt-4o",
               "Maximum attempts reached without task completion for model gpt-4o")]];
        log := [] |})
  /\
  ReorderService.gather reorder_in_trouble "/data/source.csv" "/data/out.csv"
  = [Return "Error: upload refused";
     Return "Error: Run failed: rate_limit_exceeded";
     Return "Error: No reordered output was generated"]
  /\
  ReorderService.reorder_csv_files reorder_in_trouble
    "/data/source.csv" "/data/out.csv" empty_world
  = (Raise ReorderService.all_models_failed, empty_world).
Proof.
  split; [|repeat split].
  intros self p l t w. rewrite <- comparison_gather_failed. split.
  - apply (proj1 (proj2 (proj2 (proj2 empty_mapping_is_signalled)))).
  - intros Hall.
    destruct (proj1 empty_mapping_is_signalled self p l t w Hall)
      as (w' & -> & _).
    reflexivity.
Qed.

Lemma successes_all pairs :
  Forall (fun p => failed (snd p) = false) pairs ->
  keys (successes pairs) = map fst pairs.
Proof.
  induction 1 as [|[m [s|e]] pairs Hp _ IH]; [reflexivity| |discriminate].
  unfold successes in *. cbn [flat_map map fst]. cbn [snd] in Hp.
  rewrite Hp. cbn [app]. unfold keys in *. cbn [map fst]. now rewrite IH.
Qed.

Lemma zip_names {B} (names : list string) : forall results : list B,
  length names = length results -> map fst (zip names results) = names.
Proof.
  unfold zip. induction names as [|n names IH]; intros [|r results] Hlen;
    try discriminate; [reflexivity|].
  cbn [combine map fst]. f_equal. apply IH. now injection Hlen.
Qed.

Lemma comparison_gather_kept (self : CSVComparisonAgentService.service)
    python_output_path legacy_output_path task :
  NoDup (CSVComparisonAgentService.model_deployments self) ->
  (forall position,
      position < length (CSVComparisonAgentService.model_deployments self) ->
      submit_error (CSVComparisonAgentService._executor self position) = None) ->
  keys (kept (zip (CSVComparisonAgentService.model_deployments self)
                (CSVComparisonAgentService.gather self python_output_path
                   legacy_output_path task)) [])
  = CSVComparisonAgentService.model_deployments self.
Proof.
  intros Hnames Hpool.
  pose proof (comparison_gather_length self python_output_path
                legacy_output_path task) as Hlen.
  rewrite kept_fresh.
  - cbn [app]. rewrite successes_all; [now apply zip_names|].
    apply Forall_forall. intros [m r] Hin. cbn [snd].
    unfold zip in Hin. apply in_combine_r in Hin.
    unfold CSVComparisonAgentService.gather in Hin.
    apply in_map_iff in Hin as ([position model] & <- & Hin).
    rewrite comparison_failed_by_hand_over.
    destruct (submit_error _) eqn:Hsub; [|reflexivity].
    exfalso. apply In_nth_error in Hin as (i & Hi).
    assert (Hpos : position < length (CSVComparisonAgentService.model_deployments self)).
    { clear - Hi.
      assert (H : forall (xs : list string) start i position model,
                 nth_error (enumerate xs start) i = Some (position, model) ->
                 start <= position < start + length xs).
      { induction xs as [|x xs IH]; intros start [|j] pos mdl H;
          cbn [enumerate nth_error length] in *; try discriminate.
        - injection H as <- _. lia.
        - apply IH in H. lia. }
      apply H in Hi. lia. }
    rewrite (Hpool position Hpos) in Hsub. discriminate.
  - rewrite zip_names; assumption.
  - intros k _ [].
Qed.

(** C2 fails on the comparison service.  Whenever two or more
    distinctly named deployments are configured and every task is
    handed to the pool, the success mapping holds every model, whatever
    became of its task, and the arbiter is asked once.  Of two models
    the first succeeds and the second meets a refused upload: exactly
    one model succeeds, yet the fan-out asks the arbiter to choose
    between the result and the failure text, and returns the failure
    text when the arbiter answers [2]. *)
Theorem lone_success_meets_the_judge :
  (forall (self : CSVComparisonAgentService.service)
          (python_output_path legacy_output_path task : string) (w : world),
      NoDup (CSVComparisonAgentService.model_deployments self) ->
      2 <= length (CSVComparisonAgentService.model_deployments self) ->
      (forall position,
          position
          < length (CSVComparisonAgentService.model_deployments self) ->
          submit_error (CSVComparisonAgentService._executor self position)
          = None) ->
      let d := kept (zip (CSVComparisonAgentService.model_deployments self)
                       (CSVComparisonAgentService.gather self
                          python_output_path legacy_output_path task)) [] in
      keys d = CSVComparisonAgentService.model_deployments self /\
      exists v w',
        CSVComparisonAgentService._run_parallel_comparisons self
          python_output_path legacy_output_path task w = (Return v, w') /\
        In v (values d) /\
        trace w'
        = (trace w
           ++ [judge_request (CSVComparisonAgentService.config self)
                 (CSVComparisonAgentService.CSV_OUTPUT_SELECTION_USER_PROMPT_TEMPLATE
                    self) d])%list) /\
  CSVComparisonAgentService.gather success_beside_failure
    "/data/out_PY.csv" "/data/out.csv" "compare"
  = [Return ("# Row Location" ++ nl ++ "332" ++ nl ++ nl);
     Return "An error occurred during agent processing with model gpt-4o: upload refused"]
  /\
  CSVComparisonAgentService._run_parallel_comparisons success_beside_failure
    "/data/out_PY.csv" "/data/out.csv" "compare" empty_world
  = (Return "An error occurred during agent processing with model gpt-4o: upload refused",
     {| trace :=
          [judge_request two_deployments plain_template
             [("gpt-4", "# Row Location" ++ nl ++ "332" ++ nl ++ nl);
              ("gpt-4o",
               "An error occurred during agent processing with model gpt-4o: upload refused")]];
        log := [] |}).
Proof.
  split; [|split; reflexivity].
  intros self p l t w Hnames Htwo Hpool d.
  pose proof (comparison_gather_kept self p l t Hnames Hpool) as Hkeys.
  fold d in Hkeys. split; [exact Hkeys|].
  assert (Hlen : 2 <= len d).
  { unfold len. unfold keys in Hkeys.
    rewrite <- (length_map fst), Hkeys. exact Htwo. }
  destruct (comparison_fan_out_run self p l t w) as (w1 & Htrace & Hrun).
  fold d in Hrun. rewrite Hrun. clear Hrun.
  replace (Nat.eqb (len d) 0) with false by (symmetry; apply Nat.eqb_neq; lia).
  replace (Nat.eqb (len d) 1) with false by (symmetry; apply Nat.eqb_neq; lia).
  destruct (@select_in_values (CSVComparisonAgentService.environment self)
              (CSVComparisonAgentService.config self)
              (CSVComparisonAgentService.strip self)
              (CSVComparisonAgentService.int self)
              (CSVComparisonAgentService.CSV_OUTPUT_SELECTION_USER_PROMPT_TEMPLATE self)
              d w1 Hlen) as (v & w' & Hsel & Hin).
  destruct (@select_run (CSVComparisonAgentService.environment self)
              (CSVComparisonAgentService.config self)
              (CSVComparisonAgentService.strip self)
              (CSVComparisonAgentService.int self)
              (CSVComparisonAgentService.CSV_OUTPUT_SELECTION_USER_PROMPT_TEMPLATE self)
              d w1 Hlen) as (v' & w'' & Hsel' & Htr & _).
  rewrite Hsel in Hsel'. injection Hsel' as <- <-.
  exists v, w'. split; [exact Hsel|]. split; [exact Hin|].
  now rewrite Htr, Htrace.
Qed.

(** The general part at work, on the two deployments above. *)
Lemma lone_success_meets_the_judge_witness :
  exists v w',
    CSVComparisonAgentService._run_parallel_comparisons success_beside_failure
      "/data/out_PY.csv" "/data/out.csv" "compare" empty_world = (Return v, w') /\
    length (trace w') = 1.
Proof.
  destruct (proj1 lone_success_meets_the_judge success_beside_failure
              "/data/out_PY.csv" "/data/out.csv" "compare" empty_world)
    as (_ & v & w' & Hrun & _ & Htrace).
  - repeat constructor; simpl; intuition discriminate.
  - simpl. lia.
  - intros [|[|position]] Hlt; [reflexivity | reflexivity | simpl in Hlt; lia].
  - exists v, w'. split; [exact Hrun|]. now rewrite Htrace.
Defined.

(** ** A task that completes without a result *)

Section Empty_handed.
Import BaseAgentService CSVComparisonAgentService.
Variable client : Env.

Lemma attempts_quiet_prefix (context : AgentContext) range1 range2 :
  forall w,
    all_quiet client (trace w) (protocol_of context range1) = true ->
    attempts client context (range1 ++ range2) w
    = attempts client context range2
        {| trace := trace w ++ protocol_of context range1; log := log w |}.
Proof.
  induction range1 as [|attempt range1 IH]; intros w.
  - intros _. cbn [app protocol_of flat_map]. rewrite app_nil_r.
    now rewrite world_eta.
  - change ((attempt :: range1) ++ range2)%list
      with (attempt :: (range1 ++ range2))%list.
    cbn [attempts protocol_of flat_map].
    fold (protocol_of context range1).
    rewrite all_quiet_attempt.
    unfold bind at 1. unfold call_run at 1. cbn [fst snd].
    fold (run_request context).
    destruct (on_run client (trace w) (run_request context)) as [e|run];
      cbn [of_answer]; [discriminate|].
    destruct (status run =? "failed"); cbn [negb andb]; [discriminate|].
    unfold bind at 1. unfold _get_last_agent_message at 1, call_last_message at 1.
    fold (read_request context). cbn [record trace log fst snd].
    destruct (on_last_message client (trace w ++ [run_request context])
                (read_request context)) as [e|m]; cbn [of_answer];
      [discriminate|].
    destruct (_is_task_completed m); cbn [negb andb]; [discriminate|].
    destruct (Nat.ltb attempt MAX_ATTEMPTS).
    + unfold bind at 1. unfold _send_continuation_prompt at 1, call_effect at 1.
      fold (nudge context). cbn [record trace log fst snd].
      rewrite <- !app_assoc. cbn [app].
      destruct (on_effect client _ (nudge context)) as [e|]; [discriminate|].
      intros Hq.
      rewrite IH by (cbn [record trace]; rewrite <- !app_assoc; exact Hq).
      unfold record. cbn [trace log]. rewrite <- !app_assoc. reflexivity.
    + unfold bind at 1. unfold ret at 1.
      intros Hq.
      rewrite IH by (cbn [record trace]; rewrite <- !app_assoc; exact Hq).
      unfold record. cbn [trace log]. rewrite <- !app_assoc. reflexivity.
Qed.

Lemma attempts_detect (context : AgentContext) attempt rest w run m :
  on_run client (trace w) (run_request context) = inr run ->
  (status run =? "failed") = false ->
  on_last_message client (trace w ++ [run_request context])
    (read_request context) = inr m ->
  _is_task_completed m = true ->
  attempts client context (attempt :: rest) w
  = _extract_csv_results client (thread_id context) (model_name context)
      {| trace := trace w ++ [run_request context; read_request context];
         log := log w |}.
Proof.
  intros Hrun Hstatus Hread Hdone. cbn [attempts].
  unfold bind at 1. unfold call_run at 1. cbn [fst snd].
  fold (run_request context). rewrite Hrun. cbn [of_answer]. rewrite Hstatus.
  unfold bind at 1. unfold _get_last_agent_message at 1, call_last_message at 1.
  fold (read_request context). cbn [record trace log fst snd].
  rewrite Hread. cbn [of_answer]. rewrite Hdone.
  unfold record. cbn [trace log]. rewrite <- ?app_assoc. reflexivity.
Qed.

Lemma attempts_sentinel (context : AgentContext) n w :
  n < MAX_ATTEMPTS ->
  sentinel_after client context (trace w) n = true ->
  attempts client context (seq 1 MAX_ATTEMPTS) w
  = _extract_csv_results client (thread_id context) (model_name context)
      {| trace := trace w ++ protocol_of context (seq 1 n)
                  ++ [run_request context; read_request context];
         log := log w |}.
Proof.
  intros Hn Hs. unfold sentinel_after in Hs. cbv zeta in Hs.
  apply andb_prop in Hs as [Hquiet Hs].
  replace MAX_ATTEMPTS with (n + S (MAX_ATTEMPTS - S n)) at 1 by lia.
  rewrite seq_app. cbn [seq].
  rewrite attempts_quiet_prefix by exact Hquiet.
  destruct (on_run client _ (run_request context)) as [e|run] eqn:Hrun;
    [discriminate|].
  apply andb_prop in Hs as [Hstatus Hs].
  destruct (on_last_message client _ (read_request context)) as [e|m] eqn:Hread;
    [discriminate|].
  erewrite attempts_detect;
    [| exact Hrun | now apply negb_true_iff in Hstatus | exact Hread | exact Hs].
  cbn [trace log]. now rewrite <- app_assoc.
Qed.

Lemma failed_download_run model h fid requests w :
  failed_download client model h fid = Some requests ->
  trace w = h ->
  exists w',
    _download_and_read_csv client fid model w = (Return None, w') /\
    trace w' = (h ++ requests)%list /\
    length (log w') = S (length (log w)).
Proof.
  intros Hfail <-. rewrite download_run. cbv zeta.
  unfold failed_download in Hfail. cbv zeta in Hfail.
  destruct (on_effect client (trace w) _) as [e|].
  { injection Hfail as <-. eexists. split; [reflexivity|].
    cbn [trace log]. rewrite length_app. cbn [length]. split; [reflexivity | lia]. }
  destruct (on_text client _ _) as [e|content].
  { injection Hfail as <-. eexists. split; [reflexivity|].
    cbn [trace log]. rewrite length_app. cbn [length]. split; [reflexivity | lia]. }
  destruct (on_effect client _ _) as [e|]; [|discriminate].
  injection Hfail as <-. eexists. split; [reflexivity|].
  cbn [trace log]. rewrite length_app. cbn [length]. split; [reflexivity | lia].
Qed.

Lemma skip_failed_downloads model annotations : forall rest parts w,
  all_downloads_fail client model (trace w)
    (map file_id annotations ++ rest) = true ->
  exists w',
    for_fold annotations parts
      (fun parts annotation =>
         csv_content <- _download_and_read_csv client (file_id annotation) model ;;
         match csv_content with
         | Some content =>
             if truthy content
             then
               let file_name := _format_csv_name (annotation_text annotation) in
               let part := "# " ++ file_name ++ nl ++ content ++ nl ++ nl in
               ret (app parts [part])
             else ret parts
         | None => ret parts
         end) w
    = (Return parts, w') /\
    all_downloads_fail client model (trace w') rest = true /\
    length (log w') = length (log w) + length annotations.
Proof.
  induction annotations as [|a annotations IH]; intros rest parts w Hfail;
    cbn [for_fold map app length] in *.
  - exists w. split; [reflexivity|]. split; [exact Hfail | lia].
  - cbn [all_downloads_fail] in Hfail.
    destruct (failed_download client model (trace w) (file_id a))
      as [requests|] eqn:Hdl; [|discriminate].
    destruct (@failed_download_run model (trace w) (file_id a) requests w
                Hdl eq_refl)
      as (w1 & Hrun & Htrace & Hlog).
    unfold bind at 1. unfold bind at 1. rewrite Hrun. unfold ret at 1.
    rewrite <- Htrace in Hfail.
    destruct (IH rest parts w1 Hfail) as (w' & Hloop & Hrest & Hlen).
    exists w'. split; [exact Hloop|]. split; [exact Hrest | lia].
Qed.

Lemma skip_failed_messages model messages : forall parts w,
  Forall (fun msg => file_path_annotations msg <> None) messages ->
  all_downloads_fail client model (trace w)
    (map file_id (attachments messages)) = true ->
  exists w',
    for_fold messages parts
      (fun parts msg =>
         match file_path_annotations msg with
         | None =>
             raise (AttributeError
                      "'ThreadMessage' object has no attribute 'file_path_annotations'")
         | Some annotations =>
             for_fold annotations parts (fun parts annotation =>
               csv_content <- _download_and_read_csv client (file_id annotation) model ;;
               match csv_content with
               | Some content =>
                   if truthy content
                   then
                     let file_name := _format_csv_name (annotation_text annotation) in
                     let part := "# " ++ file_name ++ nl ++ content ++ nl ++ nl in
                     ret (app parts [part])
                   else ret parts
               | None => ret parts
               end)
         end) w
    = (Return parts, w') /\
    length (log w') = length (log w) + length (attachments messages).
Proof.
  induction messages as [|msg messages IH]; intros parts w Hann Hfail;
    cbn [for_fold attachments flat_map length] in *.
  - exists w. split; [reflexivity | lia].
  - inversion Hann as [|? ? Hmsg Hrest]; subst.
    fold (attachments messages) in *.
    destruct (file_path_annotations msg) as [annotations|]; [|congruence].
    rewrite map_app in Hfail.
    destruct (@skip_failed_downloads model annotations _ parts w Hfail)
      as (w1 & Hloop & Hfail1 & Hlen1).
    unfold bind at 1. cbv zeta in Hloop. rewrite Hloop.
    destruct (IH parts w1 Hrest Hfail1) as (w' & Hloop' & Hlen').
    exists w'. split; [exact Hloop'|]. rewrite length_app. lia.
Qed.

Lemma extract_nothing thread model w messages :
  on_messages client (trace w) (messages_list thread) = inr messages ->
  Forall (fun msg => file_path_annotations msg <> None) messages ->
  all_downloads_fail client model (trace w ++ [messages_list thread])
    (map file_id (attachments messages)) = true ->
  exists w',
    _extract_csv_results client thread model w = (Return "", w') /\
    length (log w') = length (log w) + length (attachments messages).
Proof.
  intros Hlist Hann Hfail. unfold _extract_csv_results.
  unfold bind at 1, call_messages at 1. rewrite Hlist. cbn [of_answer].
  destruct (@skip_failed_messages model messages []
              (record (messages_list thread) w) Hann Hfail)
    as (w' & Hloop & Hlen).
  unfold bind at 1. cbv zeta in Hloop. rewrite Hloop.
  exists w'. split; [reflexivity | exact Hlen].
Qed.

Lemma prepare_keeps_name p l m context w r st' :
  _prepare_comparison_files client p l m (context, w) = (r, st') ->
  model_name (fst st') = model_name context.
Proof.
  unfold _prepare_comparison_files, bind, lift, modify_context. cbn [fst snd].
  destruct (file_utils.copy_files_to_temp client _ w) as [[copied|e] w1];
    intros [= <- <-]; reflexivity.
Qed.

Lemma upload_keeps_name paths : forall (context : AgentContext) w r st',
  for_each paths (fun file_path =>
    file <- lift (call_text client (files_upload_and_poll file_path None)) ;;
    modify_context (fun c : AgentContext =>
      {| model_name := model_name c;
         file_ids := file_ids c ++ [file]; agent_id := agent_id c;
         thread_id := thread_id c; tmp_files := tmp_files c |}))
    (context, w) = (r, st') ->
  model_name (fst st') = model_name context.
Proof.
  induction paths as [|path paths IH]; intros context w r st'; cbn [for_each].
  - unfold ret. intros [= <- <-]. reflexivity.
  - unfold bind at 1, bind at 1, lift at 1, call_text at 1. cbn [fst snd].
    destruct (on_text client (trace w) _) as [e|fid]; cbn [of_answer].
    + intros [= <- <-]. reflexivity.
    + unfold modify_context at 1. cbn [fst snd]. intros H.
      apply IH in H. exact H.
Qed.

Lemma create_keeps_name m (context : AgentContext) w r st' :
  _create_and_configure_agent client m (context, w) = (r, st') ->
  model_name (fst st') = model_name context.
Proof.
  unfold _create_and_configure_agent, bind, get_context, lift, call_text,
    modify_context. cbn [fst snd].
  destruct (on_text client (trace w) _) as [e|agent]; cbn [of_answer fst snd].
  - intros [= <- <-]. reflexivity.
  - destruct (on_text client _ threads_create) as [e|thread];
      cbn [of_answer fst snd]; intros [= <- <-]; reflexivity.
Qed.

Lemma setup_keeps_name p l m context w1 :
  (_prepare_comparison_files client p l m ;;
   _upload_files_to_agent client ;;
   _create_and_configure_agent client m) (new_context m, empty_world)
  = (Return tt, (context, w1)) ->
  model_name context = m.
Proof.
  intros Hsetup.
  apply bind_Return_inv in Hsetup as ([] & [c1 v1] & Hprepare & Hsetup).
  apply bind_Return_inv in Hsetup as ([] & [c2 v2] & Hupload & Hcreate).
  apply prepare_keeps_name in Hprepare as H1.
  unfold _upload_files_to_agent in Hupload.
  unfold bind at 1, get_context in Hupload. cbn [fst snd] in Hupload.
  apply upload_keeps_name in Hupload as H2.
  apply create_keeps_name in Hcreate as H3.
  cbn [fst] in *. now rewrite H3, H2, H1.
Qed.

Lemma runner_hands_on p l task m context w1 s w2 :
  (_prepare_comparison_files client p l m ;;
   _upload_files_to_agent client ;;
   _create_and_configure_agent client m) (new_context m, empty_world)
  = (Return tt, (context, w1)) ->
  _execute_agent_task client task (context, w1) = (Return s, (context, w2)) ->
  fst (_run_comparison_sync client p l task m empty_world) = Return s.
Proof.
  intros Hsetup Htask.
  apply bind_Return_inv in Hsetup as ([] & [c1 v1] & Hprepare & Hsetup).
  apply bind_Return_inv in Hsetup as ([] & [c2 v2] & Hupload & Hcreate).
  unfold _run_comparison_sync, with_context, try_finally, try_except.
  unfold bind at 1. rewrite Hprepare.
  unfold bind at 1. rewrite Hupload.
  unfold bind at 1. rewrite Hcreate. rewrite Htask.
  destruct (context_release_run client context w2) as (w3 & -> & _).
  reflexivity.
Qed.

End Empty_handed.

Lemma nth_error_enumerate {A} (xs : list A) : forall start i x,
  nth_error xs i = Some x ->
  nth_error (enumerate xs start) i = Some (start + i, x).
Proof.
  induction xs as [|y xs IH]; intros start [|i] x H;
    cbn [enumerate nth_error] in *; try discriminate.
  - injection H as <-. now rewrite Nat.add_0_r.
  - rewrite Nat.add_succ_r. now apply (IH (S start)).
Qed.

Lemma nth_error_zip {A B} (xs : list A) : forall (ys : list B) i x y,
  nth_error xs i = Some x -> nth_error ys i = Some y -> In (x, y) (zip xs ys).
Proof.
  unfold zip. induction xs as [|x0 xs IH]; intros [|y0 ys] [|i] x y Hx Hy;
    cbn [nth_error combine] in *; try discriminate.
  - injection Hx as <-. injection Hy as <-. now left.
  - right. eapply IH; eassumption.
Qed.

Lemma kept_string_is_held (self : CSVComparisonAgentService.service)
    (results : list (outcome string)) (model s : string) (w : world) :
  In (model, Return s)
     (zip (CSVComparisonAgentService.model_deployments self) results) ->
  startswith s "Error:" = false ->
  exists d w',
    CSVComparisonAgentService._collect_successful_outputs self results w
    = (Return d, w') /\
    mem d model = true /\
    (NoDup (CSVComparisonAgentService.model_deployments self) ->
     get d model = Some s).
Proof.
  intros Hin Hs.
  destruct (comparison_collect_run self results w) as (w' & Hrun & _).
  eexists. exists w'. split; [exact Hrun|]. split.
  - now apply kept_member with (s := s).
  - intros Hnodup.
    pose proof (zip_names_NoDup results Hnodup) as Hzip.
    apply in_split in Hin as (pre & post & Heq).
    rewrite Heq in *. rewrite kept_app. cbn [kept]. rewrite Hs. cbn [negb].
    rewrite kept_untouched; [apply get_setitem_same|].
    rewrite map_app in Hzip. cbn [map fst] in Hzip.
    apply NoDup_remove_2 in Hzip. intros Hin. apply Hzip.
    apply in_or_app. now right.
Qed.

(** C10. A comparison task of the fan-out whose set-up succeeds and whose
    task is accepted finds the completion marker in one of its
    attempts; the thread's messages then carry no attachment, or every
    attachment fails to download: saving it, reading it or removing
    the saved file raises.  Each failed download is logged and dropped,
    the extraction joins no part, and the task returns the empty
    string.  The runner hands it on, the fan-out gathers it, and since
    it does not start with [Error:] the collection step keeps it under
    the model's name. *)
Theorem empty_extraction_counts_as_success :
  forall (self : CSVComparisonAgentService.service)
         (python_output_path legacy_output_path task : string)
         (position : nat) (model : string) (client : Env)
         (context : CSVComparisonAgentService.AgentContext) (w1 : world)
         (n : nat) (messages : list ThreadMessage),
    let post :=
      messages_create (BaseAgentService.thread_id context) task in
    let detected :=
      (trace w1 ++ [post] ++ protocol_of context (seq 1 n)
       ++ [run_request context; read_request context])%list in
    let listing := messages_list (BaseAgentService.thread_id context) in
    nth_error (CSVComparisonAgentService.model_deployments self) position
    = Some model ->
    submit_error (CSVComparisonAgentService._executor self position) = None ->
    meets (CSVComparisonAgentService._executor self position) = client ->
    (CSVComparisonAgentService._prepare_comparison_files client
       python_output_path legacy_output_path model ;;
     CSVComparisonAgentService._upload_files_to_agent client ;;
     CSVComparisonAgentService._create_and_configure_agent client model)
      (BaseAgentService.new_context model, empty_world)
    = (Return tt, (context, w1)) ->
    on_effect client (trace w1) post = None ->
    n < CSVComparisonAgentService.MAX_ATTEMPTS ->
    sentinel_after client context (trace w1 ++ [post]) n = true ->
    on_messages client detected listing = inr messages ->
    Forall (fun msg => file_path_annotations msg <> None) messages ->
    all_downloads_fail client model (detected ++ [listing])
      (map file_id (attachments messages)) = true ->
    (exists w2,
        CSVComparisonAgentService._execute_agent_task client task (context, w1)
        = (Return "", (context, w2)) /\
        length (log w2) = length (log w1) + length (attachments messages)) /\
    nth_error (CSVComparisonAgentService.gather self python_output_path
                 legacy_output_path task) position
    = Some (Return "") /\
    forall w : world,
      exists d w',
        CSVComparisonAgentService._collect_successful_outputs self
          (CSVComparisonAgentService.gather self python_output_path
             legacy_output_path task) w
        = (Return d, w') /\
        mem d model = true /\
        (NoDup (CSVComparisonAgentService.model_deployments self) ->
         get d model = Some "").
Proof.
  intros self p l task position model client context w1 n messages.
  cbv zeta.
  intros Hmodel Hsubmit Hmeets Hsetup Hpost Hn Hsentinel Hlist Hann Hfail.
  pose proof (@setup_keeps_name client p l model context w1 Hsetup) as Hname.
  assert (Htask : exists w2,
             CSVComparisonAgentService._execute_agent_task client task
               (context, w1) = (Return "", (context, w2)) /\
             length (log w2)
             = length (log w1) + length (attachments messages)).
  { rewrite execute_agent_task_run. cbv zeta. rewrite Hpost.
    rewrite (@attempts_sentinel client context n
               (record (messages_create (BaseAgentService.thread_id context)
                          task) w1) Hn Hsentinel).
    rewrite Hname.
    match goal with
    | |- context [CSVComparisonAgentService._extract_csv_results client ?t ?m ?w0] =>
        destruct (@extract_nothing client t m w0 messages)
          as (w2 & Hrun & Hlen)
    end.
    - cbn [record trace]. now rewrite <- app_assoc.
    - exact Hann.
    - cbn [record trace]. now rewrite <- (app_assoc (trace w1)).
    - rewrite Hrun. exists w2. cbn [fst snd]. split; [reflexivity|].
      exact Hlen. }
  destruct Htask as (w2 & Htask & Hlen).
  assert (Hgather :
            nth_error (CSVComparisonAgentService.gather self p l task) position
            = Some (Return "")).
  { unfold CSVComparisonAgentService.gather.
    erewrite map_nth_error by (apply nth_error_enumerate; exact Hmodel).
    cbn [Nat.add]. f_equal.
    unfold CSVComparisonAgentService._run_single_comparison, run_in_executor.
    rewrite Hsubmit, Hmeets.
    eapply runner_hands_on; eassumption. }
  split; [exists w2; split; assumption|]. split; [exact Hgather|].
  intros w. apply kept_string_is_held; [|reflexivity].
  eapply nth_error_zip; eassumption.
Qed.

(** C10 at work: the first of two tasks finds the marker after its
    second run; one of its two attachments cannot be saved, the other
    cannot be read. *)
Lemma empty_extraction_counts_as_success_witness :
  nth_error (CSVComparisonAgentService.gather empty_handed
               "/data/out_PY.csv" "/data/out.csv" "compare") 0
  = Some (Return "") /\
  exists d w',
    CSVComparisonAgentService._collect_successful_outputs empty_handed
      (CSVComparisonAgentService.gather empty_handed
         "/data/out_PY.csv" "/data/out.csv" "compare") empty_world
    = (Return d, w') /\
    get d "gpt-4" = Some "".
Proof.
  edestruct (@empty_extraction_counts_as_success empty_handed
               "/data/out_PY.csv" "/data/out.csv" "compare" 0 "gpt-4"
               late_and_unreadable)
    with (n := 1)
    as (_ & Hgather & Hkept).
  - reflexivity.
  - reflexivity.
  - reflexivity.
  - vm_compute. reflexivity.
  - reflexivity.
  - unfold CSVComparisonAgentService.MAX_ATTEMPTS. lia.
  - reflexivity.
  - reflexivity.
  - repeat constructor; discriminate.
  - reflexivity.
  - split; [exact Hgather|].
    destruct (Hkept empty_world) as (d & w' & Hrun & _ & Hget).
    exists d, w'. split; [exact Hrun|]. apply Hget.
    repeat constructor; simpl; intuition discriminate.
Defined.
